(** * ReaderPLY: the PLY mesh reader of Mod/Mesh/App/Core/IO/ReaderPLY.cpp

    A shallow embedding of [MeshCore::ReaderPLY] and the properties of its
    header parser, schema validation, ASCII decoder and binary decoder.

    Conventions of the embedding:
    - a [std::istream] is a record of the characters not yet extracted and
      its [eofbit] and [failbit];
    - a C++ reference parameter that an extraction may leave untouched is
      passed in and returned ([getline input line] takes the old [line]);
    - the members of [ReaderPLY] form the record [ReaderPLY]; every member
      function takes the record and returns the updated one;
    - [boost::lexical_cast] and [std::vector::reserve] can throw: the
      functions that call them, and their callers, return an [outcome],
      either [Return] or [Throw];
    - what lies outside ReaderPLY.cpp is a parameter: the conversion of
      [lexical_cast<double>], the extraction operators of
      [Base::InputStream], [max_size()] of the two arrays, and the
      collaborators of [CleanupMesh];
    - [size_t] values are [Z] (the list lengths involved stay far below
      2^64, so no wrap-around is written out for counters);
    - [float] and [double] are IEEE binary32 and binary64 as [spec_float]
      with the operations of [SpecFloat] at those precisions. *)

From Stdlib Require Import ZArith NArith List String Ascii Bool Lia.
From Stdlib Require Import Floats.SpecFloat.
Import ListNotations.

Local Open Scope string_scope.
Local Open Scope Z_scope.

(** ** Numbers *)

(** [float]: IEEE binary32. *)
Definition cfloat := spec_float.
(** [double]: IEEE binary64. *)
Definition cdouble := spec_float.

Definition prec32 : Z := 24.
Definition emax32 : Z := 128.
Definition prec64 : Z := 53.
Definition emax64 : Z := 1024.

(** [static_cast<float>(v)] for an integer [v]. *)
Definition float_of_int (v : Z) : cfloat :=
  binary_normalize prec32 emax32 v 0 false.

(** [static_cast<float>(v)] for a double [v]. *)
Definition float_of_double (v : cdouble) : cfloat :=
  match v with
  | S754_finite s m e => binary_normalize prec32 emax32 (cond_Zopp s (Zpos m)) e s
  | _ => v
  end.

(** [a / b] on floats. *)
Definition fdiv (a b : cfloat) : cfloat := SFdiv prec32 emax32 a b.

(** The literal [255.0F]. *)
Definition f255 : cfloat := float_of_int 255.

(** The value of a value-initialised float, [float v {}]. *)
Definition fzero : cfloat := S754_zero false.

(** ** Characters and strings *)

Definition code (c : ascii) : Z := Z.of_N (N_of_ascii c).

(** [std::isspace] in the classic locale: space, \t, \n, \v, \f, \r. *)
Definition isspace (c : ascii) : bool :=
  ((9 <=? code c) && (code c <=? 13)) || (code c =? 32).

Definition isdigit (c : ascii) : bool :=
  (48 <=? code c) && (code c <=? 57).

Definition isalpha (c : ascii) : bool :=
  ((65 <=? code c) && (code c <=? 90)) || ((97 <=? code c) && (code c <=? 122)).

Definition newline : ascii := "010"%char.

Fixpoint all_chars (p : ascii -> bool) (s : string) : bool :=
  match s with
  | EmptyString => true
  | String c s' => p c && all_chars p s'
  end.

(** [s.substr(n)] for [n <= s.size()]. *)
Fixpoint substr (n : nat) (s : string) : string :=
  match n, s with
  | O, _ => s
  | S n', String _ s' => substr n' s'
  | S _, EmptyString => EmptyString
  end.

(** The first [n] characters of [s]. *)
Fixpoint prefix_of (n : nat) (s : string) : string :=
  match n, s with
  | S n', String c s' => String c (prefix_of n' s')
  | _, _ => EmptyString
  end.

Definition strlen (s : string) : nat := String.length s.

(** ** Exceptions *)

(** The exceptions that leave the reader: [boost::bad_lexical_cast] and
    [std::length_error]. *)
Inductive exception := bad_lexical_cast | length_error.

Inductive outcome (A : Type) :=
| Return (a : A)
| Throw (e : exception).
Arguments Return {A} a.
Arguments Throw {A} e.

Definition bind {A B} (m : outcome A) (f : A -> outcome B) : outcome B :=
  match m with
  | Return a => f a
  | Throw e => Throw e
  end.

Notation "x <- m ;; k" := (bind m (fun x => k))
  (at level 61, m at next level, right associativity).
Notation "' p <- m ;; k" := (bind m (fun x => match x with p => k end))
  (at level 61, p pattern, m at next level, right associativity).

(** ** std::istream *)

Record istream := {
  buf : string;       (* the characters not yet extracted *)
  eofbit : bool;
  failbit : bool
}.

(** A stream freshly opened on [s] (also [std::istringstream str(s)]). *)
Definition stream_of (s : string) : istream :=
  {| buf := s; eofbit := false; failbit := false |}.

Definition good (s : istream) : bool := negb (eofbit s) && negb (failbit s).

(** [!s], also the result of a stream used as a condition, negated. *)
Definition fail (s : istream) : bool := failbit s.

Definition set_fail (s : istream) : istream :=
  {| buf := buf s; eofbit := eofbit s; failbit := true |}.

Definition at_eof_fail : istream :=
  {| buf := ""; eofbit := true; failbit := true |}.

Definition at_eof : istream :=
  {| buf := ""; eofbit := true; failbit := false |}.

Definition advance (rest : string) : istream :=
  {| buf := rest; eofbit := false; failbit := false |}.

(** [s.read(p, n)]: the characters stored and the stream after. A stream
    that is not good stores nothing; a stream that runs out stores what
    there is and sets [eofbit] and [failbit]. *)
Definition read (n : nat) (s : istream) : string * istream :=
  if good s then
    if (n <=? strlen (buf s))%nat
    then (prefix_of n (buf s), advance (substr n (buf s)))
    else (buf s, at_eof_fail)
  else (EmptyString, set_fail s).

(** [s.ignore(1)]. *)
Definition ignore1 (s : istream) : istream :=
  if good s then
    match buf s with
    | EmptyString => at_eof
    | String _ rest => advance rest
    end
  else set_fail s.

(** The characters before the first newline, and what follows that newline
    when there is one. *)
Fixpoint split_delim (s : string) : string * option string :=
  match s with
  | EmptyString => (EmptyString, None)
  | String c s' =>
      if Ascii.eqb c newline then (EmptyString, Some s')
      else let '(l, r) := split_delim s' in (String c l, r)
  end.

(** [std::getline(input, line)]: the new [line] and the stream after.
    The call succeeded when the stream after does not [fail]. *)
Definition getline (input : istream) (line : string) : string * istream :=
  if good input then
    match buf input with
    | EmptyString => (EmptyString, at_eof_fail)
    | _ =>
        match split_delim (buf input) with
        | (l, Some rest) => (l, advance rest)
        | (l, None) => (l, at_eof)
        end
    end
  else (line, set_fail input).

(** *** Formatted extraction, with [skipws] unset *)

Fixpoint skip_space (s : string) : string :=
  match s with
  | EmptyString => EmptyString
  | String c s' => if isspace c then skip_space s' else s
  end.

(** [str >> std::ws]. *)
Definition ws (str : istream) : istream :=
  if good str then
    match skip_space (buf str) with
    | EmptyString => at_eof
    | rest => advance rest
    end
  else set_fail str.

(** [str >> c] for a [char c]: no whitespace is skipped. *)
Definition get_char (str : istream) (c : ascii) : ascii * istream :=
  if good str then
    match buf str with
    | EmptyString => (c, at_eof_fail)
    | String a rest => (a, advance rest)
    end
  else (c, set_fail str).

(** The characters up to the first whitespace, and the rest from it on. *)
Fixpoint split_token (s : string) : string * string :=
  match s with
  | EmptyString => (EmptyString, EmptyString)
  | String c s' =>
      if isspace c then (EmptyString, s)
      else let '(t, r) := split_token s' in (String c t, r)
  end.

(** [str >> t] for a [std::string t]: no whitespace is skipped; the
    extraction fails when no character could be taken. *)
Definition get_string (str : istream) (t : string) : string * istream :=
  if good str then
    match split_token (buf str) with
    | (tok, EmptyString) =>
        (tok, {| buf := ""; eofbit := true;
                 failbit := match tok with EmptyString => true | _ => false end |})
    | (EmptyString, rest) => (EmptyString, set_fail (advance rest))
    | (tok, rest) => (tok, advance rest)
    end
  else (t, set_fail str).

(** The leading decimal digits of [s] as a number (with how many there
    were), and the rest. *)
Fixpoint take_digits (acc : Z) (n : nat) (s : string) : Z * nat * string :=
  match s with
  | String c s' =>
      if isdigit c then take_digits (10 * acc + (code c - 48)) (S n) s'
      else (acc, n, s)
  | EmptyString => (acc, n, s)
  end.

Definition SIZE_MAX : Z := 2 ^ 64 - 1.

Definition PTRDIFF_MAX : Z := 2 ^ 63 - 1.

(** ** std::vector

    [max_size()] of the two arrays of the reader depends on the library
    and on the size of the elements, [MeshPoint] and [MeshFacet] of
    Core/Elements.h; it is a parameter here, and the largest [ptrdiff_t]
    bounds it. *)
Class VectorLimits := {
  points_max_size : Z;   (* meshPoints.max_size() *)
  facets_max_size : Z;   (* meshFacets.max_size() *)
  points_max_size_range : 0 <= points_max_size <= PTRDIFF_MAX;
  facets_max_size_range : 0 <= facets_max_size <= PTRDIFF_MAX
}.

(** [v.reserve(n)] on a vector with the given [max_size()]: a count above
    it throws [std::length_error]; otherwise a capacity is set, which
    changes no element. *)
Definition reserve (max_size n : Z) : outcome unit :=
  if max_size <? n then Throw length_error else Return tt.

(** [str >> count] for a [std::size_t count]: an optional sign, then
    decimal digits; no digit stores 0 and fails, a magnitude above
    [SIZE_MAX] stores [SIZE_MAX] and fails, a minus sign negates modulo
    2^64. *)
Definition get_size_t (str : istream) (count : Z) : Z * istream :=
  if good str then
    let '(neg, s1) :=
      match buf str with
      | String "-"%char r => (true, r)
      | String "+"%char r => (false, r)
      | s => (false, s)
      end in
    let '(v, n, rest) := take_digits 0 0 s1 in
    let after :=
      match rest with
      | EmptyString => at_eof
      | _ => advance rest
      end in
    match n with
    | O => (0, set_fail after)
    | _ =>
        if v <=? SIZE_MAX
        then ((if neg then (2 ^ 64 - v) mod 2 ^ 64 else v), after)
        else (SIZE_MAX, set_fail after)
    end
  else (count, set_fail str).

(** ** The data model of ReaderPLY *)

(** Modelled from the spec: the enumeration of the member [format],
    declared in ReaderPLY.h: the three format modes, and [unknown] for the
    member before any format line, which is none of the three. *)
Module Format.
Inductive t := unknown | ascii | binary_big_endian | binary_little_endian.

Definition eqb (a b : t) : bool :=
  match a, b with
  | unknown, unknown | ascii, ascii
  | binary_big_endian, binary_big_endian
  | binary_little_endian, binary_little_endian => true
  | _, _ => false
  end.
End Format.

(** Modelled from the spec: [enum Property] of ReaderPLY.h, the role of a
    vertex property, with the enumerators that [propertyOfName] returns. *)
Inductive Property :=
| coord_x | coord_y | coord_z | color_r | color_g | color_b | generic.

(** Modelled from the spec: [enum Number] of ReaderPLY.h, the numeric kind
    of a property, with the enumerators of the switches. *)
Inductive Number :=
| int8 | uint8 | int16 | uint16 | int32 | uint32 | float32 | float64.

Definition Property_eqb (a b : Property) : bool :=
  match a, b with
  | coord_x, coord_x | coord_y, coord_y | coord_z, coord_z
  | color_r, color_r | color_g, color_g | color_b, color_b
  | generic, generic => true
  | _, _ => false
  end.

(** Modelled from the spec: [PropertyArray] of ReaderPLY.h, one float per
    [Property]; [PropertyArray v {}] holds zero everywhere. *)
Definition PropertyArray := Property -> cfloat.

Definition prop_values_init : PropertyArray := fun _ => fzero.

(** [prop_values[p] = v]. *)
Definition prop_set (a : PropertyArray) (p : Property) (v : cfloat) : PropertyArray :=
  fun q => if Property_eqb p q then v else a q.

(** [Base::Vector3f]: the three coordinates that [addVertexProperty]
    assigns. *)
Record Vector3f := { x : cfloat; y : cfloat; z : cfloat }.

(** [MeshFacet(p1, p2, p3)]: the three point indices. *)
Record MeshFacet := { p1 : Z; p2 : Z; p3 : Z }.

(** A colour of [Material::diffuseColor], built by [emplace_back(r, g, b)]. *)
Record Color := { r : cfloat; g : cfloat; b : cfloat }.

(** Modelled from the spec: [MeshIO::Binding] of Core/MeshIO.h; the reader
    only names [PER_VERTEX]. *)
Inductive Binding := OVERALL | PER_VERTEX | PER_FACE.

Definition Binding_eqb (a c : Binding) : bool :=
  match a, c with
  | OVERALL, OVERALL | PER_VERTEX, PER_VERTEX | PER_FACE, PER_FACE => true
  | _, _ => false
  end.

(** The two members of [Material] that the reader touches. *)
Record Material := {
  binding : Binding;
  diffuseColor : list Color
}.

(** Modelled from the spec: the members of [ReaderPLY], declared in
    ReaderPLY.h, as the member functions use them. [_material] is [None]
    for a null pointer. [_kernel] is a reference to the mesh kernel of the
    caller; the member records the calls made on it: every [CleanupMesh]
    appends the point and facet arrays it passed to [Adopt], after
    [Clear]. *)
Record ReaderPLY := {
  format : Format.t;
  v_count : Z;
  f_count : Z;
  vertex_props : list (Property * Number);
  face_props : list Number;
  meshPoints : list Vector3f;
  meshFacets : list MeshFacet;
  _material : option Material;
  _kernel : list (list Vector3f * list MeshFacet)
}.

(** [ReaderPLY(kernel, material)]. *)
Definition new_ReaderPLY (material : option Material) : ReaderPLY :=
  {| format := Format.unknown; v_count := 0; f_count := 0;
     vertex_props := []; face_props := [];
     meshPoints := []; meshFacets := [];
     _material := material; _kernel := [] |}.

Definition set_format (f : Format.t) (st : ReaderPLY) : ReaderPLY :=
  {| format := f; v_count := v_count st; f_count := f_count st;
     vertex_props := vertex_props st; face_props := face_props st;
     meshPoints := meshPoints st; meshFacets := meshFacets st;
     _material := _material st; _kernel := _kernel st |}.

Definition set_v_count (n : Z) (st : ReaderPLY) : ReaderPLY :=
  {| format := format st; v_count := n; f_count := f_count st;
     vertex_props := vertex_props st; face_props := face_props st;
     meshPoints := meshPoints st; meshFacets := meshFacets st;
     _material := _material st; _kernel := _kernel st |}.

Definition set_f_count (n : Z) (st : ReaderPLY) : ReaderPLY :=
  {| format := format st; v_count := v_count st; f_count := n;
     vertex_props := vertex_props st; face_props := face_props st;
     meshPoints := meshPoints st; meshFacets := meshFacets st;
     _material := _material st; _kernel := _kernel st |}.

Definition push_vertex_prop (p : Property * Number) (st : ReaderPLY) : ReaderPLY :=
  {| format := format st; v_count := v_count st; f_count := f_count st;
     vertex_props := vertex_props st ++ [p]; face_props := face_props st;
     meshPoints := meshPoints st; meshFacets := meshFacets st;
     _material := _material st; _kernel := _kernel st |}.

Definition push_face_prop (n : Number) (st : ReaderPLY) : ReaderPLY :=
  {| format := format st; v_count := v_count st; f_count := f_count st;
     vertex_props := vertex_props st; face_props := face_props st ++ [n];
     meshPoints := meshPoints st; meshFacets := meshFacets st;
     _material := _material st; _kernel := _kernel st |}.

Definition push_point (pt : Vector3f) (st : ReaderPLY) : ReaderPLY :=
  {| format := format st; v_count := v_count st; f_count := f_count st;
     vertex_props := vertex_props st; face_props := face_props st;
     meshPoints := meshPoints st ++ [pt]; meshFacets := meshFacets st;
     _material := _material st; _kernel := _kernel st |}.

Definition push_facet (f : MeshFacet) (st : ReaderPLY) : ReaderPLY :=
  {| format := format st; v_count := v_count st; f_count := f_count st;
     vertex_props := vertex_props st; face_props := face_props st;
     meshPoints := meshPoints st; meshFacets := meshFacets st ++ [f];
     _material := _material st; _kernel := _kernel st |}.

Definition set_material (m : option Material) (st : ReaderPLY) : ReaderPLY :=
  {| format := format st; v_count := v_count st; f_count := f_count st;
     vertex_props := vertex_props st; face_props := face_props st;
     meshPoints := meshPoints st; meshFacets := meshFacets st;
     _material := m; _kernel := _kernel st |}.

(** ** The header parser *)

(** [ReaderPLY::CheckHeader]: the result and the stream after. The array
    [ply] starts as three zero characters; [read] overwrites the ones it
    extracted, and the comparison is only reached when all three were.
    A stream here always has a buffer, so the test of [rdbuf] passes. *)
Definition CheckHeader (input : istream) : bool * istream :=
  if fail input then (false, input)
  else
    let '(ply, input1) := read 3 input in
    let input2 := ignore1 input1 in
    if fail input2 then (false, input2)
    else (String.eqb ply "ply", input2).

(** [ReaderPLY::ReadFormat]. *)
Definition ReadFormat (st : ReaderPLY) (str : istream) : bool * ReaderPLY :=
  let '(space_format_string, str) := get_char str zero in
  let str := ws str in
  let '(format_string, str) := get_string str "" in
  let '(space_format_version, str) := get_char str zero in
  let str := ws str in
  let '(version, str) := get_string str "" in
  if negb (isspace space_format_string) || negb (isspace space_format_version)
  then (false, st)
  else if String.eqb format_string "ascii"
  then (String.eqb version "1.0", set_format Format.ascii st)
  else if String.eqb format_string "binary_big_endian"
  then (String.eqb version "1.0", set_format Format.binary_big_endian st)
  else if String.eqb format_string "binary_little_endian"
  then (String.eqb version "1.0", set_format Format.binary_little_endian st)
  else (false, st).

(** [ReaderPLY::ReadElement]: the result, the reader and [element] after,
    or the exception of [reserve]. *)
Definition ReadElement {VL : VectorLimits} (st : ReaderPLY) (str : istream)
  (element : string) : outcome (bool * ReaderPLY * string) :=
  let '(space_element_name, str) := get_char str zero in
  let str := ws str in
  let '(name, str) := get_string str "" in
  let '(space_name_count, str) := get_char str zero in
  let str := ws str in
  let '(count, str) := get_size_t str 0 in
  if negb (isspace space_element_name) || negb (isspace space_name_count)
  then Return (false, st, element)
  else if String.eqb name "vertex"
  then
    reserved <- reserve points_max_size count ;;
    Return (true, set_v_count count st, name)
  else if String.eqb name "face"
  then
    reserved <- reserve facets_max_size count ;;
    Return (true, set_f_count count st, name)
  else Return (true, st, "").

(** [ReaderPLY::propertyOfName]. *)
Definition propertyOfName (name : string) : Property :=
  if String.eqb name "x" then coord_x
  else if String.eqb name "y" then coord_y
  else if String.eqb name "z" then coord_z
  else if String.eqb name "red" || String.eqb name "diffuse_red" then color_r
  else if String.eqb name "green" || String.eqb name "diffuse_green" then color_g
  else if String.eqb name "blue" || String.eqb name "diffuse_blue" then color_b
  else generic.

(** The chain of comparisons on [type] that [ReadVertexProperty] and
    [ReadFaceProperty] both spell out; [None] is the final [else]. *)
Definition number_of_type (type : string) : option Number :=
  if String.eqb type "char" || String.eqb type "int8" then Some int8
  else if String.eqb type "uchar" || String.eqb type "uint8" then Some uint8
  else if String.eqb type "short" || String.eqb type "int16" then Some int16
  else if String.eqb type "ushort" || String.eqb type "uint16" then Some uint16
  else if String.eqb type "int" || String.eqb type "int32" then Some int32
  else if String.eqb type "uint" || String.eqb type "uint32" then Some uint32
  else if String.eqb type "float" || String.eqb type "float32" then Some float32
  else if String.eqb type "double" || String.eqb type "float64" then Some float64
  else None.

(** [ReaderPLY::ReadVertexProperty]. *)
Definition ReadVertexProperty (st : ReaderPLY) (str : istream) : bool * ReaderPLY :=
  let '(space, str) := get_char str zero in
  let str := ws str in
  let '(type, str) := get_string str "" in
  let '(space, str) := get_char str space in
  let str := ws str in
  let '(name, str) := get_string str "" in
  let str := ws str in
  match number_of_type type with
  | Some number => (true, push_vertex_prop (propertyOfName name, number) st)
  | None => (false, st)
  end.

(** [ReaderPLY::ReadFaceProperty]. *)
Definition ReadFaceProperty (st : ReaderPLY) (str : istream) : bool * ReaderPLY :=
  let '(space, str) := get_char str zero in
  let str := ws str in
  let '(list, str) := get_string str "" in
  let str := ws str in
  let '(type, name) :=
    if String.eqb list "list" then
      let '(uchr, str) := get_string str "" in
      let str := ws str in
      let '(type, str) := get_string str "" in
      let str := ws str in
      let '(name, str) := get_string str "" in
      let str := ws str in
      (type, name)
    else
      let '(name, str) := get_string str "" in
      (list, name) in
  if negb (String.eqb name "vertex_indices") && negb (String.eqb name "vertex_index")
  then
    match number_of_type type with
    | Some number => (true, push_face_prop number st)
    | None => (false, st)
    end
  else (true, st).

(** [ReaderPLY::ReadProperty]. *)
Definition ReadProperty (st : ReaderPLY) (str : istream) (element : string)
  : bool * ReaderPLY :=
  if String.eqb element "vertex" then ReadVertexProperty st str
  else if String.eqb element "face" then ReadFaceProperty st str
  else (true, st).

(** What one turn of the loop of [ReadHeader] does with the line read. *)
Inductive line_result :=
| go_on (st : ReaderPLY) (element : string)   (* next turn *)
| stop                                        (* [break] *)
| failed (st : ReaderPLY)                     (* [return false] *)
| raised (e : exception).                     (* an exception leaves the loop *)

(** The body of the loop of [ReaderPLY::ReadHeader]. *)
Definition header_line {VL : VectorLimits} (st : ReaderPLY) (element : string)
  (line : string) : line_result :=
  let str := ws (stream_of line) in
  if eofbit str then go_on st element
  else
    let '(kw, str) := get_string str "" in
    if String.eqb kw "format" then
      let '(ok, st') := ReadFormat st str in
      if ok then go_on st' element else failed st'
    else if String.eqb kw "element" then
      match ReadElement st str element with
      | Return (ok, st', element') => if ok then go_on st' element' else failed st'
      | Throw e => raised e
      end
    else if String.eqb kw "property" then
      let '(ok, st') := ReadProperty st str element in
      if ok then go_on st' element else failed st'
    else if String.eqb kw "end_header" then stop
    else go_on st element.

(** The loop of [ReadHeader]. Every successful [getline] takes at least
    one character, so [n] turns are enough for a stream of fewer than [n]
    characters. *)
Fixpoint ReadHeader_loop {VL : VectorLimits} (n : nat) (st : ReaderPLY)
  (element line : string) (input : istream)
  : outcome (bool * ReaderPLY * istream) :=
  match n with
  | O => Return (true, st, input)
  | S n' =>
      let '(line, input) := getline input line in
      if fail input then Return (true, st, input)
      else
        match header_line st element line with
        | go_on st' element' => ReadHeader_loop n' st' element' line input
        | stop => Return (true, st, input)
        | failed st' => Return (false, st', input)
        | raised e => Throw e
        end
  end.

(** [ReaderPLY::ReadHeader]. *)
Definition ReadHeader {VL : VectorLimits} (st : ReaderPLY) (input : istream)
  : outcome (bool * ReaderPLY * istream) :=
  ReadHeader_loop (S (strlen (buf input))) st "" "" input.

(** ** Schema validation *)

(** Modelled from the spec: [PropertyComp] of ReaderPLY.h, the predicate
    that [std::count_if] is given: it holds of a schema entry when the
    entry has the role asked for. *)
Definition PropertyComp (p : Property * Number) (role : Property) : bool :=
  Property_eqb (fst p) role.

(** [std::count_if(first, last, pred)]. *)
Fixpoint count_if {A} (pred : A -> bool) (l : list A) : Z :=
  match l with
  | [] => 0
  | a :: l' => (if pred a then 1 else 0) + count_if pred l'
  end.

(** [ReaderPLY::VerifyVertexProperty]. *)
Definition VerifyVertexProperty (st : ReaderPLY) : bool :=
  let num_x := count_if (fun p => PropertyComp p coord_x) (vertex_props st) in
  let num_y := count_if (fun p => PropertyComp p coord_y) (vertex_props st) in
  let num_z := count_if (fun p => PropertyComp p coord_z) (vertex_props st) in
  (num_x =? 1) && (num_y =? 1) && (num_z =? 1).

(** [ReaderPLY::VerifyColorProperty]: the result and the reader after.
    [diffuseColor.reserve(v_count)] sets a capacity and changes no element
    of the material; in [Load] the same count has been reserved for the
    points by [ReadElement] before. *)
Definition VerifyColorProperty (st : ReaderPLY) : bool * ReaderPLY :=
  let num_r := count_if (fun p => PropertyComp p color_r) (vertex_props st) in
  let num_g := count_if (fun p => PropertyComp p color_g) (vertex_props st) in
  let num_b := count_if (fun p => PropertyComp p color_b) (vertex_props st) in
  let rgb_colors := num_r + num_g + num_b in
  if negb (rgb_colors =? 0) && negb (rgb_colors =? 3) then (false, st)
  else if rgb_colors =? 3 then
    match _material st with
    | Some m =>
        (true, set_material
                 (Some {| binding := PER_VERTEX; diffuseColor := diffuseColor m |}) st)
    | None => (true, st)
    end
  else (true, st).

(** ** boost::regex

    The patterns of the reader use literal characters, character classes,
    greedy repetition of a class, greedy options, marked groups, the word
    boundary and the start-of-line anchor. [rmatch] is the backtracking
    matcher of the Perl syntax: alternatives are tried in order (for a
    greedy operator the longer one first) and the first complete match
    wins. *)

Inductive regex :=
| Chr (c : ascii)               (* a literal character *)
| Set_ (p : ascii -> bool)      (* one character of a class *)
| Star (p : ascii -> bool)      (* a class, zero or more times *)
| Plus (p : ascii -> bool)      (* a class, one or more times *)
| Opt (r : regex)               (* r, at most once *)
| Seq (r1 r2 : regex)
| Group (i : nat) (r : regex)   (* the marked sub-expression number i *)
| WordBoundary                  (* backslash b *)
| StartLine.                    (* the caret *)

(** Where the matcher stands: [pos] characters in, [prev] the character
    before (if any), [rest] the text ahead, [subs] the groups closed so
    far, the latest first. *)
Record mstate := {
  pos : nat;
  prev : option ascii;
  rest : string;
  subs : list (nat * string)
}.

Definition step (m : mstate) (c : ascii) (rest' : string) : mstate :=
  {| pos := S (pos m); prev := Some c; rest := rest'; subs := subs m |}.

Definition close_group (i : nat) (from to : mstate) : mstate :=
  {| pos := pos to; prev := prev to; rest := rest to;
     subs := (i, prefix_of (pos to - pos from) (rest from)) :: subs to |}.

(** A word character: a letter, a digit or the underscore. *)
Definition isword (c : ascii) : bool :=
  isalpha c || isdigit c || (code c =? 95).

Definition isword_at (c : option ascii) : bool :=
  match c with
  | Some a => isword a
  | None => false
  end.

Definition next_char (s : string) : option ascii :=
  match s with
  | String c _ => Some c
  | EmptyString => None
  end.

(** A line separator for the caret: \n, \r or \f. *)
Definition is_separator (c : ascii) : bool :=
  (code c =? 10) || (code c =? 13) || (code c =? 12).

(** The caret matches at the start of the text and after a line separator,
    except between \r and \n. *)
Definition at_start_line (m : mstate) : bool :=
  match prev m with
  | None => true
  | Some c =>
      is_separator c &&
      negb ((code c =? 13) &&
            match next_char (rest m) with
            | Some d => code d =? 10
            | None => false
            end)
  end.

Fixpoint match_star (p : ascii -> bool) (m : mstate) (s : string)
  (k : mstate -> option mstate) : option mstate :=
  match s with
  | String c s' =>
      if p c then
        match match_star p (step m c s') s' k with
        | Some m' => Some m'
        | None => k m
        end
      else k m
  | EmptyString => k m
  end.

Fixpoint rmatch (re : regex) (m : mstate) (k : mstate -> option mstate)
  : option mstate :=
  match re with
  | Chr c =>
      match rest m with
      | String a s' => if Ascii.eqb a c then k (step m a s') else None
      | EmptyString => None
      end
  | Set_ p =>
      match rest m with
      | String a s' => if p a then k (step m a s') else None
      | EmptyString => None
      end
  | Star p => match_star p m (rest m) k
  | Plus p =>
      match rest m with
      | String a s' => if p a then match_star p (step m a s') s' k else None
      | EmptyString => None
      end
  | Opt re1 =>
      match rmatch re1 m k with
      | Some m' => Some m'
      | None => k m
      end
  | Seq re1 re2 => rmatch re1 m (fun m' => rmatch re2 m' k)
  | Group i re1 => rmatch re1 m (fun m' => k (close_group i m m'))
  | WordBoundary =>
      if xorb (isword_at (prev m)) (isword_at (next_char (rest m)))
      then k m else None
  | StartLine => if at_start_line m then k m else None
  end.

(** [boost::smatch]: [what_0] is the whole match, [what_subs] the marked
    groups. *)
Record smatch := {
  what_0 : string;
  what_subs : list (nat * string)
}.

Fixpoint lookup_sub (i : nat) (l : list (nat * string)) : string :=
  match l with
  | [] => EmptyString
  | (j, s) :: l' => if Nat.eqb i j then s else lookup_sub i l'
  end.

(** [what[i]]. *)
Definition what (w : smatch) (i : nat) : string :=
  match i with
  | O => what_0 w
  | _ => lookup_sub i (what_subs w)
  end.

(** A match that starts where [m] stands. *)
Definition match_here (re : regex) (m : mstate) : option smatch :=
  match rmatch re m Some with
  | Some m' => Some {| what_0 := prefix_of (pos m' - pos m) (rest m);
                       what_subs := subs m' |}
  | None => None
  end.

Fixpoint search_from (re : regex) (m : mstate) (s : string) : option smatch :=
  match match_here re m with
  | Some w => Some w
  | None =>
      match s with
      | String c s' => search_from re (step m c s') s'
      | EmptyString => None
      end
  end.

(** [boost::regex_search(s, what, re)]: the leftmost match, [None] when
    the call returns false. *)
Definition regex_search (s : string) (re : regex) : option smatch :=
  search_from re {| pos := 0; prev := None; rest := s; subs := [] |} s.

Definition sign_class (c : ascii) : bool := (code c =? 45) || (code c =? 43).
Definition exp_class (c : ascii) : bool := (code c =? 101) || (code c =? 69).

Fixpoint seq (l : list regex) (last : regex) : regex :=
  match l with
  | [] => last
  | re :: l' => Seq re (seq l' last)
  end.

(** [rx_d]: group 1 is an optional sign and digits (group 2), an optional
    point, digits and an optional exponent (group 3, the exponent group
    4); then whitespace. *)
Definition rx_d : regex :=
  Seq (Group 1 (seq [Group 2 (Seq (Opt (Set_ sign_class)) (Star isdigit));
                     Opt (Chr ".")]
                    (Group 3 (Seq (Plus isdigit)
                                  (Opt (Group 4 (seq [Set_ exp_class;
                                                      Opt (Set_ sign_class)]
                                                     (Plus isdigit))))))))
      (Star isspace).

(** [rx_s]: a word boundary, group 1 an optional sign and digits, then
    whitespace. *)
Definition rx_s : regex :=
  seq [WordBoundary; Group 1 (Seq (Opt (Set_ sign_class)) (Plus isdigit))]
      (Star isspace).

(** [rx_u]: a word boundary, group 1 digits, then whitespace. *)
Definition rx_u : regex :=
  seq [WordBoundary; Group 1 (Plus isdigit)] (Star isspace).

(** [rx_f]: at the start of the line whitespace, the character 3,
    whitespace, and three times digits (groups 1, 2, 3) with whitespace
    between; then whitespace. *)
Definition rx_f : regex :=
  seq [StartLine; Star isspace; Chr "3"; Plus isspace;
       Group 1 (Plus isdigit); Plus isspace;
       Group 2 (Plus isdigit); Plus isspace;
       Group 3 (Plus isdigit)]
      (Star isspace).

(** ** boost::lexical_cast *)

Definition INT_MAX : Z := 2147483647.
Definition INT_MIN : Z := -2147483648.

(** [boost::lexical_cast<int>(s)]: the value of an optional sign and
    decimal digits; anything else, or a value no [int] holds, throws. *)
Definition lexical_cast_int (s : string) : outcome Z :=
  let '(neg, digits) :=
    match s with
    | String "-"%char s' => (true, s')
    | String "+"%char s' => (false, s')
    | _ => (false, s)
    end in
  match take_digits 0 0 digits with
  | (v, S _, EmptyString) =>
      let v := if neg then - v else v in
      if (INT_MIN <=? v) && (v <=? INT_MAX) then Return v
      else Throw bad_lexical_cast
  | _ => Throw bad_lexical_cast
  end.

(** [boost::lexical_cast<double>(s)] is a parameter of the ASCII decoder:
    which double a decimal text yields, and which texts throw, is left to
    the library. *)
Class LexicalCast := {
  lexical_cast_double : string -> outcome cdouble
}.

(** ** Record assembly and handoff *)

(** [ReaderPLY::addVertexProperty]. *)
Definition addVertexProperty (prop : PropertyArray) (st : ReaderPLY) : ReaderPLY :=
  let pt := {| x := prop coord_x; y := prop coord_y; z := prop coord_z |} in
  let st := push_point pt st in
  match _material st with
  | Some m =>
      if Binding_eqb (binding m) PER_VERTEX then
        let r := fdiv (prop color_r) f255 in
        let g := fdiv (prop color_g) f255 in
        let b := fdiv (prop color_b) f255 in
        set_material
          (Some {| binding := binding m;
                   diffuseColor := diffuseColor m ++ [{| r := r; g := g; b := b |}] |})
          st
      else st
  | None => st
  end.

(** Modelled from the spec: the collaborators of [CleanupMesh], declared
    in Core/ outside ReaderPLY.cpp. [MeshCleanup] is given the point array,
    the facet array and, when there is one, the material, and removes
    invalid elements from them; [MeshPointFacetAdjacency] is given the
    number of points and the facet array and sets the neighbours of the
    facets; [MeshKernel::Adopt] takes the two arrays over. What each does
    to its arguments is a parameter. *)
Class MeshCollaborators := {
  (* the two arrays after [RemoveInvalids()] *)
  RemoveInvalids :
    list Vector3f -> list MeshFacet -> option Material ->
    list Vector3f * list MeshFacet;
  (* the material that was set, after [RemoveInvalids()] *)
  RemoveInvalids_material :
    list Vector3f -> list MeshFacet -> Material -> Material;
  (* the facet array after [SetFacetNeighbourhood()] *)
  SetFacetNeighbourhood : nat -> list MeshFacet -> list MeshFacet;
  (* the two arrays of the caller after [Adopt(points, facets)] *)
  Adopt : list Vector3f -> list MeshFacet -> list Vector3f * list MeshFacet
}.

(** [ReaderPLY::CleanupMesh]: the kernel is cleared; the arrays and the
    material go through [MeshCleanup], the facets through
    [MeshPointFacetAdjacency], and the kernel adopts the arrays. The
    record of the kernel gains the arrays passed to [Adopt]. *)
Definition CleanupMesh {MC : MeshCollaborators} (st : ReaderPLY) : ReaderPLY :=
  let '(points, facets) :=
    RemoveInvalids (meshPoints st) (meshFacets st) (_material st) in
  let material :=
    option_map (RemoveInvalids_material (meshPoints st) (meshFacets st))
               (_material st) in
  let facets := SetFacetNeighbourhood (List.length points) facets in
  let '(points', facets') := Adopt points facets in
  {| format := format st; v_count := v_count st; f_count := f_count st;
     vertex_props := vertex_props st; face_props := face_props st;
     meshPoints := points'; meshFacets := facets';
     _material := material;
     _kernel := _kernel st ++ [(points, facets)] |}.

(** ** Base::InputStream

    A [Base::InputStream] wraps the [std::istream] it reads and a byte
    order. Its extraction operators are declared in Base/Stream.h and are
    parameters here: each takes the stream and the variable as it was, and
    gives the variable after the extraction and the stream after. *)

(** Modelled from the spec: the byte orders of [Base::Stream] and the state
    of a [Base::InputStream], the stream it reads and its byte order. *)
Inductive ByteOrder := BigEndian | LittleEndian.

Record InputStream := {
  _in : istream;
  _byteOrder : ByteOrder
}.

(** [Base::InputStream is(input)]; the order is set right after. *)
Definition new_InputStream (input : istream) : InputStream :=
  {| _in := input; _byteOrder := LittleEndian |}.

Definition setByteOrder (o : ByteOrder) (is_ : InputStream) : InputStream :=
  {| _in := _in is_; _byteOrder := o |}.

Class InputStreamOps := {
  get_int8 : InputStream -> Z -> Z * InputStream;
  get_uint8 : InputStream -> Z -> Z * InputStream;
  get_int16 : InputStream -> Z -> Z * InputStream;
  get_uint16 : InputStream -> Z -> Z * InputStream;
  get_int32 : InputStream -> Z -> Z * InputStream;
  get_uint32 : InputStream -> Z -> Z * InputStream;
  get_float : InputStream -> cfloat -> cfloat * InputStream;
  get_double : InputStream -> cdouble -> cdouble * InputStream
}.

Section Decoders.

Context {LC : LexicalCast} {IS : InputStreamOps}.
Context {VL : VectorLimits} {MC : MeshCollaborators}.

(** ** The ASCII body decoder *)

(** One turn of the loop over [vertex_props] in the ASCII
    [ReadVertexes]: [None] is [return false], otherwise the line and
    the property values after the turn. The [default] of the switch is
    not reachable: the eight cases are all of [Number]. *)
Definition read_vertex_prop (it : Property * Number) (line : string)
  (prop_values : PropertyArray) : outcome (option (string * PropertyArray)) :=
  match snd it with
  | int8 | int16 | int32 =>
      match regex_search line rx_s with
      | Some w =>
          v <- lexical_cast_int (what w 1) ;;
          Return (Some (substr (strlen (what w 0)) line,
                        prop_set prop_values (fst it) (float_of_int v)))
      | None => Return None
      end
  | uint8 | uint16 | uint32 =>
      match regex_search line rx_u with
      | Some w =>
          v <- lexical_cast_int (what w 1) ;;
          Return (Some (substr (strlen (what w 0)) line,
                        prop_set prop_values (fst it) (float_of_int v)))
      | None => Return None
      end
  | float32 | float64 =>
      match regex_search line rx_d with
      | Some w =>
          v <- lexical_cast_double (what w 1) ;;
          Return (Some (substr (strlen (what w 0)) line,
                        prop_set prop_values (fst it) (float_of_double v)))
      | None => Return None
      end
  end.

(** The loop over [vertex_props] for one vertex line. *)
Fixpoint read_vertex_props (props : list (Property * Number)) (line : string)
  (prop_values : PropertyArray) : outcome (option (string * PropertyArray)) :=
  match props with
  | [] => Return (Some (line, prop_values))
  | it :: props' =>
      res <- read_vertex_prop it line prop_values ;;
      match res with
      | Some (line', prop_values') => read_vertex_props props' line' prop_values'
      | None => Return None
      end
  end.

(** The loop of the ASCII [ReadVertexes], with [n] turns left. *)
Fixpoint ReadVertexes_ascii_loop (n : nat) (st : ReaderPLY) (line : string)
  (input : istream) : outcome (bool * ReaderPLY * istream) :=
  match n with
  | O => Return (true, st, input)
  | S n' =>
      let '(line, input) := getline input line in
      if fail input then Return (true, st, input)
      else
        res <- read_vertex_props (vertex_props st) line prop_values_init ;;
        match res with
        | Some (line', prop_values) =>
            ReadVertexes_ascii_loop n' (addVertexProperty prop_values st) line' input
        | None => Return (false, st, input)
        end
  end.

(** [ReaderPLY::ReadVertexes(std::istream&)]. *)
Definition ReadVertexes_ascii (st : ReaderPLY) (input : istream)
  : outcome (bool * ReaderPLY * istream) :=
  ReadVertexes_ascii_loop (Z.to_nat (v_count st)) st "" input.

(** The body of the loop of the ASCII [ReadFaces] for the line read. *)
Definition read_face_line (st : ReaderPLY) (line : string) : outcome ReaderPLY :=
  match regex_search line rx_f with
  | Some w =>
      f1 <- lexical_cast_int (what w 1) ;;
      f2 <- lexical_cast_int (what w 2) ;;
      f3 <- lexical_cast_int (what w 3) ;;
      Return (push_facet {| p1 := f1; p2 := f2; p3 := f3 |} st)
  | None => Return st
  end.

(** The loop of the ASCII [ReadFaces], with [n] turns left. *)
Fixpoint ReadFaces_ascii_loop (n : nat) (st : ReaderPLY) (line : string)
  (input : istream) : outcome (bool * ReaderPLY * istream) :=
  match n with
  | O => Return (true, st, input)
  | S n' =>
      let '(line, input) := getline input line in
      if fail input then Return (true, st, input)
      else
        st' <- read_face_line st line ;;
        ReadFaces_ascii_loop n' st' line input
  end.

(** [ReaderPLY::ReadFaces(std::istream&)]. *)
Definition ReadFaces_ascii (st : ReaderPLY) (input : istream)
  : outcome (bool * ReaderPLY * istream) :=
  ReadFaces_ascii_loop (Z.to_nat (f_count st)) st "" input.

(** [ReaderPLY::LoadAscii]. *)
Definition LoadAscii (st : ReaderPLY) (input : istream)
  : outcome (bool * ReaderPLY * istream) :=
  '(ok, st, input) <- ReadVertexes_ascii st input ;;
  if negb ok then Return (false, st, input)
  else
    '(ok, st, input) <- ReadFaces_ascii st input ;;
    if negb ok then Return (false, st, input)
    else Return (true, CleanupMesh st, input).

(** ** The binary body decoder *)

(** One turn of the loop over [vertex_props] in the binary
    [ReadVertexes]. The [default] of the switch is not reachable: the
    eight cases are all of [Number]. *)
Definition read_vertex_prop_bin (it : Property * Number) (is_ : InputStream)
  (prop_values : PropertyArray) : InputStream * PropertyArray :=
  match snd it with
  | int8 =>
      let '(v, is_) := get_int8 is_ 0 in
      (is_, prop_set prop_values (fst it) (float_of_int v))
  | uint8 =>
      let '(v, is_) := get_uint8 is_ 0 in
      (is_, prop_set prop_values (fst it) (float_of_int v))
  | int16 =>
      let '(v, is_) := get_int16 is_ 0 in
      (is_, prop_set prop_values (fst it) (float_of_int v))
  | uint16 =>
      let '(v, is_) := get_uint16 is_ 0 in
      (is_, prop_set prop_values (fst it) (float_of_int v))
  | int32 =>
      let '(v, is_) := get_int32 is_ 0 in
      (is_, prop_set prop_values (fst it) (float_of_int v))
  | uint32 =>
      let '(v, is_) := get_uint32 is_ 0 in
      (is_, prop_set prop_values (fst it) (float_of_int v))
  | float32 =>
      let '(v, is_) := get_float is_ fzero in
      (is_, prop_set prop_values (fst it) v)
  | float64 =>
      let '(v, is_) := get_double is_ fzero in
      (is_, prop_set prop_values (fst it) (float_of_double v))
  end.

Fixpoint read_vertex_props_bin (props : list (Property * Number))
  (is_ : InputStream) (prop_values : PropertyArray) : InputStream * PropertyArray :=
  match props with
  | [] => (is_, prop_values)
  | it :: props' =>
      let '(is_, prop_values) := read_vertex_prop_bin it is_ prop_values in
      read_vertex_props_bin props' is_ prop_values
  end.

(** The loop of the binary [ReadVertexes], with [n] turns left. *)
Fixpoint ReadVertexes_bin_loop (n : nat) (st : ReaderPLY) (is_ : InputStream)
  : bool * ReaderPLY * InputStream :=
  match n with
  | O => (true, st, is_)
  | S n' =>
      let '(is_, prop_values) :=
        read_vertex_props_bin (vertex_props st) is_ prop_values_init in
      ReadVertexes_bin_loop n' (addVertexProperty prop_values st) is_
  end.

(** [ReaderPLY::ReadVertexes(Base::InputStream&)]. *)
Definition ReadVertexes_bin (st : ReaderPLY) (is_ : InputStream)
  : bool * ReaderPLY * InputStream :=
  ReadVertexes_bin_loop (Z.to_nat (v_count st)) st is_.

(** The variables that the binary [ReadFaces] declares before its loop
    and that keep their value from one record to the next. *)
Record face_vars := {
  n : Z;
  f1 : Z;
  f2 : Z;
  f3 : Z
}.

Definition face_vars_init : face_vars := {| n := 0; f1 := 0; f2 := 0; f3 := 0 |}.

(** [for (unsigned char j = 0; j < n; j++) is >> v;] on a float [v]. *)
Fixpoint get_floats (m : nat) (is_ : InputStream) (v : cfloat) : cfloat * InputStream :=
  match m with
  | O => (v, is_)
  | S m' => let '(v, is_) := get_float is_ v in get_floats m' is_ v
  end.

(** The same loop on a double [v]. *)
Fixpoint get_doubles (m : nat) (is_ : InputStream) (v : cdouble) : cdouble * InputStream :=
  match m with
  | O => (v, is_)
  | S m' => let '(v, is_) := get_double is_ v in get_doubles m' is_ v
  end.

(** One turn of the loop over [face_props]: the stream and the count
    variable [n] after it. *)
Definition skip_face_prop (it : Number) (is_ : InputStream) (n : Z) : InputStream * Z :=
  match it with
  | int8 => let '(_, is_) := get_int8 is_ 0 in (is_, n)
  | uint8 => let '(_, is_) := get_uint8 is_ 0 in (is_, n)
  | int16 => let '(_, is_) := get_int16 is_ 0 in (is_, n)
  | uint16 => let '(_, is_) := get_uint16 is_ 0 in (is_, n)
  | int32 => let '(_, is_) := get_int32 is_ 0 in (is_, n)
  | uint32 => let '(_, is_) := get_uint32 is_ 0 in (is_, n)
  | float32 =>
      let '(n, is_) := get_uint8 is_ n in
      let '(_, is_) := get_floats (Z.to_nat n) is_ fzero in
      (is_, n)
  | float64 =>
      let '(n, is_) := get_uint8 is_ n in
      let '(_, is_) := get_doubles (Z.to_nat n) is_ fzero in
      (is_, n)
  end.

Fixpoint skip_face_props (props : list Number) (is_ : InputStream) (n : Z)
  : InputStream * Z :=
  match props with
  | [] => (is_, n)
  | it :: props' =>
      let '(is_, n) := skip_face_prop it is_ n in
      skip_face_props props' is_ n
  end.

(** The body of the loop of the binary [ReadFaces]: one face record. *)
Definition read_face_record (st : ReaderPLY) (is_ : InputStream) (vars : face_vars)
  : ReaderPLY * InputStream * face_vars :=
  let '(n, is_) := get_uint8 is_ (n vars) in
  if n =? 3 then
    let '(f1, is_) := get_uint32 is_ (f1 vars) in
    let '(f2, is_) := get_uint32 is_ (f2 vars) in
    let '(f3, is_) := get_uint32 is_ (f3 vars) in
    let st :=
      if (f1 <? v_count st) && (f2 <? v_count st) && (f3 <? v_count st)
      then push_facet {| p1 := f1; p2 := f2; p3 := f3 |} st
      else st in
    let '(is_, n) := skip_face_props (face_props st) is_ n in
    (st, is_, {| n := n; f1 := f1; f2 := f2; f3 := f3 |})
  else (st, is_, {| n := n; f1 := f1 vars; f2 := f2 vars; f3 := f3 vars |}).

(** The loop of the binary [ReadFaces], with [k] turns left. *)
Fixpoint ReadFaces_bin_loop (k : nat) (st : ReaderPLY) (is_ : InputStream)
  (vars : face_vars) : bool * ReaderPLY * InputStream :=
  match k with
  | O => (true, st, is_)
  | S k' =>
      let '(st, is_, vars) := read_face_record st is_ vars in
      ReadFaces_bin_loop k' st is_ vars
  end.

(** [ReaderPLY::ReadFaces(Base::InputStream&)]. *)
Definition ReadFaces_bin (st : ReaderPLY) (is_ : InputStream)
  : bool * ReaderPLY * InputStream :=
  ReadFaces_bin_loop (Z.to_nat (f_count st)) st is_ face_vars_init.

(** [ReaderPLY::LoadBinary]. *)
Definition LoadBinary (st : ReaderPLY) (input : istream)
  : bool * ReaderPLY * istream :=
  let is_ := new_InputStream input in
  let is_ :=
    if Format.eqb (format st) Format.binary_little_endian
    then setByteOrder LittleEndian is_
    else setByteOrder BigEndian is_ in
  let '(ok, st, is_) := ReadVertexes_bin st is_ in
  if negb ok then (false, st, _in is_)
  else
    let '(ok, st, is_) := ReadFaces_bin st is_ in
    if negb ok then (false, st, _in is_)
    else (true, CleanupMesh st, _in is_).

(** ** Load *)

(** [ReaderPLY::Load]: the result, the reader and the stream after. *)
Definition Load (st : ReaderPLY) (input : istream)
  : outcome (bool * ReaderPLY * istream) :=
  let '(ok, input) := CheckHeader input in
  if negb ok then Return (false, st, input)
  else
    '(ok, st, input) <- ReadHeader st input ;;
    if negb ok then Return (false, st, input)
    else if negb (VerifyVertexProperty st) then Return (false, st, input)
    else
      let '(ok, st) := VerifyColorProperty st in
      if negb ok then Return (false, st, input)
      else if Format.eqb (format st) Format.ascii then LoadAscii st input
      else Return (LoadBinary st input).

End Decoders.

(** ** Reference instances of the parameters

    Used to run the decoders on concrete files. *)

(** The value of the bytes [s], the first one least significant. *)
Fixpoint le_value (s : string) : Z :=
  match s with
  | EmptyString => 0
  | String c s' => code c + 256 * le_value s'
  end.

(** The value of the bytes [s] after [acc], the first one most
    significant. *)
Fixpoint be_value (acc : Z) (s : string) : Z :=
  match s with
  | EmptyString => acc
  | String c s' => be_value (256 * acc + code c) s'
  end.

Definition unsigned_value (o : ByteOrder) (bytes : string) : Z :=
  match o with
  | LittleEndian => le_value bytes
  | BigEndian => be_value 0 bytes
  end.

(** The two's complement reading of a [w]-bit pattern. *)
Definition signed_value (w : Z) (v : Z) : Z :=
  if v <? 2 ^ (w - 1) then v else v - 2 ^ w.

(** The IEEE number of a bit pattern with [mw] mantissa bits and [ew]
    exponent bits. *)
Definition float_of_bits (mw ew : Z) (bits : Z) : spec_float :=
  let s := Z.testbit bits (mw + ew) in
  let e := (bits / 2 ^ mw) mod 2 ^ ew in
  let m := bits mod 2 ^ mw in
  let emin := 2 - 2 ^ (ew - 1) - mw in
  if e =? 0 then
    if m =? 0 then S754_zero s else S754_finite s (Z.to_pos m) emin
  else if e =? 2 ^ ew - 1 then
    if m =? 0 then S754_infinity s else S754_nan
  else S754_finite s (Z.to_pos (m + 2 ^ mw)) (e - 1 + emin).

(** An extraction of [k] bytes: [_in.read] of [k] characters, decoded by
    [dec] in the byte order of the stream. A read that fails leaves the
    variable as it was. *)
Definition get_bytes {A} (k : nat) (dec : Z -> A) (is_ : InputStream) (v : A)
  : A * InputStream :=
  let '(bytes, input) := read k (_in is_) in
  ((if fail input then v else dec (unsigned_value (_byteOrder is_) bytes)),
   {| _in := input; _byteOrder := _byteOrder is_ |}).

(** Modelled from the spec: extraction operators for a byte cursor with a
    fixed endianness, each taking as many bytes as its type is wide. *)
Definition ByteStreamOps : InputStreamOps :=
  {| get_int8 := get_bytes 1 (signed_value 8);
     get_uint8 := get_bytes 1 (fun v => v);
     get_int16 := get_bytes 2 (signed_value 16);
     get_uint16 := get_bytes 2 (fun v => v);
     get_int32 := get_bytes 4 (signed_value 32);
     get_uint32 := get_bytes 4 (fun v => v);
     get_float := get_bytes 4 (float_of_bits 23 8);
     get_double := get_bytes 8 (float_of_bits 52 11) |}.

Definition take_sign (s : string) : bool * string :=
  match s with
  | String "-"%char s' => (true, s')
  | String "+"%char s' => (false, s')
  | _ => (false, s)
  end.

(** The double nearest to [m * 10 ^ e], negated when [neg]. *)
Definition decimal_scale (neg : bool) (m e : Z) : cdouble :=
  if m =? 0 then S754_zero neg
  else if 0 <=? e
  then binary_normalize prec64 emax64 (cond_Zopp neg (m * 10 ^ e)) 0 neg
  else SFdiv prec64 emax64 (S754_finite neg (Z.to_pos m) 0)
                           (S754_finite false (Z.to_pos (10 ^ (- e))) 0).

(** A decimal text (sign, digits, point, digits, exponent) as the nearest
    double; any other text throws. *)
Definition decimal_to_double (s : string) : outcome cdouble :=
  let '(neg, s1) := take_sign s in
  let '(ip, ni, s2) := take_digits 0 0 s1 in
  let s3 := match s2 with String "."%char s' => s' | _ => s2 end in
  let '(m, nf, s4) := take_digits ip 0 s3 in
  let '(e10, ok) :=
    match s4 with
    | EmptyString => (0, true)
    | String c s5 =>
        if exp_class c then
          let '(eneg, s6) := take_sign s5 in
          match take_digits 0 0 s6 with
          | (e, S _, EmptyString) => ((if eneg then - e else e), true)
          | _ => (0, false)
          end
        else (0, false)
    end in
  if ok && (0 <? ni + nf)%nat
  then Return (decimal_scale neg m (e10 - Z.of_nat nf))
  else Throw bad_lexical_cast.

(** A [lexical_cast<double>] that rounds to nearest and never throws on a
    decimal text. *)
Definition DecimalCast : LexicalCast :=
  {| lexical_cast_double := decimal_to_double |}.

(** Vectors that hold up to [PTRDIFF_MAX] elements. *)
Definition SampleLimits : VectorLimits :=
  {| points_max_size := PTRDIFF_MAX;
     facets_max_size := PTRDIFF_MAX;
     points_max_size_range := ltac:(unfold PTRDIFF_MAX; lia);
     facets_max_size_range := ltac:(unfold PTRDIFF_MAX; lia) |}.

(** Collaborators that find nothing invalid and leave the facets as they
    are, and a kernel that leaves the arrays of the caller empty. *)
Definition PlainMesh : MeshCollaborators :=
  {| RemoveInvalids := fun points facets _ => (points, facets);
     RemoveInvalids_material := fun _ _ m => m;
     SetFacetNeighbourhood := fun _ facets => facets;
     Adopt := fun _ _ => ([], []) |}.

(** ** Vocabulary of the statements *)

Section Reader.

Context {VL : VectorLimits} {MC : MeshCollaborators}.

(** *** Lines of a stream *)

(** [reads_lines input ls input']: successive calls of [getline] on
    [input] succeed with the lines [ls] and leave [input']. *)
Inductive reads_lines : istream -> list string -> istream -> Prop :=
| reads_nil input : reads_lines input [] input
| reads_cons input line input' ls input'' :
    getline input "" = (line, input') ->
    fail input' = false ->
    reads_lines input' ls input'' ->
    reads_lines input (line :: ls) input''.

(** No line is left: the next [getline] fails. *)
Definition exhausted (input : istream) : Prop :=
  fail (snd (getline input "")) = true.

(** The text of newline-terminated lines. *)
Fixpoint unlines (ls : list string) : string :=
  match ls with
  | [] => ""
  | l :: ls' => l ++ String newline (unlines ls')
  end.

Definition no_newline (s : string) : Prop :=
  all_chars (fun c => negb (Ascii.eqb c newline)) s = true.

(** *** Shapes of lines *)

Definition blank (s : string) : Prop := all_chars isspace s = true.

Definition separator (s : string) : Prop := s <> "" /\ blank s.

(** A token: one or more characters, none of them whitespace. *)
Definition token (s : string) : Prop :=
  s <> "" /\ all_chars (fun c => negb (isspace c)) s = true.

(** What may follow a token: nothing, or text that starts with whitespace. *)
Definition after_token (s : string) : Prop :=
  match s with
  | EmptyString => True
  | String c _ => isspace c = true
  end.

(** The text starts with a character that is not whitespace. *)
Definition starts_token (s : string) : Prop :=
  match s with
  | EmptyString => False
  | String c _ => isspace c = false
  end.

(** An unsigned-integer token: one or more digits. *)
Definition digits (s : string) : Prop := s <> "" /\ all_chars isdigit s = true.

(** What may follow the last index of a face line: no further digit. *)
Definition after_digits (s : string) : Prop :=
  match s with
  | EmptyString => True
  | String c _ => isdigit c = false
  end.

(** The number that a string of digits denotes. *)
Fixpoint decimal_value_from (acc : Z) (s : string) : Z :=
  match s with
  | EmptyString => acc
  | String c s' => decimal_value_from (10 * acc + (code c - 48)) s'
  end.

Definition decimal_value (s : string) : Z := decimal_value_from 0 s.

(** The format line with the given tokens. *)
Definition format_line (lead sep1 name sep2 version tail : string) : string :=
  lead ++ "format" ++ sep1 ++ name ++ sep2 ++ version ++ tail.

(** The face line with the given index tokens. *)
Definition face_line (lead sep1 d1 sep2 d2 sep3 d3 tail : string) : string :=
  lead ++ "3" ++ sep1 ++ d1 ++ sep2 ++ d2 ++ sep3 ++ d3 ++ tail.

(** The recognised format names. *)
Definition format_of_name (name : string) : option Format.t :=
  if String.eqb name "ascii" then Some Format.ascii
  else if String.eqb name "binary_big_endian" then Some Format.binary_big_endian
  else if String.eqb name "binary_little_endian" then Some Format.binary_little_endian
  else None.

(** *** Header lines accepted in turn *)

(** The reader and element context after the loop body of [ReadHeader]
    accepted each of [ls] without stopping. *)
Fixpoint header_fold (st : ReaderPLY) (element : string) (ls : list string)
  : option (ReaderPLY * string) :=
  match ls with
  | [] => Some (st, element)
  | l :: ls' =>
      match header_line st element l with
      | go_on st' element' => header_fold st' element' ls'
      | _ => None
      end
  end.

(** *** Schemas *)

(** The schema has exactly one entry of the given role. *)
Definition exactly_one (role : Property) (props : list (Property * Number)) : Prop :=
  exists l1 k l2,
    props = (l1 ++ (role, k) :: l2)%list /\
    (forall p, In p l1 -> fst p <> role) /\
    (forall p, In p l2 -> fst p <> role).

Definition is_color (p : Property) : bool :=
  match p with
  | color_r | color_g | color_b => true
  | _ => false
  end.

(** The number of entries with a colour role. *)
Definition color_total (props : list (Property * Number)) : Z :=
  Z.of_nat (List.length (filter (fun p => is_color (fst p)) props)).

(** The lexical pattern of a numeric kind: signed integer, unsigned
    integer or decimal. *)
Definition pattern_of (k : Number) : regex :=
  match k with
  | int8 | int16 | int32 => rx_s
  | uint8 | uint16 | uint32 => rx_u
  | float32 | float64 => rx_d
  end.

(** *** Assembled records *)

Definition point_of (prop : PropertyArray) : Vector3f :=
  {| x := prop coord_x; y := prop coord_y; z := prop coord_z |}.

(** The colour of a vertex: each buffered channel divided by 255 in
    binary32 arithmetic. *)
Definition color_of (prop : PropertyArray) : Color :=
  {| r := SFdiv 24 128 (prop color_r) (binary_normalize 24 128 255 0 false);
     g := SFdiv 24 128 (prop color_g) (binary_normalize 24 128 255 0 false);
     b := SFdiv 24 128 (prop color_b) (binary_normalize 24 128 255 0 false) |}.

Definition per_vertex (colors : list Color) : option Material :=
  Some {| binding := PER_VERTEX; diffuseColor := colors |}.

Section Folds.

Context {LC : LexicalCast}.

(** The reader after the ASCII decoder took each of the vertex lines [ls]
    in turn; [Return None] when a line has a lexical failure. *)
Fixpoint vertex_fold (st : ReaderPLY) (ls : list string) : outcome (option ReaderPLY) :=
  match ls with
  | [] => Return (Some st)
  | l :: ls' =>
      res <- read_vertex_props (vertex_props st) l prop_values_init ;;
      match res with
      | Some (_, prop_values) => vertex_fold (addVertexProperty prop_values st) ls'
      | None => Return None
      end
  end.

(** The reader after the ASCII decoder took each of the face lines [ls]. *)
Fixpoint face_fold (st : ReaderPLY) (ls : list string) : outcome ReaderPLY :=
  match ls with
  | [] => Return st
  | l :: ls' => st' <- read_face_line st l ;; face_fold st' ls'
  end.

End Folds.

(** *** Layout of binary records *)

(** The width in bytes of a value of each kind. *)
Definition width (k : Number) : nat :=
  match k with
  | int8 | uint8 => 1
  | int16 | uint16 => 2
  | int32 | uint32 | float32 => 4
  | float64 => 8
  end.

(** The bytes of one face property: a single value for the integer kinds;
    for float32 and float64 a count byte and that many values. *)
Definition field_layout (k : Number) (bytes : string) : Prop :=
  match k with
  | float32 | float64 =>
      exists m payload,
        bytes = String m payload /\ strlen payload = (Z.to_nat (code m) * width k)%nat
  | _ => strlen bytes = width k
  end.

Fixpoint concat_bytes (chunks : list string) : string :=
  match chunks with
  | [] => ""
  | c :: chunks' => c ++ concat_bytes chunks'
  end.

Definition bin_stream (o : ByteOrder) (bytes : string) : InputStream :=
  {| _in := advance bytes; _byteOrder := o |}.

(** An extraction takes exactly [w] bytes when they are there. *)
Definition consumes {A} (get : InputStream -> A -> A * InputStream) (w : nat) : Prop :=
  forall o bytes rest v,
    strlen bytes = w ->
    snd (get (bin_stream o (bytes ++ rest)) v) = bin_stream o rest.

(** What the layout statements assume of the extraction operators: each
    takes as many bytes as its type is wide, and the 8-bit count read is
    the byte. *)
Class InputStreamLaws (IS : InputStreamOps) : Prop := {
  law_int8 : consumes get_int8 1;
  law_uint8 : consumes get_uint8 1;
  law_int16 : consumes get_int16 2;
  law_uint16 : consumes get_uint16 2;
  law_int32 : consumes get_int32 4;
  law_uint32 : consumes get_uint32 4;
  law_float : consumes get_float 4;
  law_double : consumes get_double 8;
  law_count : forall o c rest v,
    fst (get_uint8 (bin_stream o (String c rest)) v) = code c
}.

Section Claimed.

Context {IS : InputStreamOps}.

(** The stream after one face record, with the facet decision left out:
    the count, the three indices when the count is 3, then the face
    properties. *)
Definition face_record_cursor (props : list Number) (is_ : InputStream)
  (vars : face_vars) : InputStream * face_vars :=
  let '(n, is_) := get_uint8 is_ (n vars) in
  if n =? 3 then
    let '(f1, is_) := get_uint32 is_ (f1 vars) in
    let '(f2, is_) := get_uint32 is_ (f2 vars) in
    let '(f3, is_) := get_uint32 is_ (f3 vars) in
    let '(is_, n) := skip_face_props props is_ n in
    (is_, {| n := n; f1 := f1; f2 := f2; f3 := f3 |})
  else (is_, {| n := n; f1 := f1 vars; f2 := f2 vars; f3 := f3 vars |}).

(** The stream after one face record as the specification words it: the
    count, the three indices when the count is 3, and in both cases every
    entry of the face properties. *)
Definition claimed_face_record_cursor (props : list Number) (is_ : InputStream)
  (vars : face_vars) : InputStream :=
  let '(n, is_) := get_uint8 is_ (n vars) in
  let is_ :=
    if n =? 3 then
      let '(_, is_) := get_uint32 is_ (f1 vars) in
      let '(_, is_) := get_uint32 is_ (f2 vars) in
      let '(_, is_) := get_uint32 is_ (f3 vars) in
      is_
    else is_ in
  fst (skip_face_props props is_ n).

End Claimed.

(** ** Sample files and records *)

Definition nl : string := String newline "".

(** The characters with the given codes. *)
Fixpoint bytes (l : list Z) : string :=
  match l with
  | [] => ""
  | v :: l' => String (ascii_of_N (Z.to_N v)) (bytes l')
  end.

Definition header_xyz : list string :=
  ["format ascii 1.0"; "element vertex 3";
   "property float x"; "property float y"; "property float z";
   "element face 1"; "property list uchar int vertex_indices"].

(** The scenario of the specification: three vertices and one triangle. *)
Definition file_triangle : string :=
  "ply" ++ nl ++ unlines (header_xyz ++ ["end_header"])%list
  ++ unlines ["0 0 0"; "1 0 0"; "0 1 0"; "3 0 1 2"].

(** A schema with two y entries and no z entry. *)
Definition file_two_y : string :=
  "ply" ++ nl
  ++ unlines ["format ascii 1.0"; "element vertex 1";
              "property float x"; "property float y"; "property float y";
              "end_header"; "0 0 0"].

(** A schema with two colour entries. *)
Definition file_two_colors : string :=
  "ply" ++ nl
  ++ unlines ["format ascii 1.0"; "element vertex 1";
              "property float x"; "property float y"; "property float z";
              "property uchar red"; "property uchar green";
              "end_header"; "0 0 0 255 0"].

(** A body whose second vertex line has a token that is no number. *)
Definition file_bad_vertex : string :=
  "ply" ++ nl ++ unlines (header_xyz ++ ["end_header"])%list
  ++ unlines ["0 0 0"; "1 abc"; "0 1 0"; "3 0 1 2"].

(** A reader whose header declared coloured vertices, and its material. *)
Definition sample_material : Material :=
  {| binding := OVERALL; diffuseColor := [] |}.

Definition reader_colored : ReaderPLY :=
  {| format := Format.ascii; v_count := 2; f_count := 0;
     vertex_props := [(coord_x, float32); (coord_y, float32); (coord_z, float32);
                      (color_r, uint8); (color_g, uint8); (color_b, uint8)];
     face_props := [];
     meshPoints := []; meshFacets := [];
     _material := Some sample_material; _kernel := [] |}.

(** A reader for binary faces: three vertices, one 8-bit face property. *)
Definition reader_faces : ReaderPLY :=
  {| format := Format.binary_little_endian; v_count := 3; f_count := 2;
     vertex_props := [(coord_x, float32); (coord_y, float32); (coord_z, float32)];
     face_props := [uint8];
     meshPoints := []; meshFacets := [];
     _material := None; _kernel := [] |}.

(** Two face records: indices 0, 1, 7 with property 9, then indices 0, 1, 2
    with property 8. *)
Definition second_record : string :=
  bytes [3; 0; 0; 0; 0; 1; 0; 0; 0; 2; 0; 0; 0; 8].

Definition two_records : string :=
  bytes [3; 0; 0; 0; 0; 1; 0; 0; 0; 7; 0; 0; 0; 9] ++ second_record.

(** A reader for ASCII faces that declares two vertices. *)
Definition reader_two_vertices : ReaderPLY :=
  {| format := Format.ascii; v_count := 2; f_count := 1;
     vertex_props := [(coord_x, float32); (coord_y, float32); (coord_z, float32)];
     face_props := [];
     meshPoints := []; meshFacets := [];
     _material := None; _kernel := [] |}.

(** A reader that expects three vertex lines. *)
Definition reader_three_vertices : ReaderPLY :=
  {| format := Format.ascii; v_count := 3; f_count := 1;
     vertex_props := [(coord_x, float32); (coord_y, float32); (coord_z, float32)];
     face_props := [];
     meshPoints := []; meshFacets := [];
     _material := None; _kernel := [] |}.

(** *** States of the matcher *)

Fixpoint last_char (a : string) (before : option ascii) : option ascii :=
  match a with
  | EmptyString => before
  | String c a' => last_char a' (Some c)
  end.

(** The state after the matcher took the characters [a], with [r] ahead. *)
Definition feed (m : mstate) (a r : string) : mstate :=
  {| pos := pos m + strlen a; prev := last_char a (prev m); rest := r;
     subs := subs m |}.

(** The text does not go on with a character of the class. *)
Definition stops (p : ascii -> bool) (r : string) : Prop :=
  match r with
  | EmptyString => True
  | String c _ => p c = false
  end.

(** [re] can take the matcher from [m] to [m'], and does so whenever the
    rest of the pattern matches from [m']. *)
Definition takes (re : regex) (m m' : mstate) : Prop :=
  forall k res, k m' = Some res -> rmatch re m k = Some res.

(** *** Header lines *)

(** What may stand where a count is expected and is no number: nothing,
    or text that starts with neither whitespace, a digit nor a sign. *)
Definition no_number (s : string) : Prop :=
  match s with
  | EmptyString => True
  | String c _ => isspace c = false /\ isdigit c = false /\ sign_class c = false
  end.

(** The keywords that the loop of [ReadHeader] acts on. *)
Definition header_keyword (kw : string) : bool :=
  String.eqb kw "format" || String.eqb kw "element" || String.eqb kw "property"
  || String.eqb kw "end_header".

(** The two names of the index list of a face. *)
Definition index_list_name (name : string) : bool :=
  String.eqb name "vertex_indices" || String.eqb name "vertex_index".

(** *** What the stages keep *)

(** What header parsing keeps of a reader: the points, the facets, the
    material and what was handed over stay as they were, and the two
    schemas only grow at their end. *)
Definition header_frame (st st' : ReaderPLY) : Prop :=
  meshPoints st' = meshPoints st /\
  meshFacets st' = meshFacets st /\
  _material st' = _material st /\
  _kernel st' = _kernel st /\
  (exists l, vertex_props st' = (vertex_props st ++ l)%list) /\
  (exists l, face_props st' = (face_props st ++ l)%list).

(** The arrays that [CleanupMesh] passes to [Adopt] when the reader is
    [st]: the points and the facets after [RemoveInvalids], the facets
    after [SetFacetNeighbourhood]. *)
Definition handed_over (st : ReaderPLY) : list Vector3f * list MeshFacet :=
  let cleaned := RemoveInvalids (meshPoints st) (meshFacets st) (_material st) in
  (fst cleaned, SetFacetNeighbourhood (List.length (fst cleaned)) (snd cleaned)).

(** The three indices of a facet are below [vc]. *)
Definition facet_in_range (vc : Z) (f : MeshFacet) : Prop :=
  p1 f < vc /\ p2 f < vc /\ p3 f < vc.

(** The bytes of one binary vertex record: the widths of its properties. *)
Fixpoint record_width (props : list (Property * Number)) : nat :=
  match props with
  | [] => 0
  | it :: props' => (width (snd it) + record_width props')%nat
  end.

(** No colour is to be appended: there is no material, or its binding is
    not per-vertex. *)
Definition not_per_vertex (m : option Material) : Prop :=
  match m with
  | None => True
  | Some m' => binding m' <> PER_VERTEX
  end.

(** The three indices of a facet are values of an [int]. *)
Definition facet_of_ints (f : MeshFacet) : Prop :=
  (INT_MIN <= p1 f <= INT_MAX) /\ (INT_MIN <= p2 f <= INT_MAX) /\
  (INT_MIN <= p3 f <= INT_MAX).

(** *** Tokens of a vertex line *)

(** A character that is no word character. *)
Definition nonword (c : ascii) : bool := negb (isword c).

(** The numeric kinds that the ASCII decoder reads with an integer
    pattern. *)
Definition integer_kind (k : Number) : bool :=
  match k with
  | float32 | float64 => false
  | _ => true
  end.

(** An optional sign: nothing, or one of [-] and [+]. *)
Definition sign_text (s : string) : Prop :=
  s = "" \/ exists c, s = String c "" /\ sign_class c = true.

(** An optional exponent: nothing, or [e] or [E], an optional sign and
    digits. *)
Definition exponent_text (s : string) : Prop :=
  s = "" \/
  exists e sg ed,
    s = String e (sg ++ ed) /\ exp_class e = true /\ sign_text sg /\ digits ed.

(** A decimal token: an optional sign, then either digits, or digits (or
    none), a point and digits; then an optional exponent. *)
Definition decimal_token (t : string) : Prop :=
  (exists sg ip ex,
     t = sg ++ ip ++ ex /\ sign_text sg /\ digits ip /\ exponent_text ex) \/
  (exists sg ip fp ex,
     t = sg ++ ip ++ "." ++ fp ++ ex /\
     sign_text sg /\ all_chars isdigit ip = true /\ digits fp /\ exponent_text ex).

(** The parts of [rx_d]: the exponent (group 4), the digits behind the
    point with the exponent (group 3), the sign and the digits before the
    point (group 2), and the number (the body of group 1). *)
Definition rx_exponent : regex :=
  Group 4 (seq [Set_ exp_class; Opt (Set_ sign_class)] (Plus isdigit)).

Definition rx_fraction : regex :=
  Group 3 (Seq (Plus isdigit) (Opt rx_exponent)).

Definition rx_integral : regex :=
  Group 2 (Seq (Opt (Set_ sign_class)) (Star isdigit)).

Definition rx_number : regex := seq [rx_integral; Opt (Chr ".")] rx_fraction.

Section VertexLines.

Context {LC : LexicalCast}.

(** The float that the ASCII decoder stores for the token [t] of a
    property of kind [k]: for the integer kinds the token is digits that an
    [int] holds, for the float kinds a decimal token that
    [lexical_cast<double>] converts. *)
Definition decodes (k : Number) (t : string) (v : cfloat) : Prop :=
  if integer_kind k
  then digits t /\ decimal_value t <= INT_MAX /\ v = float_of_int (decimal_value t)
  else decimal_token t /\
       exists d, lexical_cast_double t = Return d /\ v = float_of_double d.

(** [vertex_line props line rest pv pv']: [line] starts with one token for
    each entry of [props], each followed by whitespace or by the end of
    the line; [rest] is what follows the tokens and [pv'] is [pv] with the
    value of each token stored under the role of its entry. *)
Inductive vertex_line :
  list (Property * Number) -> string -> string ->
  PropertyArray -> PropertyArray -> Prop :=
| vertex_line_nil rest pv : vertex_line [] rest rest pv pv
| vertex_line_cons role k props t sep line rest v pv pv' :
    decodes k t v -> blank sep -> after_token (sep ++ line) ->
    stops isspace line ->
    vertex_line props line rest (prop_set pv role v) pv' ->
    vertex_line ((role, k) :: props) (t ++ sep ++ line) rest pv pv'.

End VertexLines.

(** *** Decoded records *)

(** The reader after [addVertexProperty] took each of the records. *)
Definition add_vertexes (pvs : list PropertyArray) (st : ReaderPLY) : ReaderPLY :=
  fold_left (fun s pv => addVertexProperty pv s) pvs st.

(** The records that [n] turns of the binary vertex loop decode for the
    schema [props], from the stream [is_] on. *)
Fixpoint binary_records {IS : InputStreamOps} (n : nat)
  (props : list (Property * Number)) (is_ : InputStream) : list PropertyArray :=
  match n with
  | O => []
  | S n' =>
      let '(is', prop_values) :=
        read_vertex_props_bin props is_ prop_values_init in
      prop_values :: binary_records n' props is'
  end.

(** The float that the reference [lexical_cast<double>] gives for a
    decimal text. *)
Definition sample_float (t : string) : cfloat :=
  match decimal_to_double t with
  | Return d => float_of_double d
  | Throw _ => fzero
  end.

(** The record of a vertex line with three decimal tokens. *)
Definition sample_record (tx ty tz : string) : PropertyArray :=
  prop_set (prop_set (prop_set prop_values_init coord_x (sample_float tx))
                     coord_y (sample_float ty))
           coord_z (sample_float tz).

(** The record of a vertex line with three decimal tokens and three
    colour channels. *)
Definition sample_colored_record (tx ty tz : string) (cr cg cb : Z)
  : PropertyArray :=
  prop_set (prop_set (prop_set (sample_record tx ty tz)
                               color_r (float_of_int cr))
                     color_g (float_of_int cg))
           color_b (float_of_int cb).

(** A schema of three kinds. *)
Definition mixed_schema : list (Property * Number) :=
  [(coord_x, float32); (coord_y, float64); (coord_z, uint8)].

(** The bytes of three vertex records of three floats each. *)
Definition three_vertex_records : string := bytes (repeat 0 36).

(** A reader for one vertex line of three unsigned 32-bit properties. *)
Definition reader_unsigned : ReaderPLY :=
  {| format := Format.ascii; v_count := 1; f_count := 0;
     vertex_props := [(coord_x, uint32); (coord_y, uint32); (coord_z, uint32)];
     face_props := [];
     meshPoints := []; meshFacets := [];
     _material := None; _kernel := [] |}.

(** * Properties *)

(** ** Schema validation *)

Lemma Property_eqb_eq (a c : Property) : Property_eqb a c = true <-> a = c.
Proof. destruct a, c; simpl; split; congruence. Qed.

Lemma Property_eqb_neq (a c : Property) : Property_eqb a c = false <-> a <> c.
Proof. destruct a, c; simpl; split; congruence. Qed.

Lemma count_if_nonneg {A} (pred : A -> bool) (l : list A) : 0 <= count_if pred l.
Proof. induction l as [|a l IH]; simpl; [lia|]. destruct (pred a); lia. Qed.

Lemma count_if_zero {A} (pred : A -> bool) (l : list A) :
  count_if pred l = 0 <-> (forall a, In a l -> pred a = false).
Proof.
  induction l as [|a l IH]; simpl.
  - split; [intros _ a []|reflexivity].
  - pose proof (count_if_nonneg pred l) as Hl.
    destruct (pred a) eqn:Ha; split.
    + lia.
    + intros H. specialize (H a (or_introl eq_refl)). congruence.
    + intros H c [<-|Hc]; [assumption|]. apply IH; [lia|assumption].
    + intros H. assert (count_if pred l = 0) by (apply IH; auto). lia.
Qed.

Lemma count_if_one {A} (pred : A -> bool) (l : list A) :
  count_if pred l = 1 <->
  exists l1 a l2,
    l = (l1 ++ a :: l2)%list /\ pred a = true /\
    (forall c, In c l1 -> pred c = false) /\
    (forall c, In c l2 -> pred c = false).
Proof.
  induction l as [|a l IH]; simpl.
  - split; [lia|]. intros (l1 & c & l2 & H & _). destruct l1; discriminate.
  - pose proof (count_if_nonneg pred l) as Hl.
    destruct (pred a) eqn:Ha; split.
    + intros H. exists [], a, l. simpl. repeat split; auto.
      * intros c [].
      * apply count_if_zero. lia.
    + intros (l1 & c & l2 & H & Hc & H1 & H2).
      destruct l1 as [|d l1]; simpl in H; injection H as -> ->.
      * assert (count_if pred l2 = 0) by (apply count_if_zero; assumption). lia.
      * specialize (H1 d (or_introl eq_refl)). congruence.
    + intros H. destruct IH as [IH _].
      destruct IH as (l1 & c & l2 & -> & Hc & H1 & H2); [lia|].
      exists (a :: l1), c, l2. simpl. repeat split; auto.
      intros d [<-|Hd]; auto.
    + intros (l1 & c & l2 & H & Hc & H1 & H2).
      destruct l1 as [|d l1]; simpl in H; injection H as -> ->; [congruence|].
      assert (count_if pred (l1 ++ c :: l2) = 1); [|lia].
      apply IH. exists l1, c, l2. repeat split; auto.
      intros e He. apply H1. right. assumption.
Qed.

Lemma exactly_one_count (role : Property) (props : list (Property * Number)) :
  exactly_one role props <->
  count_if (fun p => PropertyComp p role) props = 1.
Proof.
  rewrite count_if_one. unfold exactly_one, PropertyComp. split.
  - intros (l1 & k & l2 & -> & H1 & H2).
    exists l1, (role, k), l2. repeat split.
    + simpl. apply Property_eqb_eq. reflexivity.
    + intros c Hc. apply Property_eqb_neq. auto.
    + intros c Hc. apply Property_eqb_neq. auto.
  - intros (l1 & [q k] & l2 & -> & Hq & H1 & H2).
    simpl in Hq. apply Property_eqb_eq in Hq. subst q.
    exists l1, k, l2. repeat split.
    + intros c Hc. apply Property_eqb_neq. auto.
    + intros c Hc. apply Property_eqb_neq. auto.
Qed.

Lemma VerifyVertexProperty_spec (st : ReaderPLY) :
  VerifyVertexProperty st = true <->
  exactly_one coord_x (vertex_props st) /\
  exactly_one coord_y (vertex_props st) /\
  exactly_one coord_z (vertex_props st).
Proof.
  unfold VerifyVertexProperty. rewrite !exactly_one_count.
  rewrite !andb_true_iff, !Z.eqb_eq. tauto.
Qed.

Section LoadStages.

Context {LC : LexicalCast} {IS : InputStreamOps}.

(** [Load] stops at the first stage that fails. *)
Lemma Load_vertex_schema_rejected st0 input input1 st input2 :
  CheckHeader input = (true, input1) ->
  ReadHeader st0 input1 = Return (true, st, input2) ->
  VerifyVertexProperty st = false ->
  Load st0 input = Return (false, st, input2).
Proof.
  intros H1 H2 H3. unfold Load. rewrite H1. simpl. rewrite H2. simpl.
  rewrite H3. reflexivity.
Qed.

Lemma Load_color_schema_rejected st0 input input1 st input2 :
  CheckHeader input = (true, input1) ->
  ReadHeader st0 input1 = Return (true, st, input2) ->
  fst (VerifyColorProperty st) = false ->
  Load st0 input = Return (false, st, input2).
Proof.
  intros H1 H2 H3. unfold Load. rewrite H1. simpl. rewrite H2. simpl.
  destruct (VerifyVertexProperty st); simpl; [|reflexivity].
  revert H3. unfold VerifyColorProperty.
  destruct (negb _ && negb _); simpl; [reflexivity|].
  destruct (_ =? 3); [destruct (_material st)|]; simpl; discriminate.
Qed.

Lemma Load_header_rejected st0 input input1 st input2 :
  CheckHeader input = (true, input1) ->
  ReadHeader st0 input1 = Return (false, st, input2) ->
  Load st0 input = Return (false, st, input2).
Proof.
  intros H1 H2. unfold Load. rewrite H1. simpl. rewrite H2. reflexivity.
Qed.

Lemma Load_ascii_body st0 input input1 st input2 st1 :
  CheckHeader input = (true, input1) ->
  ReadHeader st0 input1 = Return (true, st, input2) ->
  VerifyVertexProperty st = true ->
  VerifyColorProperty st = (true, st1) ->
  format st1 = Format.ascii ->
  Load st0 input = LoadAscii st1 input2.
Proof.
  intros H1 H2 H3 H4 H5. unfold Load. rewrite H1. simpl. rewrite H2. simpl.
  rewrite H3. simpl. rewrite H4. simpl. rewrite H5. reflexivity.
Qed.

(** C4. Vertex-schema validation succeeds exactly when the schema has
    exactly one coord-x entry, exactly one coord-y entry and exactly one
    coord-z entry; and when it rejects the schema that the header left,
    [Load] returns false with the reader and the stream as the header
    stage left them: nothing of the body is decoded. *)
Theorem vertex_schema_validation :
  (forall st,
     VerifyVertexProperty st = true <->
     exactly_one coord_x (vertex_props st) /\
     exactly_one coord_y (vertex_props st) /\
     exactly_one coord_z (vertex_props st)) /\
  (forall st0 input input1 st input2,
     CheckHeader input = (true, input1) ->
     ReadHeader st0 input1 = Return (true, st, input2) ->
     ~ (exactly_one coord_x (vertex_props st) /\
        exactly_one coord_y (vertex_props st) /\
        exactly_one coord_z (vertex_props st)) ->
     Load st0 input = Return (false, st, input2)).
Proof.
  split.
  - apply VerifyVertexProperty_spec.
  - intros st0 input input1 st input2 H1 H2 H3.
    apply (Load_vertex_schema_rejected _ _ _ _ _ H1 H2).
    destruct (VerifyVertexProperty st) eqn:E; [|reflexivity].
    apply VerifyVertexProperty_spec in E. contradiction.
Qed.

End LoadStages.

Lemma color_total_count (props : list (Property * Number)) :
  count_if (fun p => PropertyComp p color_r) props
  + count_if (fun p => PropertyComp p color_g) props
  + count_if (fun p => PropertyComp p color_b) props
  = color_total props.
Proof.
  unfold color_total, PropertyComp.
  induction props as [|[q k] props IH]; [reflexivity|].
  cbn [count_if filter fst].
  destruct q; cbn [Property_eqb is_color List.length]; lia.
Qed.

Lemma VerifyColorProperty_spec (st : ReaderPLY) :
  fst (VerifyColorProperty st) = true <->
  color_total (vertex_props st) = 0 \/ color_total (vertex_props st) = 3.
Proof.
  unfold VerifyColorProperty. rewrite color_total_count.
  destruct (Z.eqb_spec (color_total (vertex_props st)) 0) as [E0|E0];
    destruct (Z.eqb_spec (color_total (vertex_props st)) 3) as [E3|E3];
    cbn [negb andb]; try destruct (_material st); cbn [fst];
    split; intros; auto; try lia; try discriminate.
Qed.

Lemma VerifyColorProperty_activates (st : ReaderPLY) (m : Material) :
  color_total (vertex_props st) = 3 ->
  _material st = Some m ->
  VerifyColorProperty st = (true, set_material (per_vertex (diffuseColor m)) st).
Proof.
  intros H3 Hm. unfold VerifyColorProperty.
  rewrite color_total_count, H3, Hm. reflexivity.
Qed.

Lemma addVertexProperty_per_vertex (prop : PropertyArray) (st : ReaderPLY)
  (colors : list Color) :
  _material st = per_vertex colors ->
  meshPoints (addVertexProperty prop st) = (meshPoints st ++ [point_of prop])%list /\
  _material (addVertexProperty prop st) = per_vertex (colors ++ [color_of prop])%list.
Proof.
  intros Hm. unfold addVertexProperty. cbn [_material push_point].
  rewrite Hm. unfold per_vertex. cbn [binding Binding_eqb diffuseColor].
  split; reflexivity.
Qed.

Section Colors.

Context {LC : LexicalCast} {IS : InputStreamOps}.

Lemma ReadVertexes_bin_loop_per_vertex (k : nat) :
  forall st is_ colors,
    _material st = per_vertex colors ->
    exists bufs st' is',
      List.length bufs = k /\
      ReadVertexes_bin_loop k st is_ = (true, st', is') /\
      meshPoints st' = (meshPoints st ++ map point_of bufs)%list /\
      _material st' = per_vertex (colors ++ map color_of bufs)%list.
Proof.
  induction k as [|k IH]; intros st is_ colors Hm.
  - exists [], st, is_. simpl. rewrite !app_nil_r. auto.
  - cbn [ReadVertexes_bin_loop].
    destruct (read_vertex_props_bin (vertex_props st) is_ prop_values_init)
      as [is1 prop].
    destruct (addVertexProperty_per_vertex prop st colors Hm) as [Hp Hc].
    destruct (IH (addVertexProperty prop st) is1 _ Hc)
      as (bufs & st' & is' & Hlen & Hrun & Hpts & Hcol).
    exists (prop :: bufs), st', is'. cbn [List.length map].
    rewrite Hrun, Hpts, Hcol, Hp, <- !app_assoc. auto.
Qed.

Lemma ReadVertexes_ascii_loop_per_vertex (k : nat) :
  forall st line input colors ok st' input',
    _material st = per_vertex colors ->
    ReadVertexes_ascii_loop k st line input = Return (ok, st', input') ->
    exists bufs,
      (List.length bufs <= k)%nat /\
      meshPoints st' = (meshPoints st ++ map point_of bufs)%list /\
      _material st' = per_vertex (colors ++ map color_of bufs)%list.
Proof.
  induction k as [|k IH]; intros st line input colors ok st' input' Hm Hrun.
  - injection Hrun as _ <- _. exists []. simpl. rewrite !app_nil_r. auto.
  - cbn [ReadVertexes_ascii_loop] in Hrun.
    destruct (getline input line) as [line1 input1].
    destruct (fail input1).
    + injection Hrun as _ <- _. exists []. simpl. rewrite !app_nil_r.
      split; [lia|auto].
    + destruct (read_vertex_props (vertex_props st) line1 prop_values_init)
        as [[[line2 prop]|]|e]; cbn [bind] in Hrun; [| |discriminate].
      * destruct (addVertexProperty_per_vertex prop st colors Hm) as [Hp Hc].
        destruct (IH _ _ _ _ _ _ _ Hc Hrun) as (bufs & Hlen & Hpts & Hcol).
        exists (prop :: bufs). cbn [List.length map].
        rewrite Hpts, Hcol, Hp, <- !app_assoc. split; [lia|auto].
      * injection Hrun as _ <- _. exists []. simpl. rewrite !app_nil_r.
        split; [lia|auto].
Qed.

(** C5. Colour-schema validation succeeds exactly when the schema has 0
    or 3 entries with a colour role; with 1 or 2 of them [Load] returns
    false with the reader and the stream as the header stage left them:
    nothing of the body is decoded. *)
Theorem color_schema_validation :
  (forall st,
     fst (VerifyColorProperty st) = true <->
     color_total (vertex_props st) = 0 \/ color_total (vertex_props st) = 3) /\
  (forall st0 input input1 st input2,
     CheckHeader input = (true, input1) ->
     ReadHeader st0 input1 = Return (true, st, input2) ->
     color_total (vertex_props st) = 1 \/ color_total (vertex_props st) = 2 ->
     Load st0 input = Return (false, st, input2)).
Proof.
  split.
  - apply VerifyColorProperty_spec.
  - intros st0 input input1 st input2 H1 H2 H3.
    apply (Load_color_schema_rejected _ _ _ _ _ H1 H2).
    destruct (fst (VerifyColorProperty st)) eqn:E; [|reflexivity].
    apply VerifyColorProperty_spec in E. lia.
Qed.

End Colors.

(** ** The binary face decoder *)

Section BinaryFaces.

Context {IS : InputStreamOps}.

Lemma read_face_record_face_props st is_ vars :
  face_props (fst (fst (read_face_record st is_ vars))) = face_props st.
Proof.
  unfold read_face_record.
  destruct (get_uint8 is_ (n vars)) as [nv is1].
  destruct (nv =? 3); [|reflexivity].
  destruct (get_uint32 is1 (f1 vars)) as [a1 is2].
  destruct (get_uint32 is2 (f2 vars)) as [a2 is3].
  destruct (get_uint32 is3 (f3 vars)) as [a3 is4].
  destruct ((a1 <? v_count st) && (a2 <? v_count st) && (a3 <? v_count st));
    cbn [push_facet face_props];
    destruct (skip_face_props (face_props st) is4 nv); reflexivity.
Qed.

(** The stream and the variables after a face record are those of
    [face_record_cursor], in which no facet is decided. *)
Lemma read_face_record_cursor st is_ vars :
  (snd (fst (read_face_record st is_ vars)), snd (read_face_record st is_ vars))
  = face_record_cursor (face_props st) is_ vars.
Proof.
  unfold read_face_record, face_record_cursor.
  destruct (get_uint8 is_ (n vars)) as [nv is1].
  destruct (nv =? 3); [|reflexivity].
  destruct (get_uint32 is1 (f1 vars)) as [a1 is2].
  destruct (get_uint32 is2 (f2 vars)) as [a2 is3].
  destruct (get_uint32 is3 (f3 vars)) as [a3 is4].
  destruct ((a1 <? v_count st) && (a2 <? v_count st) && (a3 <? v_count st));
    cbn [push_facet face_props];
    destruct (skip_face_props (face_props st) is4 nv); reflexivity.
Qed.

Lemma ReadFaces_bin_loop_stream (k : nat) :
  forall st st2 is_ vars,
    face_props st = face_props st2 ->
    snd (ReadFaces_bin_loop k st is_ vars) = snd (ReadFaces_bin_loop k st2 is_ vars).
Proof.
  induction k as [|k IH]; intros st st2 is_ vars Hfp; [reflexivity|].
  cbn [ReadFaces_bin_loop].
  pose proof (read_face_record_cursor st is_ vars) as H1.
  pose proof (read_face_record_cursor st2 is_ vars) as H2.
  pose proof (read_face_record_face_props st is_ vars) as F1.
  pose proof (read_face_record_face_props st2 is_ vars) as F2.
  rewrite Hfp in H1. rewrite <- H2 in H1.
  destruct (read_face_record st is_ vars) as [[st' is'] vars'].
  destruct (read_face_record st2 is_ vars) as [[st2' is2'] vars2'].
  cbn [fst snd] in *. injection H1 as -> ->.
  apply IH. congruence.
Qed.

(** C1. A face record whose count is 3 and one of whose three indices is
    not below [v_count] appends no facet; the stream and the variables
    after the record are the ones reached after the count, the three
    indices and every face property were read, and they are the same as
    when the bound admits the indices and the facet is kept. The stream
    after any number of records does not depend on [v_count], so every
    later record is decoded from the same position. *)
Theorem rejected_facet_keeps_cursor :
  forall st is_ vars nv is1 a1 is2 a2 is3 a3 is4,
    get_uint8 is_ (n vars) = (nv, is1) ->
    nv = 3 ->
    get_uint32 is1 (f1 vars) = (a1, is2) ->
    get_uint32 is2 (f2 vars) = (a2, is3) ->
    get_uint32 is3 (f3 vars) = (a3, is4) ->
    ~ (a1 < v_count st /\ a2 < v_count st /\ a3 < v_count st) ->
    let after := skip_face_props (face_props st) is4 3 in
    let vars' := {| n := snd after; f1 := a1; f2 := a2; f3 := a3 |} in
    read_face_record st is_ vars = (st, fst after, vars') /\
    (forall vc,
       a1 < vc -> a2 < vc -> a3 < vc ->
       read_face_record (set_v_count vc st) is_ vars
       = (push_facet {| p1 := a1; p2 := a2; p3 := a3 |} (set_v_count vc st),
          fst after, vars')) /\
    (forall k vc,
       snd (ReadFaces_bin_loop k st is_ vars)
       = snd (ReadFaces_bin_loop k (set_v_count vc st) is_ vars)).
Proof.
  intros st is_ vars nv is1 a1 is2 a2 is3 a3 is4 Hn -> H1 H2 H3 Hout after vars'.
  subst after vars'. repeat split.
  - unfold read_face_record. rewrite Hn. cbn [Z.eqb Pos.eqb]. rewrite H1, H2, H3.
    replace ((a1 <? v_count st) && (a2 <? v_count st) && (a3 <? v_count st))
      with false.
    + destruct (skip_face_props (face_props st) is4 3); reflexivity.
    + symmetry. apply not_true_is_false. rewrite !andb_true_iff, !Z.ltb_lt. tauto.
  - intros vc L1 L2 L3. unfold read_face_record.
    rewrite Hn. cbn [Z.eqb Pos.eqb]. rewrite H1, H2, H3.
    cbn [set_v_count v_count].
    apply Z.ltb_lt in L1, L2, L3. rewrite L1, L2, L3. cbn [andb push_facet set_v_count face_props].
    destruct (skip_face_props (face_props st) is4 3); reflexivity.
  - intros k vc. apply ReadFaces_bin_loop_stream. reflexivity.
Qed.

End BinaryFaces.

(** *** Strings *)

Lemma append_assoc (a c d : string) : (a ++ c) ++ d = a ++ (c ++ d).
Proof. induction a as [|ch a IH]; simpl; [reflexivity|]. rewrite IH. reflexivity. Qed.

Lemma append_empty_r (a : string) : a ++ "" = a.
Proof. induction a as [|ch a IH]; simpl; [reflexivity|]. rewrite IH. reflexivity. Qed.

Lemma strlen_append (a c : string) : strlen (a ++ c) = (strlen a + strlen c)%nat.
Proof. unfold strlen. induction a as [|ch a IH]; simpl; [reflexivity|]. rewrite IH. reflexivity. Qed.

Lemma split_at (k : nat) (s : string) :
  (k <= strlen s)%nat ->
  exists a c, s = a ++ c /\ strlen a = k.
Proof.
  revert s. induction k as [|k IH]; intros s Hk.
  - exists "", s. split; reflexivity.
  - destruct s as [|ch s]; [simpl in Hk; lia|].
    destruct (IH s) as (a & c & -> & Ha); [unfold strlen in *; simpl in Hk; lia|].
    exists (String ch a), c. split; [reflexivity|]. unfold strlen in *. simpl. lia.
Qed.

(** Every text splits into its longest prefix in a class and a rest. *)
Lemma span_class (p : ascii -> bool) (s : string) :
  exists a r, s = a ++ r /\ all_chars p a = true /\ stops p r.
Proof.
  induction s as [|c s (a & r & -> & Ha & Hr)].
  - exists "", "". repeat split.
  - destruct (p c) eqn:Hc.
    + exists (String c a), r. cbn. rewrite Hc, Ha. repeat split. assumption.
    + exists "", (String c (a ++ r)). cbn. repeat split. assumption.
Qed.

(** *** Layout of a face record *)

Section FaceLayout.

Context {IS : InputStreamOps} {ISL : InputStreamLaws IS}.

Lemma get_uint8_byte o c rest v :
  get_uint8 (bin_stream o (String c rest)) v = (code c, bin_stream o rest).
Proof.
  rewrite (surjective_pairing (get_uint8 _ _)).
  rewrite law_count. f_equal.
  apply (law_uint8 o (String c "") rest v). reflexivity.
Qed.

Lemma get_floats_layout (m : nat) :
  forall o payload rest v,
    strlen payload = (m * 4)%nat ->
    snd (get_floats m (bin_stream o (payload ++ rest)) v) = bin_stream o rest.
Proof.
  induction m as [|m IH]; intros o payload rest v Hlen.
  - destruct payload; [reflexivity|discriminate].
  - destruct (split_at 4 payload) as (a & c & -> & Ha); [lia|].
    rewrite strlen_append in Hlen. rewrite append_assoc.
    cbn [get_floats].
    pose proof (law_float o a (c ++ rest) v Ha) as H.
    destruct (get_float (bin_stream o (a ++ c ++ rest)) v) as [v' is'].
    cbn [snd] in H. subst is'. apply IH. lia.
Qed.

Lemma get_doubles_layout (m : nat) :
  forall o payload rest v,
    strlen payload = (m * 8)%nat ->
    snd (get_doubles m (bin_stream o (payload ++ rest)) v) = bin_stream o rest.
Proof.
  induction m as [|m IH]; intros o payload rest v Hlen.
  - destruct payload; [reflexivity|discriminate].
  - destruct (split_at 8 payload) as (a & c & -> & Ha); [lia|].
    rewrite strlen_append in Hlen. rewrite append_assoc.
    cbn [get_doubles].
    pose proof (law_double o a (c ++ rest) v Ha) as H.
    destruct (get_double (bin_stream o (a ++ c ++ rest)) v) as [v' is'].
    cbn [snd] in H. subst is'. apply IH. lia.
Qed.

Ltac scalar_field law :=
  match goal with
  | H : strlen ?bytes = _ |- context [?get (bin_stream ?o (?bytes ++ ?rest)) ?v] =>
      let E := fresh in
      pose proof (law o bytes rest v H) as E;
      destruct (get (bin_stream o (bytes ++ rest)) v);
      cbn [snd fst] in *; subst; reflexivity
  end.

(** One face property takes exactly the bytes of its field. *)
Lemma skip_face_prop_layout (k : Number) o bytes rest nv :
  field_layout k bytes ->
  fst (skip_face_prop k (bin_stream o (bytes ++ rest)) nv) = bin_stream o rest.
Proof.
  intros H. destruct k; cbn [field_layout width] in H; cbn [skip_face_prop].
  - scalar_field law_int8.
  - scalar_field law_uint8.
  - scalar_field law_int16.
  - scalar_field law_uint16.
  - scalar_field law_int32.
  - scalar_field law_uint32.
  - destruct H as (m & payload & -> & Hlen). cbn [append].
    rewrite get_uint8_byte.
    pose proof (get_floats_layout _ o payload rest fzero Hlen) as E.
    destruct (get_floats _ _ _). cbn [snd fst] in *. assumption.
  - destruct H as (m & payload & -> & Hlen). cbn [append].
    rewrite get_uint8_byte.
    pose proof (get_doubles_layout _ o payload rest fzero Hlen) as E.
    destruct (get_doubles _ _ _). cbn [snd fst] in *. assumption.
Qed.

(** The face properties take exactly the bytes of their fields, in the
    order of the schema. *)
Lemma skip_face_props_layout (props : list Number) (chunks : list string) :
  Forall2 field_layout props chunks ->
  forall o rest nv,
    fst (skip_face_props props (bin_stream o (concat_bytes chunks ++ rest)) nv)
    = bin_stream o rest.
Proof.
  induction 1 as [|k bytes props chunks Hk _ IH]; intros o rest nv; [reflexivity|].
  cbn [skip_face_props concat_bytes]. rewrite append_assoc.
  pose proof (skip_face_prop_layout k o bytes (concat_bytes chunks ++ rest) nv Hk) as E.
  destruct (skip_face_prop k _ nv) as [is' n']. cbn [fst] in E. subst is'.
  apply IH.
Qed.

(** C2, as amended. A face record whose count byte is 3 takes the count,
    the three 32-bit indices and then the field of every face property in
    the order of the schema (one value for an integer kind; a count byte
    and that many values for float32 and float64), whether or not the
    facet is kept. A face record whose count byte is not 3 takes the count
    byte and nothing else: neither indices nor face properties. *)
Theorem face_record_layout :
  forall st o vars,
    (forall i1 i2 i3 chunks rest,
       strlen i1 = 4%nat -> strlen i2 = 4%nat -> strlen i3 = 4%nat ->
       Forall2 field_layout (face_props st) chunks ->
       snd (fst (read_face_record st
                   (bin_stream o
                      (String "003" (i1 ++ i2 ++ i3 ++ concat_bytes chunks ++ rest)))
                   vars))
       = bin_stream o rest) /\
    (forall c rest,
       code c <> 3 ->
       read_face_record st (bin_stream o (String c rest)) vars
       = (st, bin_stream o rest,
          {| n := code c; f1 := f1 vars; f2 := f2 vars; f3 := f3 vars |})).
Proof.
  intros st o vars. split.
  - intros i1 i2 i3 chunks rest H1 H2 H3 Hl.
    pose proof (read_face_record_cursor st
                  (bin_stream o (String "003" (i1 ++ i2 ++ i3 ++ concat_bytes chunks ++ rest)))
                  vars) as E.
    apply (f_equal fst) in E. cbn [fst] in E. rewrite E. clear E.
    unfold face_record_cursor. rewrite get_uint8_byte.
    change (code "003" =? 3) with true. cbn iota.
    pose proof (law_uint32 o i1 (i2 ++ i3 ++ concat_bytes chunks ++ rest) (f1 vars) H1) as E1.
    destruct (get_uint32 (bin_stream o (i1 ++ _)) (f1 vars)) as [a1 is2].
    cbn [snd] in E1. subst is2.
    pose proof (law_uint32 o i2 (i3 ++ concat_bytes chunks ++ rest) (f2 vars) H2) as E2.
    destruct (get_uint32 (bin_stream o (i2 ++ _)) (f2 vars)) as [a2 is3].
    cbn [snd] in E2. subst is3.
    pose proof (law_uint32 o i3 (concat_bytes chunks ++ rest) (f3 vars) H3) as E3.
    destruct (get_uint32 (bin_stream o (i3 ++ _)) (f3 vars)) as [a3 is4].
    cbn [snd] in E3. subst is4.
    pose proof (skip_face_props_layout _ _ Hl o rest (code "003")) as E.
    destruct (skip_face_props _ _ _). cbn [fst] in *. assumption.
  - intros c rest Hc. unfold read_face_record. rewrite get_uint8_byte.
    apply Z.eqb_neq in Hc. rewrite Hc. reflexivity.
Qed.

End FaceLayout.

(** ** Lines of a stream *)

Lemma getline_old (input : istream) (a c : string) :
  fail (snd (getline input a)) = false ->
  getline input c = getline input a.
Proof.
  unfold getline. destruct (good input); [reflexivity|].
  cbn [snd set_fail fail failbit]. discriminate.
Qed.

Lemma getline_stream_old (input : istream) (a c : string) :
  snd (getline input a) = snd (getline input c).
Proof.
  unfold getline. destruct (good input); [|reflexivity].
  destruct (buf input); [reflexivity|].
  destruct (split_delim _) as [l [rest|]]; reflexivity.
Qed.

Lemma split_delim_length (s : string) :
  forall l rest, split_delim s = (l, Some rest) ->
  (strlen rest < strlen s)%nat.
Proof.
  unfold strlen. induction s as [|ch s IH]; intros l rest H; simpl in H.
  - discriminate.
  - destruct (Ascii.eqb ch newline).
    + injection H as _ <-. simpl. lia.
    + destruct (split_delim s) as [l' [r'|]]; [|discriminate].
      injection H as _ <-. specialize (IH _ _ eq_refl). simpl. lia.
Qed.

(** A successful [getline] takes at least one character. *)
Lemma getline_shorter (input : istream) (a line : string) (input' : istream) :
  getline input a = (line, input') ->
  fail input' = false ->
  (strlen (buf input') < strlen (buf input))%nat.
Proof.
  unfold getline. destruct (good input).
  - destruct (buf input) as [|ch s] eqn:Eb.
    + intros H. injection H as _ <-. discriminate.
    + destruct (split_delim (String ch s)) as [l [rest|]] eqn:Es;
        intros H _; injection H as _ <-; cbn [buf advance at_eof].
      * apply (split_delim_length _ _ _ Es).
      * unfold strlen. simpl. lia.
  - intros H. injection H as _ <-. cbn [set_fail fail failbit]. discriminate.
Qed.

Lemma reads_lines_length input ls input' :
  reads_lines input ls input' ->
  (List.length ls + strlen (buf input') <= strlen (buf input))%nat.
Proof.
  induction 1 as [|input line input1 ls input2 Hg Hf _ IH]; [simpl; lia|].
  pose proof (getline_shorter _ _ _ _ Hg Hf). simpl. lia.
Qed.

Lemma reads_lines_app input ls1 ls2 input' :
  reads_lines input (ls1 ++ ls2)%list input' ->
  exists mid, reads_lines input ls1 mid /\ reads_lines mid ls2 input'.
Proof.
  revert input. induction ls1 as [|l ls1 IH]; intros input H.
  - exists input. split; [constructor|assumption].
  - inversion H as [|? ? input1 ? ? Hg Hf Hr]; subst.
    destruct (IH _ Hr) as (mid & H1 & H2).
    exists mid. split; [econstructor; eassumption|assumption].
Qed.

Lemma split_delim_line (l rest : string) :
  no_newline l ->
  split_delim (l ++ String newline rest) = (l, Some rest).
Proof.
  unfold no_newline. induction l as [|ch l IH]; intros H; simpl in *.
  - reflexivity.
  - apply andb_true_iff in H. destruct H as [Hc Hl].
    apply negb_true_iff in Hc. rewrite Hc, (IH Hl). reflexivity.
Qed.

(** A good stream on newline-terminated lines yields those lines. *)
Lemma reads_unlines (ls : list string) (rest : string) :
  Forall no_newline ls ->
  reads_lines (advance (unlines ls ++ rest)) ls (advance rest).
Proof.
  induction 1 as [|l ls Hl _ IH]; [constructor|].
  apply (reads_cons _ l (advance (unlines ls ++ rest))); [|reflexivity|assumption].
  unfold getline. cbn [good advance eofbit failbit negb andb buf unlines].
  rewrite append_assoc. cbn [append].
  rewrite (split_delim_line _ _ Hl).
  destruct (l ++ String newline (unlines ls ++ rest)) eqn:E; [|reflexivity].
  destruct l; discriminate.
Qed.

Lemma exhausted_empty : exhausted (advance "").
Proof. reflexivity. Qed.

(** ** The header loop *)

Lemma ReadHeader_loop_old (k : nat) st element (a c : string) input :
  ReadHeader_loop k st element a input = ReadHeader_loop k st element c input.
Proof.
  destruct k as [|k]; [reflexivity|]. cbn [ReadHeader_loop].
  pose proof (getline_stream_old input a c) as Hs.
  destruct (fail (snd (getline input a))) eqn:Hf.
  - destruct (getline input a) as [l1 i1], (getline input c) as [l2 i2].
    cbn [snd] in *. subst i2. rewrite Hf. reflexivity.
  - rewrite (getline_old input a c Hf). reflexivity.
Qed.

(** The turns that [ReadHeader] allows are enough: with more turns than
    characters left, the loop does not depend on how many. *)
Lemma ReadHeader_loop_fuel (k : nat) :
  forall k' st element line input,
    (strlen (buf input) < k)%nat -> (strlen (buf input) < k')%nat ->
    ReadHeader_loop k st element line input
    = ReadHeader_loop k' st element line input.
Proof.
  induction k as [|k IH]; intros k' st element line input Hk Hk'; [lia|].
  destruct k' as [|k']; [lia|]. cbn [ReadHeader_loop].
  destruct (getline input line) as [line1 input1] eqn:Hg.
  destruct (fail input1) eqn:Hf; [reflexivity|].
  pose proof (getline_shorter _ _ _ _ Hg Hf) as Hs.
  destruct (header_line st element line1); try reflexivity.
  apply IH; lia.
Qed.

(** The loop follows the lines that [header_fold] accepts. *)
Lemma ReadHeader_loop_lines input ls input' :
  reads_lines input ls input' ->
  forall st element st' element' k,
    header_fold st element ls = Some (st', element') ->
    ReadHeader_loop (List.length ls + k) st element "" input
    = ReadHeader_loop k st' element' "" input'.
Proof.
  induction 1 as [|input line input1 ls input2 Hg Hf _ IH];
    intros st element st' element' k Hfold.
  - injection Hfold as <- <-. reflexivity.
  - cbn [header_fold] in Hfold. cbn [List.length Nat.add ReadHeader_loop].
    rewrite Hg, Hf.
    destruct (header_line st element line) as [st1 el1| | |]; try discriminate.
    rewrite (ReadHeader_loop_old _ _ _ line ""). apply IH. assumption.
Qed.

Lemma ReadHeader_lines input ls input' :
  reads_lines input ls input' ->
  forall st0 st element,
    header_fold st0 "" ls = Some (st, element) ->
    exists k,
      ReadHeader st0 input = ReadHeader_loop (S k) st element "" input'.
Proof.
  intros Hr st0 st element Hfold.
  pose proof (reads_lines_length _ _ _ Hr) as Hlen.
  exists (strlen (buf input) - List.length ls)%nat.
  unfold ReadHeader.
  replace (S (strlen (buf input)))
    with (List.length ls + S (strlen (buf input) - List.length ls))%nat by lia.
  apply (ReadHeader_loop_lines _ _ _ Hr). assumption.
Qed.

(** C8. When the stream runs out after header lines that the loop body
    accepted, none of them the end_header line, [ReadHeader] returns
    true, with the reader as the last line left it. *)
Theorem header_without_terminator :
  forall st0 input ls input' st element,
    reads_lines input ls input' ->
    exhausted input' ->
    header_fold st0 "" ls = Some (st, element) ->
    ReadHeader st0 input = Return (true, st, snd (getline input' "")).
Proof.
  intros st0 input ls input' st element Hr Hx Hfold.
  destruct (ReadHeader_lines _ _ _ Hr _ _ _ Hfold) as [k ->].
  cbn [ReadHeader_loop]. unfold exhausted in Hx.
  destruct (getline input' "") as [l i]. cbn [snd] in *. rewrite Hx. reflexivity.
Qed.

(** A line that the loop body rejects, after lines it accepted, makes
    [ReadHeader] return false there. *)
Lemma ReadHeader_rejects st0 input pre line input' st element st' :
  reads_lines input (pre ++ [line])%list input' ->
  header_fold st0 "" pre = Some (st, element) ->
  header_line st element line = failed st' ->
  ReadHeader st0 input = Return (false, st', input').
Proof.
  intros Hr Hfold Hline.
  destruct (reads_lines_app _ _ _ _ Hr) as (mid & H1 & H2).
  destruct (ReadHeader_lines _ _ _ H1 _ _ _ Hfold) as [k ->].
  inversion H2 as [|? ? input1 ? ? Hg Hf Hnil]; subst.
  inversion Hnil; subst.
  cbn [ReadHeader_loop]. rewrite Hg, Hf, Hline. reflexivity.
Qed.


(** ** Tokens of a header line *)

Lemma token_starts (t rest : string) : token t -> starts_token (t ++ rest).
Proof.
  intros [Hne Hall]. destruct t as [|ch t]; [contradiction|].
  simpl in *. apply andb_true_iff in Hall. destruct Hall as [Hc _].
  apply negb_true_iff in Hc. assumption.
Qed.

Lemma separator_after (s rest : string) : separator s -> after_token (s ++ rest).
Proof.
  intros [Hne Hall]. destruct s as [|ch s]; [contradiction|].
  unfold blank in Hall. simpl in *. apply andb_true_iff in Hall. tauto.
Qed.

Lemma skip_space_blank (s t : string) :
  blank s -> starts_token t -> skip_space (s ++ t) = t.
Proof.
  unfold blank. induction s as [|ch s IH]; intros Hs Ht; simpl in *.
  - destruct t as [|c t]; [contradiction|]. simpl in *. rewrite Ht. reflexivity.
  - apply andb_true_iff in Hs. destruct Hs as [Hc Hs]. rewrite Hc. auto.
Qed.

Lemma ws_blank (s t : string) :
  blank s -> starts_token t -> ws (advance (s ++ t)) = advance t.
Proof.
  intros Hs Ht. unfold ws. cbn [good advance eofbit failbit negb andb buf].
  rewrite (skip_space_blank _ _ Hs Ht).
  destruct t; [contradiction|reflexivity].
Qed.

Lemma split_token_token (t rest : string) :
  all_chars (fun c => negb (isspace c)) t = true ->
  after_token rest ->
  split_token (t ++ rest) = (t, rest).
Proof.
  induction t as [|ch t IH]; intros Ht Hr; simpl in *.
  - destruct rest as [|c rest]; [reflexivity|]. simpl in *. rewrite Hr. reflexivity.
  - apply andb_true_iff in Ht. destruct Ht as [Hc Ht].
    apply negb_true_iff in Hc. rewrite Hc, (IH Ht Hr). reflexivity.
Qed.

(** Extracting a token that more text follows. *)
Lemma get_string_token (t rest old : string) :
  token t -> after_token rest -> rest <> "" ->
  get_string (advance (t ++ rest)) old = (t, advance rest).
Proof.
  intros [Hne Ht] Hr Hrest. unfold get_string.
  cbn [good advance eofbit failbit negb andb buf].
  rewrite (split_token_token _ _ Ht Hr).
  destruct rest as [|c rest]; [contradiction|].
  destruct t; [contradiction|reflexivity].
Qed.

(** Extracting a token, whatever follows. *)
Lemma get_string_token_value (t rest old : string) :
  token t -> after_token rest ->
  fst (get_string (advance (t ++ rest)) old) = t.
Proof.
  intros [Hne Ht] Hr. unfold get_string.
  cbn [good advance eofbit failbit negb andb buf].
  rewrite (split_token_token _ _ Ht Hr).
  destruct t; [contradiction|]. destruct rest; reflexivity.
Qed.

Lemma get_char_separator (s rest : string) (old : ascii) :
  separator s ->
  exists c s', s = String c s' /\ isspace c = true /\ blank s' /\
    get_char (advance (s ++ rest)) old = (c, advance (s' ++ rest)).
Proof.
  intros [Hne Hall]. destruct s as [|c s']; [contradiction|].
  unfold blank in *. simpl in Hall. apply andb_true_iff in Hall.
  exists c, s'. repeat split; tauto.
Qed.

Lemma separator_nonempty (s rest : string) : separator s -> s ++ rest <> "".
Proof. intros [Hne _]. destruct s; [contradiction|discriminate]. Qed.

Lemma format_token : token "format".
Proof. split; [discriminate|reflexivity]. Qed.

(** [ReadFormat] on what follows the keyword of a format line. *)
Lemma ReadFormat_tokens st (sep1 name sep2 version tail : string) :
  separator sep1 -> token name -> separator sep2 -> token version ->
  after_token tail ->
  ReadFormat st (advance (sep1 ++ name ++ sep2 ++ version ++ tail))
  = match format_of_name name with
    | Some f => (String.eqb version "1.0", set_format f st)
    | None => (false, st)
    end.
Proof.
  intros H1 Hn H2 Hv Ht. unfold ReadFormat.
  destruct (get_char_separator sep1 (name ++ sep2 ++ version ++ tail) zero H1)
    as (c1 & s1 & -> & Hc1 & Hs1 & ->).
  rewrite (ws_blank _ _ Hs1 (token_starts _ _ Hn)).
  rewrite (get_string_token _ _ "" Hn (separator_after _ _ H2)
             (separator_nonempty _ _ H2)).
  destruct (get_char_separator sep2 (version ++ tail) zero H2)
    as (c2 & s2 & -> & Hc2 & Hs2 & ->).
  rewrite (ws_blank _ _ Hs2 (token_starts _ _ Hv)).
  pose proof (get_string_token_value version tail "" Hv Ht) as E.
  destruct (get_string (advance (version ++ tail)) "") as [v str].
  cbn [fst] in E. subst v.
  rewrite Hc1, Hc2. cbn [negb orb]. unfold format_of_name.
  destruct (String.eqb name "ascii"); [reflexivity|].
  destruct (String.eqb name "binary_big_endian"); [reflexivity|].
  destruct (String.eqb name "binary_little_endian"); reflexivity.
Qed.

(** The loop body of [ReadHeader] on a format line. *)
Lemma header_line_format st element (lead sep1 name sep2 version tail : string) :
  blank lead -> separator sep1 -> token name -> separator sep2 ->
  token version -> after_token tail ->
  header_line st element (format_line lead sep1 name sep2 version tail)
  = match format_of_name name with
    | Some f =>
        if String.eqb version "1.0" then go_on (set_format f st) element
        else failed (set_format f st)
    | None => failed st
    end.
Proof.
  intros Hl H1 Hn H2 Hv Ht. unfold header_line, format_line.
  change (stream_of ?s) with (advance s).
  rewrite (ws_blank lead _ Hl (token_starts "format" _ format_token)).
  cbn [eofbit advance].
  rewrite (get_string_token "format" _ "" format_token (separator_after _ _ H1)
             (separator_nonempty _ _ H1)).
  cbn [String.eqb Ascii.eqb Bool.eqb andb].
  rewrite (ReadFormat_tokens st _ _ _ _ _ H1 Hn H2 Hv Ht).
  destruct (format_of_name name); [|reflexivity].
  destruct (String.eqb version "1.0"); reflexivity.
Qed.

(** ** Format lines with a token missing *)

Lemma blank_append (a c : string) : blank a -> blank c -> blank (a ++ c).
Proof.
  unfold blank. induction a as [|ch a IH]; intros Ha Hc; cbn in *; [assumption|].
  apply andb_true_iff in Ha. destruct Ha as [H1 H2]. rewrite H1. auto.
Qed.

Lemma skip_space_all (s : string) : blank s -> skip_space s = "".
Proof.
  unfold blank. induction s as [|ch s IH]; intros H; cbn in *; [reflexivity|].
  apply andb_true_iff in H. destruct H as [H1 H2]. rewrite H1. auto.
Qed.

Lemma ws_all_blank (s : string) : blank s -> ws (advance s) = at_eof.
Proof.
  intros H. unfold ws. cbn [good advance eofbit failbit negb andb buf].
  rewrite (skip_space_all s H). reflexivity.
Qed.

(** After the keyword, a line is blank, or has a name token and then is
    blank, or has a name token and a version token. *)
Lemma format_rest_cases (rest : string) :
  after_token rest ->
  blank rest \/
  (exists sep1 name tail,
     rest = sep1 ++ name ++ tail /\ separator sep1 /\ token name /\ blank tail) \/
  (exists sep1 name sep2 version tail,
     rest = sep1 ++ name ++ sep2 ++ version ++ tail /\
     separator sep1 /\ token name /\ separator sep2 /\ token version /\
     after_token tail).
Proof.
  intros Hrest.
  destruct (span_class isspace rest) as (sep1 & r1 & -> & Hs1 & Hr1).
  destruct r1 as [|c1 r1].
  { left. rewrite append_empty_r. assumption. }
  right.
  assert (sep1 <> "") as Hne1.
  { intros ->. cbn in Hrest, Hr1. congruence. }
  destruct (span_class (fun c => negb (isspace c)) (String c1 r1))
    as (name & r2 & E2 & Hn & Hr2).
  assert (name <> "") as Hnn.
  { intros ->. cbn in E2. subst r2. cbn in Hr1, Hr2.
    rewrite Hr1 in Hr2. discriminate. }
  assert (after_token r2) as Ha2.
  { destruct r2; cbn in *; [exact I|]. apply negb_false_iff. assumption. }
  rewrite E2.
  destruct (span_class isspace r2) as (sep2 & r3 & -> & Hs2 & Hr3).
  destruct r3 as [|c3 r3].
  { left. exists sep1, name, sep2. rewrite append_empty_r.
    repeat split; assumption. }
  right.
  assert (sep2 <> "") as Hne2.
  { intros ->. cbn in Ha2, Hr3. congruence. }
  destruct (span_class (fun c => negb (isspace c)) (String c3 r3))
    as (version & tail & E3 & Hv & Hr4).
  assert (version <> "") as Hvn.
  { intros ->. cbn in E3. subst tail. cbn in Hr3, Hr4.
    rewrite Hr3 in Hr4. discriminate. }
  assert (after_token tail) as Ha4.
  { destruct tail; cbn in *; [exact I|]. apply negb_false_iff. assumption. }
  exists sep1, name, sep2, version, tail. rewrite E3.
  repeat split; assumption.
Qed.

Lemma get_string_token_end (t old : string) :
  token t -> get_string (advance t) old = (t, at_eof).
Proof.
  intros [Hne Ht]. unfold get_string.
  cbn [good advance eofbit failbit negb andb buf].
  pose proof (split_token_token t "" Ht I) as E.
  rewrite append_empty_r in E. rewrite E.
  destruct t; [contradiction|reflexivity].
Qed.

(** [ReadFormat] on a line that ends after the keyword. *)
Lemma ReadFormat_no_name st (rest : string) (str : istream) :
  blank rest ->
  str = advance rest \/ (rest = "" /\ str = at_eof) ->
  ReadFormat st str = (false, st).
Proof.
  intros Hb Hstr. unfold ReadFormat.
  destruct Hstr as [->|[-> ->]].
  - destruct rest as [|c r]; [reflexivity|].
    unfold blank in Hb. cbn [all_chars] in Hb. apply andb_true_iff in Hb.
    destruct Hb as [Hc Hr].
    cbn [get_char good advance eofbit failbit negb andb buf].
    rewrite (ws_all_blank r Hr), Hc. reflexivity.
  - reflexivity.
Qed.

(** [ReadFormat] on a line that ends after the format name. *)
Lemma ReadFormat_no_version st (sep1 name tail : string) :
  separator sep1 -> token name -> blank tail ->
  exists st',
    ReadFormat st (advance (sep1 ++ name ++ tail)) = (false, st').
Proof.
  intros H1 Hn Hb. unfold ReadFormat.
  destruct (get_char_separator sep1 (name ++ tail) zero H1)
    as (c1 & s1 & -> & Hc1 & Hs1 & ->).
  rewrite (ws_blank _ _ Hs1 (token_starts _ _ Hn)).
  destruct tail as [|c2 r2].
  - rewrite append_empty_r, (get_string_token_end name "" Hn).
    cbn [get_char good at_eof eofbit failbit negb andb].
    rewrite Hc1. eexists; reflexivity.
  - unfold blank in Hb. cbn [all_chars] in Hb. apply andb_true_iff in Hb.
    destruct Hb as [Hc2 Hr2].
    assert (after_token (String c2 r2)) as Ha by exact Hc2.
    rewrite (get_string_token name (String c2 r2) "" Hn Ha ltac:(discriminate)).
    cbn [get_char good advance eofbit failbit negb andb buf].
    rewrite (ws_all_blank r2 Hr2).
    cbn [get_string good at_eof eofbit failbit negb andb].
    rewrite Hc1, Hc2. cbn [negb orb String.eqb].
    destruct (String.eqb name "ascii"); [eexists; reflexivity|].
    destruct (String.eqb name "binary_big_endian"); [eexists; reflexivity|].
    destruct (String.eqb name "binary_little_endian"); eexists; reflexivity.
Qed.

(** The loop body of [ReadHeader] on a line with the keyword format and
    fewer than two tokens after it. *)
Lemma header_line_format_short st element (lead rest : string) :
  blank lead ->
  blank rest \/
  (exists sep1 name tail,
     rest = sep1 ++ name ++ tail /\ separator sep1 /\ token name /\ blank tail) ->
  exists st', header_line st element (lead ++ "format" ++ rest) = failed st'.
Proof.
  intros Hl Hshort. unfold header_line.
  change (stream_of ?s) with (advance s).
  rewrite (ws_blank lead _ Hl (token_starts "format" _ format_token)).
  cbn [eofbit advance].
  destruct Hshort as [Hb|(sep1 & name & tail & -> & H1 & Hn & Hb)].
  - destruct rest as [|c r].
    + change ("format" ++ "") with "format".
      rewrite (get_string_token_end "format" "" format_token).
      cbn [String.eqb Ascii.eqb Bool.eqb andb].
      rewrite (ReadFormat_no_name st "" at_eof Hb (or_intror (conj eq_refl eq_refl))).
      eexists; reflexivity.
    + assert (after_token (String c r)) as Ha.
      { unfold blank in Hb. cbn in *. apply andb_true_iff in Hb. tauto. }
      rewrite (get_string_token "format" _ "" format_token Ha ltac:(discriminate)).
      cbn [String.eqb Ascii.eqb Bool.eqb andb].
      rewrite (ReadFormat_no_name st _ _ Hb (or_introl eq_refl)).
      eexists; reflexivity.
  - rewrite (get_string_token "format" _ "" format_token (separator_after _ _ H1)
               (separator_nonempty _ _ H1)).
    cbn [String.eqb Ascii.eqb Bool.eqb andb].
    destruct (ReadFormat_no_version st _ _ _ H1 Hn Hb) as [st' ->].
    eexists; reflexivity.
Qed.

Section FormatLine.

Context {LC : LexicalCast} {IS : InputStreamOps}.

(** C7. On a format line with a format-name token and a version token
    (the keyword and the tokens set off by whitespace) header parsing
    succeeds and records the format exactly when the name is ascii,
    binary_big_endian or binary_little_endian and the version is 1.0, and
    fails with any other name or any other version. A format line with
    fewer tokens fails as well. Where the loop body fails on a line,
    [ReadHeader] returns false at that line and so does [Load], the body
    untouched. *)
Theorem format_line_parsing :
  (forall st element lead sep1 name sep2 version tail,
     blank lead -> separator sep1 -> token name -> separator sep2 ->
     token version -> after_token tail ->
     header_line st element (format_line lead sep1 name sep2 version tail)
     = match format_of_name name with
       | Some f =>
           if String.eqb version "1.0" then go_on (set_format f st) element
           else failed (set_format f st)
       | None => failed st
       end) /\
  (forall st element lead rest,
     blank lead ->
     blank rest \/
     (exists sep1 name tail,
        rest = sep1 ++ name ++ tail /\ separator sep1 /\ token name /\ blank tail) ->
     exists st', header_line st element (lead ++ "format" ++ rest) = failed st') /\
  (forall st element line st' st0 input input1 pre input2,
     header_line st element line = failed st' ->
     CheckHeader input = (true, input1) ->
     reads_lines input1 (pre ++ [line])%list input2 ->
     header_fold st0 "" pre = Some (st, element) ->
     ReadHeader st0 input1 = Return (false, st', input2) /\
     Load st0 input = Return (false, st', input2)).
Proof.
  split; [|split].
  - intros. apply header_line_format; assumption.
  - intros. apply header_line_format_short; assumption.
  - intros st element line st' st0 input input1 pre input2 Hline Hc Hr Hfold.
    pose proof (ReadHeader_rejects _ _ _ _ _ _ _ _ Hr Hfold Hline) as Hh.
    split; [assumption|].
    apply (Load_header_rejected _ _ _ _ _ Hc Hh).
Qed.

End FormatLine.

(** ** The ASCII decoder *)

Lemma addVertexProperty_keeps (prop : PropertyArray) (st : ReaderPLY) :
  vertex_props (addVertexProperty prop st) = vertex_props st /\
  _kernel (addVertexProperty prop st) = _kernel st /\
  meshFacets (addVertexProperty prop st) = meshFacets st /\
  meshPoints (addVertexProperty prop st) = (meshPoints st ++ [point_of prop])%list.
Proof.
  unfold addVertexProperty. cbn [_material push_point].
  destruct (_material st) as [m|]; [destruct (Binding_eqb (binding m) PER_VERTEX)|];
    repeat split; reflexivity.
Qed.

Lemma VerifyColorProperty_keeps (st st1 : ReaderPLY) (ok : bool) :
  VerifyColorProperty st = (ok, st1) ->
  vertex_props st1 = vertex_props st /\ _kernel st1 = _kernel st /\
  v_count st1 = v_count st /\ meshPoints st1 = meshPoints st.
Proof.
  unfold VerifyColorProperty.
  destruct (negb _ && negb _); [intros H; injection H as _ <-; auto|].
  destruct (_ =? 3); [destruct (_material st)|];
    intros H; injection H as _ <-; auto.
Qed.

Section Ascii.

Context {LC : LexicalCast} {IS : InputStreamOps}.

Lemma vertex_fold_keeps (ls : list string) :
  forall st st',
    vertex_fold st ls = Return (Some st') ->
    vertex_props st' = vertex_props st /\
    _kernel st' = _kernel st /\
    meshFacets st' = meshFacets st /\
    List.length (meshPoints st') = (List.length (meshPoints st) + List.length ls)%nat.
Proof.
  induction ls as [|l ls IH]; intros st st' H; cbn [vertex_fold] in H.
  - injection H as <-. simpl. repeat split; lia.
  - destruct (read_vertex_props (vertex_props st) l prop_values_init)
      as [[[line prop]|]|e]; cbn [bind] in H; try discriminate.
    destruct (IH _ _ H) as (Hv & Hk & Hf & Hp).
    destruct (addVertexProperty_keeps prop st) as (Av & Ak & Af & Ap).
    rewrite Hv, Hk, Hf, Hp, Av, Ak, Af, Ap, length_app. simpl.
    repeat split; lia.
Qed.




Lemma ReadVertexes_ascii_loop_old (k : nat) st (a c : string) input :
  ReadVertexes_ascii_loop k st a input = ReadVertexes_ascii_loop k st c input.
Proof.
  destruct k as [|k]; [reflexivity|]. cbn [ReadVertexes_ascii_loop].
  pose proof (getline_stream_old input a c) as Hs.
  destruct (fail (snd (getline input a))) eqn:Hf.
  - destruct (getline input a) as [l1 i1], (getline input c) as [l2 i2].
    cbn [snd] in *. subst i2. rewrite Hf. reflexivity.
  - rewrite (getline_old input a c Hf). reflexivity.
Qed.

Lemma ReadFaces_ascii_loop_old (k : nat) st (a c : string) input :
  ReadFaces_ascii_loop k st a input = ReadFaces_ascii_loop k st c input.
Proof.
  destruct k as [|k]; [reflexivity|]. cbn [ReadFaces_ascii_loop].
  pose proof (getline_stream_old input a c) as Hs.
  destruct (fail (snd (getline input a))) eqn:Hf.
  - destruct (getline input a) as [l1 i1], (getline input c) as [l2 i2].
    cbn [snd] in *. subst i2. rewrite Hf. reflexivity.
  - rewrite (getline_old input a c Hf). reflexivity.
Qed.

(** The vertex loop follows the lines that [vertex_fold] decodes. *)
Lemma ReadVertexes_ascii_loop_lines input ls input' :
  reads_lines input ls input' ->
  forall st st' k,
    vertex_fold st ls = Return (Some st') ->
    ReadVertexes_ascii_loop (List.length ls + k) st "" input
    = ReadVertexes_ascii_loop k st' "" input'.
Proof.
  induction 1 as [|input line input1 ls input2 Hg Hf _ IH]; intros st st' k Hfold.
  - injection Hfold as <-. reflexivity.
  - cbn [vertex_fold] in Hfold. cbn [List.length Nat.add ReadVertexes_ascii_loop].
    rewrite Hg, Hf.
    destruct (read_vertex_props (vertex_props st) line prop_values_init)
      as [[[line' prop]|]|e]; cbn [bind] in *; try discriminate.
    rewrite (ReadVertexes_ascii_loop_old _ _ line' ""). apply IH. assumption.
Qed.

(** The face loop follows the lines that [face_fold] decodes. *)
Lemma ReadFaces_ascii_loop_lines input ls input' :
  reads_lines input ls input' ->
  forall st st' k,
    face_fold st ls = Return st' ->
    ReadFaces_ascii_loop (List.length ls + k) st "" input
    = ReadFaces_ascii_loop k st' "" input'.
Proof.
  induction 1 as [|input line input1 ls input2 Hg Hf _ IH]; intros st st' k Hfold.
  - injection Hfold as <-. reflexivity.
  - cbn [face_fold] in Hfold. cbn [List.length Nat.add ReadFaces_ascii_loop].
    rewrite Hg, Hf.
    destruct (read_face_line st line) as [st1|e]; cbn [bind] in *; try discriminate.
    rewrite (ReadFaces_ascii_loop_old _ _ line ""). apply IH. assumption.
Qed.

Lemma ReadFaces_ascii_loop_exhausted (k : nat) st input :
  exhausted input ->
  exists input', ReadFaces_ascii_loop k st "" input = Return (true, st, input').
Proof.
  intros Hx. destruct k as [|k]; [eexists; reflexivity|].
  cbn [ReadFaces_ascii_loop]. unfold exhausted in Hx.
  destruct (getline input "") as [l i]. cbn [snd] in Hx. rewrite Hx.
  eexists; reflexivity.
Qed.



End Ascii.

Section LexicalFailure.

Context {LC : LexicalCast} {IS : InputStreamOps}.

Lemma read_vertex_props_app (ps1 ps2 : list (Property * Number)) :
  forall line prop_values,
    read_vertex_props (ps1 ++ ps2) line prop_values
    = (res <- read_vertex_props ps1 line prop_values ;;
       match res with
       | Some (line', prop_values') => read_vertex_props ps2 line' prop_values'
       | None => Return None
       end).
Proof.
  induction ps1 as [|it ps1 IH]; intros line prop_values; [reflexivity|].
  cbn [app read_vertex_props].
  destruct (read_vertex_prop it line prop_values) as [[[l v]|]|e]; cbn [bind];
    [apply IH|reflexivity|reflexivity].
Qed.

(** A property whose pattern does not match the line makes the turn
    return false. *)
Lemma read_vertex_prop_mismatch (it : Property * Number) line prop_values :
  regex_search line (pattern_of (snd it)) = None ->
  read_vertex_prop it line prop_values = Return None.
Proof.
  unfold read_vertex_prop. destruct (snd it); cbn [pattern_of];
    intros ->; reflexivity.
Qed.

(** C9. In the ASCII decoder, when on some vertex line the pattern of a
    schema entry (signed integer, unsigned integer or decimal, by the
    numeric kind of the entry) does not match what remains of the line
    after the entries before it, [ReadVertexes] returns false at that
    line, and [Load] returns false without calling [CleanupMesh]: nothing
    is handed over. The lines before were decoded. *)
Theorem lexical_failure_aborts_load :
  forall st0 input input1 st input2 st1 pre line input3 st2
         ps1 role kind ps2 remaining values,
    CheckHeader input = (true, input1) ->
    ReadHeader st0 input1 = Return (true, st, input2) ->
    VerifyVertexProperty st = true ->
    VerifyColorProperty st = (true, st1) ->
    format st1 = Format.ascii ->
    reads_lines input2 (pre ++ [line])%list input3 ->
    Z.of_nat (List.length pre) < v_count st1 ->
    vertex_fold st1 pre = Return (Some st2) ->
    vertex_props st1 = (ps1 ++ (role, kind) :: ps2)%list ->
    read_vertex_props ps1 line prop_values_init = Return (Some (remaining, values)) ->
    regex_search remaining (pattern_of kind) = None ->
    ReadVertexes_ascii st1 input2 = Return (false, st2, input3) /\
    Load st0 input = Return (false, st2, input3) /\
    _kernel st2 = _kernel st.
Proof.
  intros st0 input input1 st input2 st1 pre line input3 st2
         ps1 role kind ps2 remaining values
         Hc Hh Hv Hcol Hfmt Hr Hlt Hfold Hprops Hps1 Hmis.
  destruct (reads_lines_app _ _ _ _ Hr) as (mid & R1 & R2).
  inversion R2 as [|? ? input' ? ? Hg Hf Hnil]; subst.
  inversion Hnil; subst.
  destruct (vertex_fold_keeps _ _ _ Hfold) as (Kv & Kk & _ & _).
  destruct (VerifyColorProperty_keeps _ _ _ Hcol) as (_ & Ck & _ & _).
  assert (ReadVertexes_ascii st1 input2 = Return (false, st2, input3)) as Hrun.
  { unfold ReadVertexes_ascii.
    replace (Z.to_nat (v_count st1))
      with (List.length pre + S (Z.to_nat (v_count st1) - S (List.length pre)))%nat
      by lia.
    rewrite (ReadVertexes_ascii_loop_lines _ _ _ R1 _ _ _ Hfold).
    cbn [ReadVertexes_ascii_loop]. rewrite Hg, Hf.
    rewrite Kv, Hprops, read_vertex_props_app, Hps1. cbn [bind read_vertex_props].
    rewrite (read_vertex_prop_mismatch (role, kind) remaining values Hmis).
    reflexivity. }
  split; [assumption|]. split; [|congruence].
  rewrite (Load_ascii_body _ _ _ _ _ _ Hc Hh Hv Hcol Hfmt).
  unfold LoadAscii. rewrite Hrun. reflexivity.
Qed.

End LexicalFailure.

(** ** The pattern of a face line *)

Lemma isdigit_not_space (c : ascii) : isdigit c = true -> isspace c = false.
Proof.
  unfold isdigit, isspace. rewrite andb_true_iff, !Z.leb_le. intros [H1 H2].
  apply orb_false_iff. split.
  - apply andb_false_iff. right. apply Z.leb_gt. lia.
  - apply Z.eqb_neq. lia.
Qed.

Lemma isspace_not_digit (c : ascii) : isspace c = true -> isdigit c = false.
Proof.
  intros H. destruct (isdigit c) eqn:E; [|reflexivity].
  apply isdigit_not_space in E. congruence.
Qed.

Lemma prefix_of_append (a r : string) : prefix_of (strlen a) (a ++ r) = a.
Proof. unfold strlen. induction a as [|c a IH]; simpl; [destruct r; reflexivity|]. rewrite IH. reflexivity. Qed.

Lemma substr_append (a r : string) : substr (strlen a) (a ++ r) = r.
Proof. unfold strlen. induction a as [|c a IH]; simpl; [reflexivity|assumption]. Qed.

Lemma feed_step (m : mstate) (c : ascii) (a r s : string) :
  feed (step m c s) a r = feed m (String c a) r.
Proof.
  unfold feed, step, strlen. cbn [pos prev rest subs String.length last_char].
  f_equal. lia.
Qed.

Lemma feed_empty (m : mstate) : feed m "" (rest m) = m.
Proof.
  unfold feed, strlen. destruct m. cbn. f_equal. lia.
Qed.

Lemma match_star_greedy (p : ascii -> bool) (a r : string) :
  all_chars p a = true -> stops p r ->
  forall m k res,
    rest m = a ++ r ->
    k (feed m a r) = Some res ->
    match_star p m (a ++ r) k = Some res.
Proof.
  intros Ha Hr. induction a as [|c a IH]; intros m k res Hm Hk.
  - cbn [append] in *. rewrite <- Hm, feed_empty in Hk.
    destruct r as [|c r]; cbn [match_star]; [assumption|].
    cbn [stops] in Hr. rewrite Hr. assumption.
  - cbn [all_chars] in Ha. apply andb_true_iff in Ha. destruct Ha as [Hc Ha].
    cbn [append match_star]. rewrite Hc.
    rewrite (IH Ha (step m c (a ++ r)) k res); [reflexivity|reflexivity|].
    rewrite feed_step. assumption.
Qed.

Lemma takes_star (p : ascii -> bool) (m : mstate) (a r : string) :
  rest m = a ++ r -> all_chars p a = true -> stops p r ->
  takes (Star p) m (feed m a r).
Proof.
  intros Hm Ha Hr k res Hk. cbn [rmatch]. rewrite Hm.
  apply (match_star_greedy p a r Ha Hr); assumption.
Qed.

Lemma takes_plus (p : ascii -> bool) (m : mstate) (a r : string) :
  rest m = a ++ r -> a <> "" -> all_chars p a = true -> stops p r ->
  takes (Plus p) m (feed m a r).
Proof.
  intros Hm Hne Ha Hr k res Hk. cbn [rmatch]. rewrite Hm.
  destruct a as [|c a]; [contradiction|].
  cbn [all_chars] in Ha. apply andb_true_iff in Ha. destruct Ha as [Hc Ha].
  cbn [append]. rewrite Hc.
  apply (match_star_greedy p a r Ha Hr); [reflexivity|].
  rewrite feed_step. assumption.
Qed.

Lemma takes_chr (c : ascii) (m : mstate) (r : string) :
  rest m = String c r -> takes (Chr c) m (step m c r).
Proof.
  intros Hm k res Hk. cbn [rmatch]. rewrite Hm, Ascii.eqb_refl. assumption.
Qed.

Lemma takes_start (m : mstate) : prev m = None -> takes StartLine m m.
Proof.
  intros Hm k res Hk. cbn [rmatch]. unfold at_start_line. rewrite Hm. assumption.
Qed.

Lemma takes_seq (re1 re2 : regex) (m m1 m2 : mstate) :
  takes re1 m m1 -> takes re2 m1 m2 -> takes (Seq re1 re2) m m2.
Proof.
  intros H1 H2 k res Hk. cbn [rmatch]. apply H1. apply H2. assumption.
Qed.

Lemma takes_group (i : nat) (re : regex) (m m' : mstate) :
  takes re m m' -> takes (Group i re) m (close_group i m m').
Proof.
  intros H k res Hk. cbn [rmatch]. apply H. assumption.
Qed.

(** A group of digits closes on exactly those digits. *)
Lemma takes_digits_group (i : nat) (m : mstate) (d r : string) :
  rest m = d ++ r -> digits d -> stops isdigit r ->
  takes (Group i (Plus isdigit)) m
    {| pos := pos m + strlen d; prev := last_char d (prev m); rest := r;
       subs := (i, d) :: subs m |}.
Proof.
  intros Hm [Hne Hd] Hr.
  pose proof (takes_group i _ _ _ (takes_plus isdigit m d r Hm Hne Hd Hr)) as H.
  unfold close_group, feed in H. cbn [pos prev rest subs] in H.
  rewrite Hm in H.
  replace (pos m + strlen d - pos m)%nat with (strlen d) in H by lia.
  rewrite prefix_of_append in H. assumption.
Qed.

Lemma separator_stops_digit (s r : string) : separator s -> stops isdigit (s ++ r).
Proof.
  intros [Hne Hs]. destruct s as [|c s]; [contradiction|].
  unfold blank in Hs. cbn in *. apply andb_true_iff in Hs.
  apply isspace_not_digit. tauto.
Qed.

Lemma digits_stop_space (d r : string) : digits d -> stops isspace (d ++ r).
Proof.
  intros [Hne Hd]. destruct d as [|c d]; [contradiction|].
  cbn in *. apply andb_true_iff in Hd.
  apply isdigit_not_space. tauto.
Qed.

(** The pattern of a face line matches a face line from its start and
    marks the three index tokens. *)
Lemma rx_f_face_line (lead sep1 d1 sep2 d2 sep3 d3 tail : string) :
  blank lead -> separator sep1 -> digits d1 -> separator sep2 -> digits d2 ->
  separator sep3 -> digits d3 -> stops isdigit tail ->
  exists w,
    regex_search (face_line lead sep1 d1 sep2 d2 sep3 d3 tail) rx_f = Some w /\
    what w 1 = d1 /\ what w 2 = d2 /\ what w 3 = d3.
Proof.
  intros Hl H1 D1 H2 D2 H3 D3 Ht.
  destruct (span_class isspace tail) as (tw & tr & -> & Htw & Htr).
  assert (stops isdigit (tw ++ tr)) as Ht' by assumption.
  set (line := face_line lead sep1 d1 sep2 d2 sep3 d3 (tw ++ tr)).
  set (m0 := {| pos := 0; prev := None; rest := line; subs := [] |}).
  set (m1 := feed m0 lead ("3" ++ sep1 ++ d1 ++ sep2 ++ d2 ++ sep3 ++ d3 ++ tw ++ tr)).
  set (m2 := step m1 "3" (sep1 ++ d1 ++ sep2 ++ d2 ++ sep3 ++ d3 ++ tw ++ tr)).
  set (m3 := feed m2 sep1 (d1 ++ sep2 ++ d2 ++ sep3 ++ d3 ++ tw ++ tr)).
  set (m4 := {| pos := pos m3 + strlen d1; prev := last_char d1 (prev m3);
                rest := sep2 ++ d2 ++ sep3 ++ d3 ++ tw ++ tr;
                subs := (1%nat, d1) :: subs m3 |}).
  set (m5 := feed m4 sep2 (d2 ++ sep3 ++ d3 ++ tw ++ tr)).
  set (m6 := {| pos := pos m5 + strlen d2; prev := last_char d2 (prev m5);
                rest := sep3 ++ d3 ++ tw ++ tr;
                subs := (2%nat, d2) :: subs m5 |}).
  set (m7 := feed m6 sep3 (d3 ++ tw ++ tr)).
  set (m8 := {| pos := pos m7 + strlen d3; prev := last_char d3 (prev m7);
                rest := tw ++ tr;
                subs := (3%nat, d3) :: subs m7 |}).
  set (m9 := feed m8 tw tr).
  assert (takes rx_f m0 m9) as Htakes.
  { unfold rx_f. cbn [seq].
    apply (takes_seq _ _ m0 m0); [apply takes_start; reflexivity|].
    apply (takes_seq _ _ m0 m1).
    { apply takes_star; [reflexivity|assumption|reflexivity]. }
    apply (takes_seq _ _ m1 m2); [apply takes_chr; reflexivity|].
    apply (takes_seq _ _ m2 m3).
    { destruct H1 as [? ?].
      apply takes_plus; [reflexivity|assumption|assumption|].
      apply digits_stop_space; assumption. }
    apply (takes_seq _ _ m3 m4).
    { apply takes_digits_group; [reflexivity|assumption|].
      apply separator_stops_digit; assumption. }
    apply (takes_seq _ _ m4 m5).
    { destruct H2 as [? ?].
      apply takes_plus; [reflexivity|assumption|assumption|].
      apply digits_stop_space; assumption. }
    apply (takes_seq _ _ m5 m6).
    { apply takes_digits_group; [reflexivity|assumption|].
      apply separator_stops_digit; assumption. }
    apply (takes_seq _ _ m6 m7).
    { destruct H3 as [? ?].
      apply takes_plus; [reflexivity|assumption|assumption|].
      apply digits_stop_space; assumption. }
    apply (takes_seq _ _ m7 m8).
    { apply takes_digits_group; [reflexivity|assumption|assumption]. }
    apply takes_star; [reflexivity|assumption|assumption]. }
  specialize (Htakes Some m9 eq_refl).
  eexists. split.
  - unfold regex_search. fold line. fold m0.
    destruct line eqn:E; cbn [search_from]; unfold match_here; rewrite Htakes;
      reflexivity.
  - cbn [what what_subs]. repeat split.
Qed.

(** ** Index tokens *)

Lemma take_digits_all (d : string) :
  forall acc k,
    all_chars isdigit d = true ->
    take_digits acc k d = (decimal_value_from acc d, (k + strlen d)%nat, "").
Proof.
  unfold strlen. induction d as [|c d IH]; intros acc k H;
    cbn [all_chars take_digits decimal_value_from String.length] in *.
  - f_equal. f_equal. lia.
  - apply andb_true_iff in H. destruct H as [Hc Hd].
    rewrite Hc, (IH _ _ Hd). f_equal. f_equal. lia.
Qed.

Lemma decimal_value_from_nonneg (d : string) :
  forall acc, 0 <= acc -> all_chars isdigit d = true -> 0 <= decimal_value_from acc d.
Proof.
  induction d as [|c d IH]; intros acc Hacc H;
    cbn [all_chars decimal_value_from] in *; [assumption|].
  apply andb_true_iff in H. destruct H as [Hc Hd].
  apply IH; [|assumption].
  unfold isdigit in Hc. rewrite andb_true_iff, !Z.leb_le in Hc. lia.
Qed.

Lemma digit_no_sign (c : ascii) (d : string) :
  isdigit c = true ->
  match String c d with
  | String "-"%char s' => (true, s')
  | String "+"%char s' => (false, s')
  | _ => (false, String c d)
  end = (false, String c d).
Proof.
  intros Hc.
  destruct c as [[] [] [] [] [] [] [] []]; try reflexivity;
    vm_compute in Hc; discriminate.
Qed.

(** [lexical_cast<int>] of an unsigned-integer token that an [int] holds. *)
Lemma lexical_cast_int_digits (d : string) :
  digits d -> decimal_value d <= INT_MAX ->
  lexical_cast_int d = Return (decimal_value d).
Proof.
  intros [Hne Hd] Hmax. unfold lexical_cast_int.
  destruct d as [|c d]; [contradiction|].
  assert (isdigit c = true) as Hc.
  { cbn in Hd. apply andb_true_iff in Hd. tauto. }
  rewrite (digit_no_sign c d Hc), (take_digits_all _ 0 0%nat Hd).
  cbn [Nat.add strlen String.length].
  pose proof (decimal_value_from_nonneg _ 0 (Z.le_refl 0) Hd) as Hpos.
  fold (decimal_value (String c d)) in *.
  replace (INT_MIN <=? decimal_value (String c d)) with true
    by (symmetry; apply Z.leb_le; unfold INT_MIN; lia).
  replace (decimal_value (String c d) <=? INT_MAX) with true
    by (symmetry; apply Z.leb_le; assumption).
  reflexivity.
Qed.

Section AsciiFaces.

Context {LC : LexicalCast}.

Lemma face_fold_no_match (ls : list string) (st : ReaderPLY) :
  (forall l, In l ls -> regex_search l rx_f = None) ->
  face_fold st ls = Return st.
Proof.
  induction ls as [|l ls IH]; intros H; [reflexivity|].
  cbn [face_fold]. unfold read_face_line.
  rewrite (H l (or_introl eq_refl)). cbn [bind].
  apply IH. intros l' Hl'. apply H. right. assumption.
Qed.

(** C3, as amended. In the ASCII decoder a face line of the shape
    whitespace, 3, and three unsigned-integer tokens set off by whitespace,
    each token denoting a value that an [int] holds (at most 2147483647),
    appends the facet of exactly those three values, whatever [v_count]
    is: no index is compared with it. The same holds wherever in a line
    the pattern finds its match, for the three tokens it marks. A line
    that the pattern does not match appends nothing and raises nothing,
    and a body of such lines leaves the reader as it was and [ReadFaces]
    returns true. *)
Theorem ascii_face_line :
  (forall st lead sep1 d1 sep2 d2 sep3 d3 tail,
     blank lead -> separator sep1 -> digits d1 -> separator sep2 -> digits d2 ->
     separator sep3 -> digits d3 -> after_digits tail ->
     decimal_value d1 <= INT_MAX -> decimal_value d2 <= INT_MAX ->
     decimal_value d3 <= INT_MAX ->
     read_face_line st (face_line lead sep1 d1 sep2 d2 sep3 d3 tail)
     = Return (push_facet {| p1 := decimal_value d1; p2 := decimal_value d2;
                             p3 := decimal_value d3 |} st)) /\
  (forall st line w i1 i2 i3,
     regex_search line rx_f = Some w ->
     lexical_cast_int (what w 1) = Return i1 ->
     lexical_cast_int (what w 2) = Return i2 ->
     lexical_cast_int (what w 3) = Return i3 ->
     read_face_line st line
     = Return (push_facet {| p1 := i1; p2 := i2; p3 := i3 |} st)) /\
  (forall st line,
     regex_search line rx_f = None -> read_face_line st line = Return st) /\
  (forall st input ls input',
     reads_lines input ls input' ->
     (forall l, In l ls -> regex_search l rx_f = None) ->
     Z.of_nat (List.length ls) = f_count st \/
     (Z.of_nat (List.length ls) < f_count st /\ exhausted input') ->
     exists input'', ReadFaces_ascii st input = Return (true, st, input'')).
Proof.
  repeat split.
  - intros st lead sep1 d1 sep2 d2 sep3 d3 tail Hl H1 D1 H2 D2 H3 D3 Ht M1 M2 M3.
    destruct (rx_f_face_line lead sep1 d1 sep2 d2 sep3 d3 tail
                Hl H1 D1 H2 D2 H3 D3 Ht) as (w & Hw & W1 & W2 & W3).
    unfold read_face_line. rewrite Hw, W1, W2, W3.
    rewrite (lexical_cast_int_digits _ D1 M1), (lexical_cast_int_digits _ D2 M2),
      (lexical_cast_int_digits _ D3 M3).
    reflexivity.
  - intros st line w i1 i2 i3 Hw C1 C2 C3. unfold read_face_line.
    rewrite Hw, C1, C2, C3. reflexivity.
  - intros st line H. unfold read_face_line. rewrite H. reflexivity.
  - intros st input ls input' Hr Hno Hcount.
    pose proof (face_fold_no_match ls st Hno) as Hfold.
    unfold ReadFaces_ascii. destruct Hcount as [Heq|[Hlt Hx]].
    + replace (Z.to_nat (f_count st)) with (List.length ls + 0)%nat by lia.
      rewrite (ReadFaces_ascii_loop_lines _ _ _ Hr _ _ _ Hfold).
      eexists; reflexivity.
    + replace (Z.to_nat (f_count st))
        with (List.length ls + S (Z.to_nat (f_count st) - S (List.length ls)))%nat
        by lia.
      rewrite (ReadFaces_ascii_loop_lines _ _ _ Hr _ _ _ Hfold).
      apply ReadFaces_ascii_loop_exhausted. assumption.
Qed.

End AsciiFaces.

End Reader.

(** ** The reference instances *)

Lemma get_bytes_layout {A} (k : nat) (dec : Z -> A) o (bs rest : string) (v : A) :
  strlen bs = k ->
  get_bytes k dec (bin_stream o (bs ++ rest)) v
  = (dec (unsigned_value o bs), bin_stream o rest).
Proof.
  intros <-. unfold get_bytes, bin_stream, read.
  cbn [_in _byteOrder good advance eofbit failbit negb andb buf].
  rewrite strlen_append.
  replace (strlen bs <=? strlen bs + strlen rest)%nat with true
    by (symmetry; apply Nat.leb_le; lia).
  rewrite prefix_of_append, substr_append. reflexivity.
Qed.

(** The reference operators satisfy the laws of the layout statements. *)
Lemma ByteStreamLaws : InputStreamLaws ByteStreamOps.
Proof.
  split; try (intros o bs rest v H; cbn [get_int8 get_uint8 get_int16 get_uint16
    get_int32 get_uint32 get_float get_double ByteStreamOps];
    rewrite (get_bytes_layout _ _ o bs rest v H); reflexivity).
  intros o c rest v. cbn [get_uint8 ByteStreamOps].
  rewrite (get_bytes_layout 1 _ o (String c "") rest v eq_refl).
  cbn [fst]. destruct o; cbn [unsigned_value le_value be_value]; lia.
Qed.

(** ** Runs on the sample inputs *)

(** C1 on two records: the first record, rejected for its index 7, leaves
    the stream at the second one. *)
Lemma rejected_facet_keeps_cursor_run :
  @read_face_record ByteStreamOps reader_faces
    (bin_stream LittleEndian two_records) face_vars_init
  = (reader_faces, bin_stream LittleEndian second_record,
     {| n := 3; f1 := 0; f2 := 1; f3 := 7 |}).
Proof.
  refine (proj1 (@rejected_facet_keeps_cursor ByteStreamOps reader_faces
            (bin_stream LittleEndian two_records) face_vars_init
            3 (bin_stream LittleEndian (substr 1 two_records))
            0 (bin_stream LittleEndian (substr 5 two_records))
            1 (bin_stream LittleEndian (substr 9 two_records))
            7 (bin_stream LittleEndian (substr 13 two_records))
            eq_refl eq_refl eq_refl eq_refl eq_refl _)).
  vm_compute. intros (_ & _ & H). discriminate H.
Defined.

(** The second record is then decoded as the facet 0, 1, 2. *)
Example second_record_decoded :
  @ReadFaces_bin ByteStreamOps reader_faces (bin_stream LittleEndian two_records)
  = (true, push_facet {| p1 := 0; p2 := 1; p3 := 2 |} reader_faces,
     bin_stream LittleEndian "").
Proof. reflexivity. Qed.

(** C2 as stated fails: with a count byte 4 and one 8-bit face property,
    the decoder stops after the count byte, while the sentence has the
    property byte read as well. *)
Lemma face_props_unread_when_count_not_3 :
  snd (fst (@read_face_record ByteStreamOps reader_faces
              (bin_stream LittleEndian (bytes [4; 7; 9])) face_vars_init))
  = bin_stream LittleEndian (bytes [7; 9]) /\
  @claimed_face_record_cursor ByteStreamOps (face_props reader_faces)
    (bin_stream LittleEndian (bytes [4; 7; 9])) face_vars_init
  = bin_stream LittleEndian (bytes [9]) /\
  snd (fst (@read_face_record ByteStreamOps reader_faces
              (bin_stream LittleEndian (bytes [4; 7; 9])) face_vars_init))
  <> @claimed_face_record_cursor ByteStreamOps (face_props reader_faces)
       (bin_stream LittleEndian (bytes [4; 7; 9])) face_vars_init.
Proof.
  split; [reflexivity|]. split; [reflexivity|].
  vm_compute. discriminate.
Qed.

(** C2 as amended, on a record with the 8-bit property, and on a count
    byte 4. *)
Lemma face_record_layout_run :
  snd (fst (@read_face_record ByteStreamOps reader_faces
              (bin_stream LittleEndian two_records) face_vars_init))
  = bin_stream LittleEndian second_record /\
  @read_face_record ByteStreamOps reader_faces
    (bin_stream LittleEndian (bytes [4; 7; 9])) face_vars_init
  = (reader_faces, bin_stream LittleEndian (bytes [7; 9]),
     {| n := 4; f1 := 0; f2 := 0; f3 := 0 |}).
Proof.
  destruct (@face_record_layout ByteStreamOps ByteStreamLaws reader_faces
              LittleEndian face_vars_init) as [H3 Hn].
  split.
  - apply (H3 (bytes [0; 0; 0; 0]) (bytes [1; 0; 0; 0]) (bytes [7; 0; 0; 0])
              [bytes [9]] second_record); try reflexivity.
    repeat constructor.
  - apply (Hn (ascii_of_N 4) (bytes [7; 9])). vm_compute. discriminate.
Defined.

(** C3 as stated fails: the line matches the pattern with the index
    tokens 2147483648, 0 and 1, and no facet of those indices is
    appended: [lexical_cast] throws. *)
Lemma ascii_face_index_beyond_int :
  (exists w,
     regex_search "3 2147483648 0 1" rx_f = Some w /\
     what w 1 = "2147483648" /\ what w 2 = "0" /\ what w 3 = "1") /\
  read_face_line reader_two_vertices "3 2147483648 0 1" = Throw bad_lexical_cast /\
  read_face_line reader_two_vertices "3 2147483648 0 1"
  <> Return (push_facet {| p1 := 2147483648; p2 := 0; p3 := 1 |}
               reader_two_vertices).
Proof.
  split.
  - eexists. split; [vm_compute; reflexivity|]. repeat split.
  - split; [reflexivity|discriminate].
Qed.

Lemma blank_empty : blank "".
Proof. reflexivity. Qed.

Lemma separator_space : separator " ".
Proof. split; [discriminate|reflexivity]. Qed.

(** C3 as amended, on the line of the specification, with a reader that
    declares two vertices: the index 2 is out of range and the facet is
    appended all the same. *)
Lemma ascii_face_line_run :
  read_face_line reader_two_vertices "3 0 1 2"
  = Return (push_facet {| p1 := 0; p2 := 1; p3 := 2 |} reader_two_vertices).
Proof.
  apply (proj1 ascii_face_line reader_two_vertices "" " " "0" " " "1" " " "2" "");
    try exact blank_empty; try exact separator_space;
    try (split; [discriminate|reflexivity]);
    try exact I; vm_compute; discriminate.
Defined.

(** C4 on a schema with two y entries and no z entry. *)
Lemma vertex_schema_validation_run :
  exists st,
    @Load DecimalCast ByteStreamOps SampleLimits PlainMesh
      (new_ReaderPLY None) (stream_of file_two_y)
    = Return (false, st, advance ("0 0 0" ++ nl)) /\
    vertex_props st = [(coord_x, float32); (coord_y, float32); (coord_y, float32)].
Proof.
  eassert (@ReadHeader SampleLimits (new_ReaderPLY None)
             (snd (CheckHeader (stream_of file_two_y)))
           = Return (true, _, _)) as E by (vm_compute; reflexivity).
  eexists. split.
  - apply (proj2 (@vertex_schema_validation SampleLimits PlainMesh DecimalCast
                    ByteStreamOps)
             (new_ReaderPLY None) (stream_of file_two_y)
             (snd (CheckHeader (stream_of file_two_y))) _ _ eq_refl E).
    intros (_ & _ & Hz). apply exactly_one_count in Hz. vm_compute in Hz.
    discriminate.
  - reflexivity.
Defined.

(** C5 on a schema with two colour entries. *)
Lemma color_schema_validation_run :
  exists st,
    @Load DecimalCast ByteStreamOps SampleLimits PlainMesh
      (new_ReaderPLY None) (stream_of file_two_colors)
    = Return (false, st, advance ("0 0 0 255 0" ++ nl)) /\
    color_total (vertex_props st) = 2.
Proof.
  eassert (@ReadHeader SampleLimits (new_ReaderPLY None)
             (snd (CheckHeader (stream_of file_two_colors)))
           = Return (true, _, _)) as E by (vm_compute; reflexivity).
  eexists. split.
  - apply (proj2 (@color_schema_validation SampleLimits PlainMesh DecimalCast
                    ByteStreamOps)
             (new_ReaderPLY None) (stream_of file_two_colors)
             (snd (CheckHeader (stream_of file_two_colors))) _ _ eq_refl E).
    right. reflexivity.
  - reflexivity.
Defined.

Ltac shape :=
  first [ exact blank_empty | exact separator_space | exact I
        | split; [discriminate|reflexivity] ].

(** A file whose format line names the version 2.0. *)
Lemma format_line_parsing_run :
  @header_line SampleLimits (new_ReaderPLY None) "" "format binary_little_endian 1.0"
  = go_on (set_format Format.binary_little_endian (new_ReaderPLY None)) "" /\
  @Load DecimalCast ByteStreamOps SampleLimits PlainMesh (new_ReaderPLY None)
    (stream_of ("ply" ++ nl ++ unlines ["comment made by hand"; "format ascii 2.0";
                                        "element vertex 3"]))
  = Return (false, set_format Format.ascii (new_ReaderPLY None),
            advance (unlines ["element vertex 3"])).
Proof.
  destruct (@format_line_parsing SampleLimits PlainMesh DecimalCast ByteStreamOps)
    as (H1 & _ & H3).
  split.
  - refine (H1 (new_ReaderPLY None) "" "" " " "binary_little_endian" " " "1.0" ""
               _ _ _ _ _ _); shape.
  - refine (proj2 (H3 (new_ReaderPLY None) "" "format ascii 2.0"
                      (set_format Format.ascii (new_ReaderPLY None))
                      (new_ReaderPLY None)
                      (stream_of ("ply" ++ nl
                                  ++ unlines ["comment made by hand";
                                              "format ascii 2.0";
                                              "element vertex 3"]))
                      (advance (unlines ["comment made by hand"; "format ascii 2.0";
                                         "element vertex 3"]))
                      ["comment made by hand"]
                      (advance (unlines ["element vertex 3"]))
                      _ eq_refl _ eq_refl)).
    + refine (H1 (new_ReaderPLY None) "" "" " " "ascii" " " "2.0" ""
                 _ _ _ _ _ _); shape.
    + apply (reads_unlines ["comment made by hand"; "format ascii 2.0"]
               (unlines ["element vertex 3"])).
      repeat constructor.
Defined.

Lemma no_newline_lines (ls : list string) :
  forallb (all_chars (fun c => negb (Ascii.eqb c newline))) ls = true ->
  Forall no_newline ls.
Proof.
  induction ls as [|l ls IH]; intros H; [constructor|].
  simpl in H. apply andb_true_iff in H. destruct H as [Hl Hls].
  constructor; [exact Hl|auto].
Qed.

(** C8 on the header of the specification without its end_header line. *)
Lemma header_without_terminator_run :
  @ReadHeader SampleLimits (new_ReaderPLY None) (advance (unlines header_xyz))
  = Return (true,
            {| format := Format.ascii; v_count := 3; f_count := 1;
               vertex_props := [(coord_x, float32); (coord_y, float32);
                                (coord_z, float32)];
               face_props := [];
               meshPoints := []; meshFacets := [];
               _material := None; _kernel := [] |},
            snd (getline (advance "") "")).
Proof.
  apply (@header_without_terminator SampleLimits (new_ReaderPLY None)
           (advance (unlines header_xyz)) header_xyz (advance "")
           _ "face"
           (reads_unlines header_xyz "" (no_newline_lines header_xyz eq_refl))
           exhausted_empty eq_refl).
Defined.

(** C9 on a body whose second vertex line has a token that is no number:
    the first point was decoded, nothing was handed over. *)
Lemma lexical_failure_aborts_load_run :
  exists st2,
    @Load DecimalCast ByteStreamOps SampleLimits PlainMesh
      (new_ReaderPLY None) (stream_of file_bad_vertex)
    = Return (false, st2, advance (unlines ["0 1 0"; "3 0 1 2"])) /\
    List.length (meshPoints st2) = 1%nat /\ _kernel st2 = [].
Proof.
  pose (st := reader_three_vertices).
  pose (st2 := addVertexProperty prop_values_init st).
  exists st2.
  destruct (@lexical_failure_aborts_load SampleLimits PlainMesh DecimalCast
              ByteStreamOps
              (new_ReaderPLY None) (stream_of file_bad_vertex)
              (snd (CheckHeader (stream_of file_bad_vertex)))
              st (advance (unlines ["0 0 0"; "1 abc"; "0 1 0"; "3 0 1 2"]))
              st ["0 0 0"] "1 abc"
              (advance (unlines ["0 1 0"; "3 0 1 2"])) st2
              [(coord_x, float32)] coord_y float32 [(coord_z, float32)]
              "abc" (prop_set prop_values_init coord_x (float_of_int 1)))
    as (_ & HL & HK).
  - reflexivity.
  - vm_compute. reflexivity.
  - vm_compute. reflexivity.
  - vm_compute. reflexivity.
  - vm_compute. reflexivity.
  - apply (reads_unlines ["0 0 0"; "1 abc"] (unlines ["0 1 0"; "3 0 1 2"])
             (no_newline_lines ["0 0 0"; "1 abc"] eq_refl)).
  - vm_compute. reflexivity.
  - vm_compute. reflexivity.
  - vm_compute. reflexivity.
  - vm_compute. reflexivity.
  - vm_compute. reflexivity.
  - split; [exact HL|]. split; [reflexivity|reflexivity].
Defined.


(** The scenario of the specification: three points, one facet, and the
    mesh handed over once. *)
Example triangle_file_loads :
  exists st input',
    @Load DecimalCast ByteStreamOps SampleLimits PlainMesh
      (new_ReaderPLY None) (stream_of file_triangle)
    = Return (true, st, input') /\
    _kernel st
    = [([{| x := fzero; y := fzero; z := fzero |};
         {| x := float_of_int 1; y := fzero; z := fzero |};
         {| x := fzero; y := float_of_int 1; z := fzero |}],
        [{| p1 := 0; p2 := 1; p3 := 2 |}])].
Proof. eexists. eexists. split; [vm_compute; reflexivity|]. reflexivity. Qed.

(** Two coloured vertices through the ASCII decoder: 255 becomes 1 and
    128 becomes the binary32 number nearest to 128/255. *)
Example colored_vertices_decoded :
  exists st input',
    @ReadVertexes_ascii DecimalCast (snd (VerifyColorProperty reader_colored))
      (stream_of (unlines ["0 0 0 255 0 0"; "1 0 0 0 128 255"]))
    = Return (true, st, input') /\
    _material st
    = per_vertex [{| r := float_of_int 1; g := fzero; b := fzero |};
                  {| r := fzero; g := S754_finite false 8421505 (-24);
                     b := float_of_int 1 |}].
Proof. eexists. eexists. split; [vm_compute; reflexivity|]. reflexivity. Qed.

(** * Further properties *)

Section Further.

Context {VL : VectorLimits} {MC : MeshCollaborators}.

(** ** The magic *)

Lemma prefix_substr (k : nat) (s : string) : s = prefix_of k s ++ substr k s.
Proof.
  revert s. induction k as [|k IH]; intros s; [reflexivity|].
  destruct s as [|c s]; [reflexivity|]. cbn. rewrite <- IH. reflexivity.
Qed.

Section Magic.

Context {LC : LexicalCast} {IS : InputStreamOps}.

(** X1. [CheckHeader] on a freshly opened stream succeeds exactly when the
    text starts with the three characters p, l, y; the character after
    them is dropped whatever it is, and a text of just those three
    characters passes. A stream that has already failed is rejected
    untouched, and when [CheckHeader] rejects, [Load] returns false with
    the reader as it was. *)
Theorem CheckHeader_magic :
  (forall s, fst (CheckHeader (stream_of s)) = true <-> exists rest, s = "ply" ++ rest) /\
  (forall c rest, CheckHeader (stream_of ("ply" ++ String c rest)) = (true, advance rest)) /\
  CheckHeader (stream_of "ply") = (true, at_eof) /\
  (forall input, fail input = true -> CheckHeader input = (false, input)) /\
  (forall st0 input,
     fst (CheckHeader input) = false ->
     Load st0 input = Return (false, st0, snd (CheckHeader input))).
Proof.
  repeat split.
  - destruct s as [|a [|b [|c [|d r]]]]; try (cbn; discriminate).
    + intros H. exists "".
      change (String.eqb (String a (String b (String c ""))) "ply" = true) in H.
      apply String.eqb_eq in H. assumption.
    + intros H. exists (String d r).
      change (String.eqb (String a (String b (String c ""))) "ply" = true) in H.
      apply String.eqb_eq in H. injection H as -> -> ->. reflexivity.
  - intros [rest ->]. destruct rest; reflexivity.
  - intros input H. unfold CheckHeader. rewrite H. reflexivity.
  - intros st0 input H. unfold Load.
    destruct (CheckHeader input) as [ok input']. cbn [fst snd] in *. subst ok.
    reflexivity.
Qed.

End Magic.

(** ** Keywords *)

Lemma keyword_dispatch (st : ReaderPLY) (element lead kw tail : string) :
  blank lead -> token kw -> after_token tail ->
  exists str,
    (tail <> "" -> str = advance tail) /\
    (tail = "" -> str = at_eof) /\
    header_line st element (lead ++ kw ++ tail)
    = if String.eqb kw "format" then
        let '(ok, st') := ReadFormat st str in
        if ok then go_on st' element else failed st'
      else if String.eqb kw "element" then
        match ReadElement st str element with
        | Return (ok, st', element') =>
            if ok then go_on st' element' else failed st'
        | Throw e => raised e
        end
      else if String.eqb kw "property" then
        let '(ok, st') := ReadProperty st str element in
        if ok then go_on st' element else failed st'
      else if String.eqb kw "end_header" then stop
      else go_on st element.
Proof.
  intros Hl Hk Ht. unfold header_line.
  change (stream_of ?s) with (advance s).
  rewrite (ws_blank lead _ Hl (token_starts kw tail Hk)).
  cbn [eofbit advance].
  destruct tail as [|c r].
  - exists at_eof. rewrite append_empty_r, (get_string_token_end kw "" Hk).
    split; [intros H; exfalso; apply H; reflexivity|].
    split; reflexivity.
  - exists (advance (String c r)).
    rewrite (get_string_token kw _ "" Hk Ht ltac:(discriminate)).
    split; [reflexivity|]. split; [discriminate|reflexivity].
Qed.

(** X2. The loop body of [ReadHeader] skips a blank line and any line
    whose first token is not one of format, element, property and
    end_header (a comment line, say): reader and element context stay as
    they were. *)
Theorem header_skips_other_lines :
  (forall st element line, blank line -> header_line st element line = go_on st element) /\
  (forall st element lead kw tail,
     blank lead -> token kw -> after_token tail ->
     header_keyword kw = false ->
     header_line st element (lead ++ kw ++ tail) = go_on st element).
Proof.
  split.
  - intros st element line Hb. unfold header_line.
    change (stream_of ?s) with (advance s).
    rewrite (ws_all_blank line Hb). reflexivity.
  - intros st element lead kw tail Hl Hk Ht Hkw.
    destruct (keyword_dispatch st element lead kw tail Hl Hk Ht) as (str & _ & _ & ->).
    unfold header_keyword in Hkw.
    apply orb_false_iff in Hkw. destruct Hkw as [Hkw H4].
    apply orb_false_iff in Hkw. destruct Hkw as [Hkw H3].
    apply orb_false_iff in Hkw. destruct Hkw as [H1 H2].
    rewrite H1, H2, H3, H4. reflexivity.
Qed.

Lemma end_header_token : token "end_header".
Proof. split; [discriminate|reflexivity]. Qed.

(** The loop body of [ReadHeader] on a line whose first token is
    end_header. *)
Lemma header_line_end_header st element (lead tail : string) :
  blank lead -> after_token tail ->
  header_line st element (lead ++ "end_header" ++ tail) = stop.
Proof.
  intros Hl Ht.
  destruct (keyword_dispatch st element lead "end_header" tail Hl end_header_token Ht)
    as (str & _ & _ & ->).
  reflexivity.
Qed.

(** X3. [ReadHeader] stops at the first line whose first token is
    end_header: it returns true with the reader as the lines before left
    it, and the stream stands right behind that line, so the body is
    read from there. *)
Theorem header_stops_at_end_header :
  forall st0 input pre lead tail input' st element,
    blank lead -> after_token tail ->
    reads_lines input (pre ++ [(lead ++ "end_header" ++ tail)%string])%list input' ->
    header_fold st0 "" pre = Some (st, element) ->
    ReadHeader st0 input = Return (true, st, input').
Proof.
  intros st0 input pre lead tail input' st element Hl Ht Hr Hfold.
  destruct (reads_lines_app _ _ _ _ Hr) as (mid & H1 & H2).
  destruct (ReadHeader_lines _ _ _ H1 _ _ _ Hfold) as [k ->].
  inversion H2 as [|? ? input1 ? ? Hg Hf Hnil]; subst.
  inversion Hnil; subst.
  cbn [ReadHeader_loop]. rewrite Hg, Hf, (header_line_end_header _ _ _ _ Hl Ht).
  reflexivity.
Qed.

(** ** Element lines *)



Lemma isdigit_no_sign (c : ascii) : isdigit c = true -> sign_class c = false.
Proof.
  unfold isdigit, sign_class. rewrite andb_true_iff, !Z.leb_le. intros [H1 H2].
  apply orb_false_iff. split; apply Z.eqb_neq; lia.
Qed.

(** [str >> count] on text that starts with no sign. *)
Lemma get_size_t_unsigned (c : ascii) (r : string) (old : Z) :
  sign_class c = false ->
  get_size_t (advance (String c r)) old
  = let '(v, n, rest) := take_digits 0 0 (String c r) in
    let after :=
      match rest with
      | EmptyString => at_eof
      | _ => advance rest
      end in
    match n with
    | O => (0, set_fail after)
    | _ =>
        if v <=? SIZE_MAX then (v, after) else (SIZE_MAX, set_fail after)
    end.
Proof.
  intros Hc. unfold get_size_t.
  cbn [good advance eofbit failbit negb andb buf].
  destruct c as [[] [] [] [] [] [] [] []]; try reflexivity;
    vm_compute in Hc; discriminate.
Qed.


(** [str >> count] where no number stands: 0 is stored. *)
Lemma get_size_t_no_number (junk : string) :
  no_number junk ->
  fst (get_size_t (match junk with "" => at_eof | _ => advance junk end) 0) = 0.
Proof.
  intros H. destruct junk as [|c r]; [reflexivity|].
  destruct H as (_ & Hd & Hs).
  rewrite (get_size_t_unsigned c r 0 Hs). cbn [take_digits]. rewrite Hd. reflexivity.
Qed.

Lemma ws_separator_tail (s junk : string) :
  blank s -> (match junk with "" => True | String c _ => isspace c = false end) ->
  ws (advance (s ++ junk)) = match junk with "" => at_eof | _ => advance junk end.
Proof.
  intros Hs Hj. destruct junk as [|c r].
  - rewrite append_empty_r. apply ws_all_blank. assumption.
  - apply ws_blank; assumption.
Qed.

Lemma element_token : token "element".
Proof. split; [discriminate|reflexivity]. Qed.

(** [ReadElement] on a name token and what stands behind it; [count] is
    what the extraction of the count stores. *)
Lemma ReadElement_tokens st element (sep1 name sep2 tail : string) (count : Z) :
  separator sep1 -> token name -> separator sep2 ->
  (match tail with "" => True | String c _ => isspace c = false end) ->
  fst (get_size_t (match tail with "" => at_eof | _ => advance tail end) 0) = count ->
  ReadElement st (advance (sep1 ++ name ++ sep2 ++ tail)) element
  = if String.eqb name "vertex"
    then reserved <- reserve points_max_size count ;;
         Return (true, set_v_count count st, "vertex")
    else if String.eqb name "face"
    then reserved <- reserve facets_max_size count ;;
         Return (true, set_f_count count st, "face")
    else Return (true, st, "").
Proof.
  intros H1 Hn H2 Ht Hcount. unfold ReadElement.
  destruct (get_char_separator sep1 (name ++ sep2 ++ tail) zero H1)
    as (c1 & s1 & -> & Hc1 & Hs1 & ->).
  rewrite (ws_blank _ _ Hs1 (token_starts _ _ Hn)).
  rewrite (get_string_token _ _ "" Hn (separator_after _ _ H2)
             (separator_nonempty _ _ H2)).
  destruct (get_char_separator sep2 tail zero H2)
    as (c2 & s2 & -> & Hc2 & Hs2 & ->).
  rewrite (ws_separator_tail s2 tail Hs2 Ht).
  destruct (get_size_t _ 0) as [v str]. cbn [fst] in Hcount. subst v.
  rewrite Hc1, Hc2. cbn [negb orb].
  destruct (String.eqb_spec name "vertex") as [->|_]; [reflexivity|].
  destruct (String.eqb_spec name "face") as [->|_]; reflexivity.
Qed.

Lemma reserve_within (max_size count : Z) :
  reserve max_size count
  = if count <=? max_size then Return tt else Throw length_error.
Proof.
  unfold reserve. rewrite Z.ltb_antisym. destruct (count <=? max_size); reflexivity.
Qed.


Section ElementCount.

Context {LC : LexicalCast} {IS : InputStreamOps}.


End ElementCount.

(** X5. [ReadElement] does not test whether the count was read. An
    element line with whitespace behind the name and then no number (the
    end of the line, or text that starts with no digit and no sign) is
    accepted with the count 0. An element line that ends with the name,
    or has no name, is rejected. *)
Theorem element_line_without_count :
  (forall st element lead sep1 name sep2 junk,
     blank lead -> separator sep1 -> token name -> separator sep2 ->
     no_number junk ->
     header_line st element (lead ++ "element" ++ sep1 ++ name ++ sep2 ++ junk)
     = if String.eqb name "vertex" then go_on (set_v_count 0 st) "vertex"
       else if String.eqb name "face" then go_on (set_f_count 0 st) "face"
       else go_on st "") /\
  (forall st element lead sep1 name,
     blank lead -> separator sep1 -> token name ->
     header_line st element (lead ++ "element" ++ sep1 ++ name) = failed st) /\
  (forall st element lead rest,
     blank lead -> blank rest ->
     header_line st element (lead ++ "element" ++ rest) = failed st).
Proof.
  repeat split.
  - intros st element lead sep1 name sep2 junk Hl H1 Hn H2 Hj.
    destruct (keyword_dispatch st element lead "element"
                (sep1 ++ name ++ sep2 ++ junk) Hl element_token
                (separator_after _ _ H1)) as (str & Hstr & _ & ->).
    rewrite (Hstr (separator_nonempty _ _ H1)).
    cbn [String.eqb Ascii.eqb Bool.eqb andb].
    rewrite (ReadElement_tokens st element sep1 name sep2 junk 0 H1 Hn H2).
    + rewrite !reserve_within.
      pose proof points_max_size_range as Hp. pose proof facets_max_size_range as Hf.
      destruct (Z.leb_spec 0 points_max_size); [|lia].
      destruct (Z.leb_spec 0 facets_max_size); [|lia].
      destruct (String.eqb name "vertex"); [reflexivity|].
      destruct (String.eqb name "face"); reflexivity.
    + destruct junk; [exact I|]. apply Hj.
    + apply get_size_t_no_number. assumption.
  - intros st element lead sep1 name Hl H1 Hn.
    pose proof (separator_after sep1 name H1) as Ha.
    destruct (keyword_dispatch st element lead "element" (sep1 ++ name) Hl
                element_token Ha) as (str & Hstr & _ & ->).
    rewrite (Hstr (separator_nonempty _ _ H1)).
    cbn [String.eqb Ascii.eqb Bool.eqb andb]. unfold ReadElement.
    destruct (get_char_separator sep1 name zero H1)
      as (c1 & s1 & -> & Hc1 & Hs1 & ->).
    pose proof (ws_blank s1 (name ++ "") Hs1 (token_starts _ _ Hn)) as Hw.
    rewrite append_empty_r in Hw. rewrite Hw.
    rewrite (get_string_token_end name "" Hn).
    cbn [get_char good at_eof eofbit failbit negb andb].
    rewrite Hc1. reflexivity.
  - intros st element lead rest Hl Hb.
    assert (after_token rest) as Ha.
    { destruct rest; [exact I|]. unfold blank in Hb. cbn in *.
      apply andb_true_iff in Hb. tauto. }
    destruct (keyword_dispatch st element lead "element" rest Hl element_token Ha)
      as (str & Hstr & Heof & ->).
    cbn [String.eqb Ascii.eqb Bool.eqb andb]. unfold ReadElement.
    destruct rest as [|c r].
    + rewrite (Heof eq_refl). reflexivity.
    + rewrite (Hstr ltac:(discriminate)).
      unfold blank in Hb. cbn [all_chars] in Hb. apply andb_true_iff in Hb.
      destruct Hb as [Hc Hr].
      cbn [get_char good advance eofbit failbit negb andb buf].
      rewrite (ws_all_blank r Hr), Hc. reflexivity.
Qed.

(** ** Property lines *)

Lemma property_token : token "property".
Proof. split; [discriminate|reflexivity]. Qed.

Lemma blank_after (s : string) : blank s -> after_token s.
Proof.
  intros H. destruct s; [exact I|]. unfold blank in H. cbn in *.
  apply andb_true_iff in H. tauto.
Qed.

(** The extractions of a name at the end of a property line, when the
    line ends before a name: the name stays empty. *)
Lemma get_name_missing (trail : string) (space : ascii) :
  blank trail ->
  fst (get_string
         (ws (snd (get_char (match trail with "" => at_eof | _ => advance trail end)
                     space))) "") = "".
Proof.
  intros Hb. destruct trail as [|c r]; [reflexivity|].
  unfold blank in Hb. cbn [all_chars] in Hb. apply andb_true_iff in Hb.
  destruct Hb as [_ Hr].
  cbn [get_char good advance eofbit failbit negb andb buf snd].
  rewrite (ws_all_blank r Hr). reflexivity.
Qed.

(** The extraction of a token: the token, and the stream at what follows. *)
Lemma get_string_token_stream (t rest old : string) :
  token t -> after_token rest ->
  get_string (advance (t ++ rest)) old
  = (t, match rest with "" => at_eof | _ => advance rest end).
Proof.
  intros Ht Hr. destruct rest as [|c r].
  - rewrite append_empty_r. apply get_string_token_end. assumption.
  - apply get_string_token; [assumption|assumption|discriminate].
Qed.

(** [ReadVertexProperty] on a type token and a name token. *)
Lemma ReadVertexProperty_tokens st (sep1 type sep2 name tail : string) :
  separator sep1 -> token type -> separator sep2 -> token name -> after_token tail ->
  ReadVertexProperty st (advance (sep1 ++ type ++ sep2 ++ name ++ tail))
  = match number_of_type type with
    | Some k => (true, push_vertex_prop (propertyOfName name, k) st)
    | None => (false, st)
    end.
Proof.
  intros H1 Ht H2 Hn Ha. unfold ReadVertexProperty.
  destruct (get_char_separator sep1 (type ++ sep2 ++ name ++ tail) zero H1)
    as (c1 & s1 & -> & Hc1 & Hs1 & ->).
  rewrite (ws_blank _ _ Hs1 (token_starts _ _ Ht)).
  rewrite (get_string_token _ _ "" Ht (separator_after _ _ H2)
             (separator_nonempty _ _ H2)).
  destruct (get_char_separator sep2 (name ++ tail) c1 H2)
    as (c2 & s2 & -> & Hc2 & Hs2 & ->).
  rewrite (ws_blank _ _ Hs2 (token_starts _ _ Hn)).
  rewrite (get_string_token_stream name tail "" Hn Ha).
  reflexivity.
Qed.

(** [ReadVertexProperty] on a type token with no name behind it. *)
Lemma ReadVertexProperty_nameless st (sep1 type trail : string) :
  separator sep1 -> token type -> blank trail ->
  ReadVertexProperty st (advance (sep1 ++ type ++ trail))
  = match number_of_type type with
    | Some k => (true, push_vertex_prop (generic, k) st)
    | None => (false, st)
    end.
Proof.
  intros H1 Ht Hb. unfold ReadVertexProperty.
  destruct (get_char_separator sep1 (type ++ trail) zero H1)
    as (c1 & s1 & -> & Hc1 & Hs1 & ->).
  rewrite (ws_blank _ _ Hs1 (token_starts _ _ Ht)).
  rewrite (get_string_token_stream type trail "" Ht (blank_after _ Hb)).
  pose proof (get_name_missing trail c1 Hb) as E.
  destruct (get_char _ c1) as [c2 str2]. cbn [snd] in E.
  destruct (get_string (ws str2) "") as [name str3]. cbn [fst] in E. subst name.
  reflexivity.
Qed.

(** X6. In the vertex context a property line with a type token and a
    name token appends one entry at the end of the vertex schema, the
    role resolved from the name by [propertyOfName] and the kind from the
    type; an unknown type rejects the line. A property line that ends
    after the type is accepted too, as an entry with the generic role. *)
Theorem vertex_property_line :
  (forall st lead sep1 type sep2 name tail,
     blank lead -> separator sep1 -> token type -> separator sep2 ->
     token name -> after_token tail ->
     header_line st "vertex" (lead ++ "property" ++ sep1 ++ type ++ sep2 ++ name ++ tail)
     = match number_of_type type with
       | Some k => go_on (push_vertex_prop (propertyOfName name, k) st) "vertex"
       | None => failed st
       end) /\
  (forall st lead sep1 type trail,
     blank lead -> separator sep1 -> token type -> blank trail ->
     header_line st "vertex" (lead ++ "property" ++ sep1 ++ type ++ trail)
     = match number_of_type type with
       | Some k => go_on (push_vertex_prop (generic, k) st) "vertex"
       | None => failed st
       end).
Proof.
  split.
  - intros st lead sep1 type sep2 name tail Hl H1 Ht H2 Hn Ha.
    destruct (keyword_dispatch st "vertex" lead "property"
                (sep1 ++ type ++ sep2 ++ name ++ tail) Hl property_token
                (separator_after _ _ H1)) as (str & Hstr & _ & ->).
    rewrite (Hstr (separator_nonempty _ _ H1)).
    cbn [String.eqb Ascii.eqb Bool.eqb andb]. unfold ReadProperty.
    cbn [String.eqb Ascii.eqb Bool.eqb andb].
    rewrite (ReadVertexProperty_tokens st _ _ _ _ _ H1 Ht H2 Hn Ha).
    destruct (number_of_type type); reflexivity.
  - intros st lead sep1 type trail Hl H1 Ht Hb.
    destruct (keyword_dispatch st "vertex" lead "property"
                (sep1 ++ type ++ trail) Hl property_token
                (separator_after _ _ H1)) as (str & Hstr & _ & ->).
    rewrite (Hstr (separator_nonempty _ _ H1)).
    cbn [String.eqb Ascii.eqb Bool.eqb andb]. unfold ReadProperty.
    cbn [String.eqb Ascii.eqb Bool.eqb andb].
    rewrite (ReadVertexProperty_nameless st _ _ _ H1 Ht Hb).
    destruct (number_of_type type); reflexivity.
Qed.

Lemma list_token : token "list".
Proof. split; [discriminate|reflexivity]. Qed.

Lemma separator_blank (s : string) : separator s -> blank s.
Proof. intros [_ H]. exact H. Qed.

(** [ReadFaceProperty] on the list form. *)
Lemma ReadFaceProperty_list st (sep1 sep2 cnt sep3 type sep4 name tail : string) :
  separator sep1 -> separator sep2 -> token cnt -> separator sep3 -> token type ->
  separator sep4 -> token name -> after_token tail ->
  ReadFaceProperty st
    (advance (sep1 ++ "list" ++ sep2 ++ cnt ++ sep3 ++ type ++ sep4 ++ name ++ tail))
  = if index_list_name name then (true, st)
    else match number_of_type type with
         | Some k => (true, push_face_prop k st)
         | None => (false, st)
         end.
Proof.
  intros H1 H2 Hc H3 Ht H4 Hn Ha. unfold ReadFaceProperty.
  destruct (get_char_separator sep1
              ("list" ++ sep2 ++ cnt ++ sep3 ++ type ++ sep4 ++ name ++ tail) zero H1)
    as (c1 & s1 & -> & Hc1 & Hs1 & ->).
  rewrite (ws_blank _ _ Hs1 (token_starts "list" _ list_token)).
  rewrite (get_string_token "list" _ "" list_token (separator_after _ _ H2)
             (separator_nonempty _ _ H2)).
  rewrite (ws_blank _ _ (separator_blank _ H2) (token_starts _ _ Hc)).
  cbn [String.eqb Ascii.eqb Bool.eqb andb].
  rewrite (get_string_token _ _ "" Hc (separator_after _ _ H3)
             (separator_nonempty _ _ H3)).
  rewrite (ws_blank _ _ (separator_blank _ H3) (token_starts _ _ Ht)).
  rewrite (get_string_token _ _ "" Ht (separator_after _ _ H4)
             (separator_nonempty _ _ H4)).
  rewrite (ws_blank _ _ (separator_blank _ H4) (token_starts _ _ Hn)).
  rewrite (get_string_token_stream name tail "" Hn Ha).
  unfold index_list_name.
  destruct (String.eqb name "vertex_indices"); [reflexivity|].
  destruct (String.eqb name "vertex_index"); reflexivity.
Qed.

(** [ReadFaceProperty] on the form without list. *)
Lemma ReadFaceProperty_plain st (sep1 type sep2 name tail : string) :
  separator sep1 -> token type -> type <> "list" -> separator sep2 ->
  token name -> after_token tail ->
  ReadFaceProperty st (advance (sep1 ++ type ++ sep2 ++ name ++ tail))
  = if index_list_name name then (true, st)
    else match number_of_type type with
         | Some k => (true, push_face_prop k st)
         | None => (false, st)
         end.
Proof.
  intros H1 Ht Hnl H2 Hn Ha. unfold ReadFaceProperty.
  destruct (get_char_separator sep1 (type ++ sep2 ++ name ++ tail) zero H1)
    as (c1 & s1 & -> & Hc1 & Hs1 & ->).
  rewrite (ws_blank _ _ Hs1 (token_starts _ _ Ht)).
  rewrite (get_string_token _ _ "" Ht (separator_after _ _ H2)
             (separator_nonempty _ _ H2)).
  rewrite (ws_blank _ _ (separator_blank _ H2) (token_starts _ _ Hn)).
  apply String.eqb_neq in Hnl. rewrite Hnl.
  rewrite (get_string_token_stream name tail "" Hn Ha).
  unfold index_list_name.
  destruct (String.eqb name "vertex_indices"); [reflexivity|].
  destruct (String.eqb name "vertex_index"); reflexivity.
Qed.

(** X7. In the face context a property line, with or without the word
    list and a count type before the value type, is left out of the face
    schema when its name is vertex_indices or vertex_index, and then
    neither the count type nor the value type is looked at; under any
    other name the kind of the value type is appended at the end of the
    face schema, and an unknown value type rejects the line. *)
Theorem face_property_line :
  (forall st lead sep1 sep2 cnt sep3 type sep4 name tail,
     blank lead -> separator sep1 -> separator sep2 -> token cnt ->
     separator sep3 -> token type -> separator sep4 -> token name ->
     after_token tail ->
     header_line st "face"
       (lead ++ "property" ++ sep1 ++ "list" ++ sep2 ++ cnt ++ sep3 ++ type
        ++ sep4 ++ name ++ tail)
     = if index_list_name name then go_on st "face"
       else match number_of_type type with
            | Some k => go_on (push_face_prop k st) "face"
            | None => failed st
            end) /\
  (forall st lead sep1 type sep2 name tail,
     blank lead -> separator sep1 -> token type -> type <> "list" ->
     separator sep2 -> token name -> after_token tail ->
     header_line st "face" (lead ++ "property" ++ sep1 ++ type ++ sep2 ++ name ++ tail)
     = if index_list_name name then go_on st "face"
       else match number_of_type type with
            | Some k => go_on (push_face_prop k st) "face"
            | None => failed st
            end).
Proof.
  split.
  - intros st lead sep1 sep2 cnt sep3 type sep4 name tail
           Hl H1 H2 Hc H3 Ht H4 Hn Ha.
    destruct (keyword_dispatch st "face" lead "property"
                (sep1 ++ "list" ++ sep2 ++ cnt ++ sep3 ++ type ++ sep4 ++ name ++ tail)
                Hl property_token (separator_after _ _ H1)) as (str & Hstr & _ & ->).
    rewrite (Hstr (separator_nonempty _ _ H1)).
    cbn [String.eqb Ascii.eqb Bool.eqb andb]. unfold ReadProperty.
    cbn [String.eqb Ascii.eqb Bool.eqb andb].
    rewrite (ReadFaceProperty_list st _ _ _ _ _ _ _ _ H1 H2 Hc H3 Ht H4 Hn Ha).
    destruct (index_list_name name); [reflexivity|].
    destruct (number_of_type type); reflexivity.
  - intros st lead sep1 type sep2 name tail Hl H1 Ht Hnl H2 Hn Ha.
    destruct (keyword_dispatch st "face" lead "property"
                (sep1 ++ type ++ sep2 ++ name ++ tail)
                Hl property_token (separator_after _ _ H1)) as (str & Hstr & _ & ->).
    rewrite (Hstr (separator_nonempty _ _ H1)).
    cbn [String.eqb Ascii.eqb Bool.eqb andb]. unfold ReadProperty.
    cbn [String.eqb Ascii.eqb Bool.eqb andb].
    rewrite (ReadFaceProperty_plain st _ _ _ _ _ H1 Ht Hnl H2 Hn Ha).
    destruct (index_list_name name); [reflexivity|].
    destruct (number_of_type type); reflexivity.
Qed.

(** X8. Outside the vertex and face contexts (before any element line,
    or after an element line with another name) a property line is
    accepted whatever it holds, and changes nothing. *)
Theorem property_line_without_context :
  forall st element lead tail,
    element <> "vertex" -> element <> "face" ->
    blank lead -> after_token tail ->
    header_line st element (lead ++ "property" ++ tail) = go_on st element.
Proof.
  intros st element lead tail Hv Hf Hl Ha.
  destruct (keyword_dispatch st element lead "property" tail Hl property_token Ha)
    as (str & _ & _ & ->).
  cbn [String.eqb Ascii.eqb Bool.eqb andb]. unfold ReadProperty.
  apply String.eqb_neq in Hv, Hf. rewrite Hv, Hf. reflexivity.
Qed.

(** ** What header parsing keeps *)

Lemma header_frame_refl st : header_frame st st.
Proof.
  unfold header_frame. repeat split; try reflexivity;
    exists []; rewrite app_nil_r; reflexivity.
Qed.

Lemma header_frame_trans st1 st2 st3 :
  header_frame st1 st2 -> header_frame st2 st3 -> header_frame st1 st3.
Proof.
  intros (P1 & F1 & M1 & K1 & [l1 V1] & [k1 A1]) (P2 & F2 & M2 & K2 & [l2 V2] & [k2 A2]).
  unfold header_frame. repeat split; try congruence.
  - exists (l1 ++ l2)%list. rewrite V2, V1, app_assoc. reflexivity.
  - exists (k1 ++ k2)%list. rewrite A2, A1, app_assoc. reflexivity.
Qed.

Lemma header_frame_set_format f st : header_frame st (set_format f st).
Proof.
  unfold header_frame. cbn. repeat split; try reflexivity;
    exists []; rewrite app_nil_r; reflexivity.
Qed.

Lemma header_frame_set_v_count c st : header_frame st (set_v_count c st).
Proof.
  unfold header_frame. cbn. repeat split; try reflexivity;
    exists []; rewrite app_nil_r; reflexivity.
Qed.

Lemma header_frame_set_f_count c st : header_frame st (set_f_count c st).
Proof.
  unfold header_frame. cbn. repeat split; try reflexivity;
    exists []; rewrite app_nil_r; reflexivity.
Qed.

Lemma header_frame_push_vertex_prop p st : header_frame st (push_vertex_prop p st).
Proof.
  unfold header_frame. cbn. repeat split; try reflexivity.
  - exists [p]. reflexivity.
  - exists []. rewrite app_nil_r. reflexivity.
Qed.

Lemma header_frame_push_face_prop k st : header_frame st (push_face_prop k st).
Proof.
  unfold header_frame. cbn. repeat split; try reflexivity.
  - exists []. rewrite app_nil_r. reflexivity.
  - exists [k]. reflexivity.
Qed.

Ltac frame_cases :=
  repeat match goal with
         | |- context [match ?x with (_, _) => _ end] => destruct x
         | |- context [if ?c then _ else _] => destruct c
         | |- context [match ?x with Some _ => _ | None => _ end] => destruct x
         end;
  cbn [snd fst];
  first [ apply header_frame_refl | apply header_frame_set_format
        | apply header_frame_set_v_count | apply header_frame_set_f_count
        | apply header_frame_push_vertex_prop | apply header_frame_push_face_prop ].

Lemma ReadFormat_frame st str : header_frame st (snd (ReadFormat st str)).
Proof. unfold ReadFormat. frame_cases. Qed.

Lemma ReadElement_frame st str element :
  match ReadElement st str element with
  | Return (_, st', _) => header_frame st st'
  | Throw _ => True
  end.
Proof.
  unfold ReadElement, reserve.
  repeat match goal with
         | |- context [match ?x with (_, _) => _ end] => destruct x
         | |- context [if ?c then _ else _] => destruct c
         end;
  cbn [bind];
  first [ exact I | apply header_frame_refl
        | apply header_frame_set_v_count | apply header_frame_set_f_count ].
Qed.

Lemma ReadProperty_frame st str element :
  header_frame st (snd (ReadProperty st str element)).
Proof.
  unfold ReadProperty, ReadVertexProperty, ReadFaceProperty. frame_cases.
Qed.

Lemma header_line_frame st element line :
  match header_line st element line with
  | go_on st' _ => header_frame st st'
  | stop => True
  | failed st' => header_frame st st'
  | raised _ => True
  end.
Proof.
  unfold header_line. destruct (eofbit _); [apply header_frame_refl|].
  destruct (get_string _ "") as [kw str].
  destruct (String.eqb kw "format").
  { pose proof (ReadFormat_frame st str) as H.
    destruct (ReadFormat st str) as [[] st']; exact H. }
  destruct (String.eqb kw "element").
  { pose proof (ReadElement_frame st str element) as H.
    destruct (ReadElement st str element) as [[[[] st'] el']|e]; exact H. }
  destruct (String.eqb kw "property").
  { pose proof (ReadProperty_frame st str element) as H.
    destruct (ReadProperty st str element) as [[] st']; exact H. }
  destruct (String.eqb kw "end_header"); [exact I|apply header_frame_refl].
Qed.

Lemma ReadHeader_loop_frame (k : nat) :
  forall st element line input ok st' input',
    ReadHeader_loop k st element line input = Return (ok, st', input') ->
    header_frame st st'.
Proof.
  induction k as [|k IH]; intros st element line input ok st' input';
    cbn [ReadHeader_loop].
  - intros H. injection H as _ <- _. apply header_frame_refl.
  - destruct (getline input line) as [line1 input1].
    destruct (fail input1); [intros H; injection H as _ <- _; apply header_frame_refl|].
    pose proof (header_line_frame st element line1) as H.
    destruct (header_line st element line1) as [st1 el1| |st1|e]; intros Hrun.
    + apply (header_frame_trans _ _ _ H). apply (IH _ _ _ _ _ _ _ Hrun).
    + injection Hrun as _ <- _. apply header_frame_refl.
    + injection Hrun as _ <- _. exact H.
    + discriminate.
Qed.

(** X9. Whatever the stream holds and whether it succeeds or not,
    [ReadHeader] leaves the points, the facets, the material and the
    record of what was handed over as they were, and it only appends to
    the vertex schema and to the face schema: entries already there keep
    their place. *)
Theorem ReadHeader_keeps :
  forall st0 input ok st input',
    ReadHeader st0 input = Return (ok, st, input') ->
    header_frame st0 st.
Proof.
  intros st0 input ok st input' H.
  apply (ReadHeader_loop_frame _ _ _ _ _ _ _ _ H).
Qed.

(** ** The binary decoder never fails *)

Lemma addVertexProperty_counts (prop : PropertyArray) (st : ReaderPLY) :
  v_count (addVertexProperty prop st) = v_count st /\
  f_count (addVertexProperty prop st) = f_count st /\
  face_props (addVertexProperty prop st) = face_props st /\
  format (addVertexProperty prop st) = format st.
Proof.
  unfold addVertexProperty. cbn [_material push_point].
  destruct (_material st) as [m|]; [destruct (Binding_eqb (binding m) PER_VERTEX)|];
    repeat split; reflexivity.
Qed.

Section BinaryTotal.

Context {IS : InputStreamOps}.

Lemma ReadVertexes_bin_loop_total (k : nat) :
  forall st is_,
    exists st' is',
      ReadVertexes_bin_loop k st is_ = (true, st', is') /\
      List.length (meshPoints st') = (List.length (meshPoints st) + k)%nat /\
      meshFacets st' = meshFacets st /\
      _kernel st' = _kernel st /\
      vertex_props st' = vertex_props st /\
      v_count st' = v_count st /\ f_count st' = f_count st /\
      face_props st' = face_props st.
Proof.
  induction k as [|k IH]; intros st is_.
  - exists st, is_. repeat split. simpl. lia.
  - cbn [ReadVertexes_bin_loop].
    destruct (read_vertex_props_bin (vertex_props st) is_ prop_values_init)
      as [is1 prop].
    destruct (IH (addVertexProperty prop st) is1)
      as (st' & is' & Hrun & Hp & Hf & Hk & Hv & Hvc & Hfc & Hfp).
    destruct (addVertexProperty_keeps prop st) as (Av & Ak & Af & Ap).
    destruct (addVertexProperty_counts prop st) as (Avc & Afc & Afp & _).
    exists st', is'. rewrite Hrun, Hp, Hf, Hk, Hv, Hvc, Hfc, Hfp, Ap, length_app.
    repeat split; try assumption. simpl. lia.
Qed.

(** X10. The binary [ReadVertexes] cannot fail and does not look at the
    state of the stream: whatever the stream holds, even nothing, it
    returns true after appending exactly [v_count] points; facets and
    schema are untouched. *)
Theorem binary_vertexes_never_fail :
  forall st is_,
    exists st' is',
      ReadVertexes_bin st is_ = (true, st', is') /\
      List.length (meshPoints st')
      = (List.length (meshPoints st) + Z.to_nat (v_count st))%nat /\
      meshFacets st' = meshFacets st /\
      vertex_props st' = vertex_props st /\
      _kernel st' = _kernel st.
Proof.
  intros st is_. unfold ReadVertexes_bin.
  destruct (ReadVertexes_bin_loop_total (Z.to_nat (v_count st)) st is_)
    as (st' & is' & Hrun & Hp & Hf & Hk & Hv & _).
  exists st', is'. repeat split; assumption.
Qed.

Lemma read_face_record_step st is_ vars :
  let st' := fst (fst (read_face_record st is_ vars)) in
  v_count st' = v_count st /\ meshPoints st' = meshPoints st /\
  _kernel st' = _kernel st /\ _material st' = _material st /\
  (meshFacets st' = meshFacets st \/
   exists f, meshFacets st' = (meshFacets st ++ [f])%list /\
             facet_in_range (v_count st) f).
Proof.
  unfold read_face_record.
  destruct (get_uint8 is_ (n vars)) as [nv is1].
  destruct (nv =? 3); [|cbn; repeat split; left; reflexivity].
  destruct (get_uint32 is1 (f1 vars)) as [a1 is2].
  destruct (get_uint32 is2 (f2 vars)) as [a2 is3].
  destruct (get_uint32 is3 (f3 vars)) as [a3 is4].
  destruct ((a1 <? v_count st) && (a2 <? v_count st) && (a3 <? v_count st)) eqn:E.
  - cbn [push_facet face_props].
    destruct (skip_face_props (face_props st) is4 nv). cbn.
    repeat split. right. eexists. split; [reflexivity|].
    rewrite !andb_true_iff, !Z.ltb_lt in E. unfold facet_in_range. cbn. tauto.
  - destruct (skip_face_props (face_props st) is4 nv). cbn.
    repeat split. left. reflexivity.
Qed.

Lemma ReadFaces_bin_loop_total (k : nat) :
  forall st is_ vars,
    exists st' is' new,
      ReadFaces_bin_loop k st is_ vars = (true, st', is') /\
      meshFacets st' = (meshFacets st ++ new)%list /\
      Forall (facet_in_range (v_count st)) new /\
      (List.length new <= k)%nat /\
      meshPoints st' = meshPoints st /\ _kernel st' = _kernel st /\
      _material st' = _material st.
Proof.
  induction k as [|k IH]; intros st is_ vars.
  - exists st, is_, []. rewrite app_nil_r. repeat split; auto.
  - cbn [ReadFaces_bin_loop].
    pose proof (read_face_record_step st is_ vars) as H.
    destruct (read_face_record st is_ vars) as [[st1 is1] vars1].
    cbn [fst] in H. destruct H as (Hvc & Hp & Hk & Hm & Hf).
    destruct (IH st1 is1 vars1) as (st' & is' & new & Hrun & Hn & Hall & Hlen & P & K & M).
    rewrite Hvc in Hall.
    destruct Hf as [Hf|(f & Hf & Hr)].
    + exists st', is', new. rewrite Hrun, Hn, Hf, P, K, M.
      repeat split; auto.
    + exists st', is', (f :: new). rewrite Hrun, Hn, Hf, P, K, M, <- app_assoc.
      repeat split; auto. simpl. lia.
Qed.

(** X11. The binary [ReadFaces] cannot fail either, and every facet it
    appends, at most [f_count] of them, has its three indices below
    [v_count]; points and material are untouched. *)
Theorem binary_faces_in_range :
  forall st is_,
    exists st' is' new,
      ReadFaces_bin st is_ = (true, st', is') /\
      meshFacets st' = (meshFacets st ++ new)%list /\
      Forall (facet_in_range (v_count st)) new /\
      (List.length new <= Z.to_nat (f_count st))%nat /\
      meshPoints st' = meshPoints st /\
      _material st' = _material st.
Proof.
  intros st is_. unfold ReadFaces_bin.
  destruct (ReadFaces_bin_loop_total (Z.to_nat (f_count st)) st is_ face_vars_init)
    as (st' & is' & new & Hrun & Hn & Hall & Hlen & P & K & M).
  exists st', is', new. repeat split; assumption.
Qed.

End BinaryTotal.

(** ** The ASCII face decoder *)

Lemma lexical_cast_int_range (s : string) (v : Z) :
  lexical_cast_int s = Return v -> INT_MIN <= v <= INT_MAX.
Proof.
  unfold lexical_cast_int.
  destruct (match s with
            | String "-"%char s' => (true, s')
            | String "+"%char s' => (false, s')
            | _ => (false, s)
            end) as [neg ds].
  destruct (take_digits 0 0 ds) as [[v0 k] r].
  destruct k; [discriminate|]. destruct r; [|discriminate].
  destruct ((INT_MIN <=? (if neg then - v0 else v0)) &&
            ((if neg then - v0 else v0) <=? INT_MAX)) eqn:E; [|discriminate].
  intros H. injection H as <-.
  apply andb_true_iff in E. rewrite !Z.leb_le in E. exact E.
Qed.

Lemma read_face_line_step st line st' :
  read_face_line st line = Return st' ->
  meshPoints st' = meshPoints st /\ _kernel st' = _kernel st /\
  _material st' = _material st /\
  (meshFacets st' = meshFacets st \/
   exists f, meshFacets st' = (meshFacets st ++ [f])%list /\ facet_of_ints f).
Proof.
  unfold read_face_line. destruct (regex_search line rx_f) as [w|].
  - destruct (lexical_cast_int (what w 1)) as [i1|] eqn:E1; cbn [bind]; [|discriminate].
    destruct (lexical_cast_int (what w 2)) as [i2|] eqn:E2; cbn [bind]; [|discriminate].
    destruct (lexical_cast_int (what w 3)) as [i3|] eqn:E3; cbn [bind]; [|discriminate].
    intros H. injection H as <-. cbn. repeat split. right.
    eexists. split; [reflexivity|].
    unfold facet_of_ints. cbn.
    pose proof (lexical_cast_int_range _ _ E1).
    pose proof (lexical_cast_int_range _ _ E2).
    pose proof (lexical_cast_int_range _ _ E3). tauto.
  - intros H. injection H as <-. repeat split. left. reflexivity.
Qed.

Lemma ReadFaces_ascii_loop_result (k : nat) :
  forall st line input ok st' input',
    ReadFaces_ascii_loop k st line input = Return (ok, st', input') ->
    ok = true /\
    meshPoints st' = meshPoints st /\ _kernel st' = _kernel st /\
    _material st' = _material st /\
    exists new,
      meshFacets st' = (meshFacets st ++ new)%list /\
      (List.length new <= k)%nat /\ Forall facet_of_ints new.
Proof.
  induction k as [|k IH]; intros st line input ok st' input' H;
    cbn [ReadFaces_ascii_loop] in H.
  - injection H as <- <- _. repeat split. exists []. rewrite app_nil_r. auto.
  - destruct (getline input line) as [line1 input1].
    destruct (fail input1).
    + injection H as <- <- _. repeat split. exists []. rewrite app_nil_r.
      repeat split; [simpl; lia|constructor].
    + destruct (read_face_line st line1) as [st1|e] eqn:E; cbn [bind] in H;
        [|discriminate].
      destruct (read_face_line_step _ _ _ E) as (P1 & K1 & M1 & F1).
      destruct (IH _ _ _ _ _ _ H) as (-> & P & K & M & new & Hn & Hlen & Hall).
      rewrite P, K, M, Hn. repeat split; try assumption.
      destruct F1 as [F1|(f & F1 & Hf)]; rewrite F1.
      * exists new. repeat split; [lia|assumption].
      * exists (f :: new). rewrite <- app_assoc. repeat split; [simpl; lia|].
        constructor; assumption.
Qed.

(** X12. The ASCII [ReadFaces] never returns false: a call that returns
    has returned true, with at most [f_count] facets appended, each index
    a value that an [int] holds, and with the points and the material
    untouched. *)
Theorem ascii_faces_never_false :
  forall st input ok st' input',
    ReadFaces_ascii st input = Return (ok, st', input') ->
    ok = true /\
    meshPoints st' = meshPoints st /\
    _material st' = _material st /\
    exists new,
      meshFacets st' = (meshFacets st ++ new)%list /\
      (List.length new <= Z.to_nat (f_count st))%nat /\
      Forall facet_of_ints new.
Proof.
  intros st input ok st' input' H. unfold ReadFaces_ascii in H.
  destruct (ReadFaces_ascii_loop_result _ _ _ _ _ _ _ H)
    as (Hok & P & K & M & new & Hn).
  repeat split; try assumption. exists new. exact Hn.
Qed.

(** ** Handing the mesh over *)

Section Handoff.

Context {LC : LexicalCast} {IS : InputStreamOps}.

Lemma ReadVertexes_ascii_loop_kernel (k : nat) :
  forall st line input ok st' input',
    ReadVertexes_ascii_loop k st line input = Return (ok, st', input') ->
    _kernel st' = _kernel st /\ meshFacets st' = meshFacets st.
Proof.
  induction k as [|k IH]; intros st line input ok st' input' H;
    cbn [ReadVertexes_ascii_loop] in H.
  - injection H as _ <- _. auto.
  - destruct (getline input line) as [line1 input1].
    destruct (fail input1); [injection H as _ <- _; auto|].
    destruct (read_vertex_props (vertex_props st) line1 prop_values_init)
      as [[[line2 prop]|]|e]; cbn [bind] in H; [| |discriminate].
    + destruct (IH _ _ _ _ _ _ H) as [K F].
      destruct (addVertexProperty_keeps prop st) as (_ & Ak & Af & _).
      rewrite K, F, Ak, Af. auto.
    + injection H as _ <- _. auto.
Qed.

Lemma CleanupMesh_kernel st :
  _kernel (CleanupMesh st) = (_kernel st ++ [handed_over st])%list.
Proof.
  unfold CleanupMesh, handed_over.
  destruct (RemoveInvalids _ _ _) as [points facets]. cbn [fst snd].
  destruct (Adopt _ _) as [points' facets']. reflexivity.
Qed.

Lemma CleanupMesh_vertex_props st :
  vertex_props (CleanupMesh st) = vertex_props st.
Proof.
  unfold CleanupMesh.
  destruct (RemoveInvalids _ _ _) as [points facets].
  destruct (Adopt _ _) as [points' facets']. reflexivity.
Qed.

Lemma LoadAscii_kernel st input ok st' input' :
  LoadAscii st input = Return (ok, st', input') ->
  if ok then exists st1, st' = CleanupMesh st1 /\ _kernel st1 = _kernel st
  else _kernel st' = _kernel st.
Proof.
  unfold LoadAscii.
  destruct (ReadVertexes_ascii st input) as [[[ok1 st1] input1]|e] eqn:Ev;
    cbn [bind]; [|discriminate].
  unfold ReadVertexes_ascii in Ev.
  destruct (ReadVertexes_ascii_loop_kernel _ _ _ _ _ _ _ Ev) as [K1 _].
  destruct ok1; cbn [negb].
  - destruct (ReadFaces_ascii st1 input1) as [[[ok2 st2] input2]|e] eqn:Ef;
      cbn [bind]; [|discriminate].
    unfold ReadFaces_ascii in Ef.
    destruct (ReadFaces_ascii_loop_result _ _ _ _ _ _ _ Ef) as (-> & _ & K2 & _).
    cbn [negb]. intros H. injection H as <- <- _.
    exists st2. split; [reflexivity|congruence].
  - intros H. injection H as <- <- _. assumption.
Qed.

Lemma LoadBinary_kernel st input :
  exists st1 input',
    LoadBinary st input = (true, CleanupMesh st1, input') /\
    _kernel st1 = _kernel st.
Proof.
  unfold LoadBinary.
  set (is0 := if Format.eqb (format st) Format.binary_little_endian
              then setByteOrder LittleEndian (new_InputStream input)
              else setByteOrder BigEndian (new_InputStream input)).
  unfold ReadVertexes_bin.
  destruct (ReadVertexes_bin_loop_total (Z.to_nat (v_count st)) st is0)
    as (st1 & is1 & -> & _ & _ & K1 & _).
  cbn [negb]. unfold ReadFaces_bin.
  destruct (ReadFaces_bin_loop_total (Z.to_nat (f_count st1)) st1 is1 face_vars_init)
    as (st2 & is2 & new & -> & _ & _ & _ & _ & K2 & _).
  cbn [negb]. exists st2. eexists. split; [reflexivity|congruence].
Qed.

(** X13. [Load] hands the mesh over exactly once when it returns true:
    the reader it ends with is the one that [CleanupMesh] leaves, and the
    record of the kernel has gained one entry, the arrays that
    [CleanupMesh] passed to [Adopt]. When [Load] returns false nothing was
    handed over, whichever stage failed and whatever the format. *)
Theorem Load_hands_over_once :
  forall st0 input ok st' input',
    Load st0 input = Return (ok, st', input') ->
    if ok
    then exists st1,
           st' = CleanupMesh st1 /\
           _kernel st' = (_kernel st0 ++ [handed_over st1])%list
    else _kernel st' = _kernel st0.
Proof.
  intros st0 input ok st' input' H. unfold Load in H.
  destruct (CheckHeader input) as [ok1 input1].
  destruct ok1; cbn [negb] in H; [|injection H as <- <- _; reflexivity].
  destruct (ReadHeader st0 input1) as [[[ok2 st2] input2]|e] eqn:Eh;
    cbn [bind] in H; [|discriminate].
  destruct (ReadHeader_loop_frame _ _ _ _ _ _ _ _ Eh) as (_ & _ & _ & Kh & _).
  destruct ok2; cbn [negb] in H; [|injection H as <- <- _; assumption].
  destruct (VerifyVertexProperty st2); cbn [negb] in H;
    [|injection H as <- <- _; assumption].
  destruct (VerifyColorProperty st2) as [ok3 st3] eqn:Ec.
  destruct (VerifyColorProperty_keeps _ _ _ Ec) as (_ & Kc & _ & _).
  destruct ok3; cbn [negb] in H; [|injection H as <- <- _; congruence].
  destruct (Format.eqb (format st3) Format.ascii).
  - pose proof (LoadAscii_kernel _ _ _ _ _ H) as K. destruct ok.
    + destruct K as (st1 & -> & K1). exists st1. split; [reflexivity|].
      rewrite CleanupMesh_kernel. congruence.
    + congruence.
  - destruct (LoadBinary_kernel st3 input2) as (st1 & input4 & E4 & K1).
    rewrite E4 in H. injection H as <- <- _.
    exists st1. split; [reflexivity|].
    rewrite CleanupMesh_kernel. congruence.
Qed.

End Handoff.

(** ** Layout of binary vertex records *)

Section VertexLayout.

Context {IS : InputStreamOps} {ISL : InputStreamLaws IS}.

Ltac vertex_field law :=
  match goal with
  | H : strlen ?bs = _ |- context [?get (bin_stream ?o (?bs ++ ?rest)) ?v] =>
      let E := fresh in
      pose proof (law o bs rest v H) as E;
      destruct (get (bin_stream o (bs ++ rest)) v);
      cbn [snd fst] in *; subst; reflexivity
  end.

(** One vertex property takes exactly as many bytes as its kind is wide. *)
Lemma read_vertex_prop_bin_layout (it : Property * Number) o bs rest prop_values :
  strlen bs = width (snd it) ->
  fst (read_vertex_prop_bin it (bin_stream o (bs ++ rest)) prop_values)
  = bin_stream o rest.
Proof.
  intros H. unfold read_vertex_prop_bin.
  destruct (snd it); cbn [width] in H.
  - vertex_field law_int8.
  - vertex_field law_uint8.
  - vertex_field law_int16.
  - vertex_field law_uint16.
  - vertex_field law_int32.
  - vertex_field law_uint32.
  - vertex_field law_float.
  - vertex_field law_double.
Qed.

Lemma read_vertex_props_bin_layout (props : list (Property * Number)) :
  forall o bs rest prop_values,
    strlen bs = record_width props ->
    fst (read_vertex_props_bin props (bin_stream o (bs ++ rest)) prop_values)
    = bin_stream o rest.
Proof.
  induction props as [|it props IH]; intros o bs rest prop_values H;
    cbn [record_width read_vertex_props_bin] in *.
  - destruct bs; [reflexivity|discriminate].
  - destruct (split_at (width (snd it)) bs) as (a & c & -> & Ha); [lia|].
    rewrite strlen_append in H. rewrite append_assoc.
    pose proof (read_vertex_prop_bin_layout it o a (c ++ rest) prop_values Ha) as E.
    destruct (read_vertex_prop_bin it _ prop_values) as [is1 pv1].
    cbn [fst] in E. subst is1. apply IH. lia.
Qed.

Lemma ReadVertexes_bin_loop_layout (k : nat) :
  forall st o bs rest,
    strlen bs = (k * record_width (vertex_props st))%nat ->
    snd (ReadVertexes_bin_loop k st (bin_stream o (bs ++ rest))) = bin_stream o rest.
Proof.
  induction k as [|k IH]; intros st o bs rest H; cbn [ReadVertexes_bin_loop].
  - destruct bs; [reflexivity|discriminate].
  - destruct (split_at (record_width (vertex_props st)) bs) as (a & c & -> & Ha);
      [lia|].
    rewrite strlen_append in H. rewrite append_assoc.
    pose proof (read_vertex_props_bin_layout (vertex_props st) o a (c ++ rest)
                  prop_values_init Ha) as E.
    destruct (read_vertex_props_bin (vertex_props st) _ prop_values_init)
      as [is1 pv1].
    cbn [fst] in E. subst is1.
    apply IH. destruct (addVertexProperty_keeps pv1 st) as (-> & _). lia.
Qed.

(** X14. When the bytes of [v_count] vertex records are there, each
    record as wide as the kinds of the whole vertex schema together,
    entries of generic role included, the binary [ReadVertexes] takes
    exactly those bytes: the face records are read from the byte behind
    them. *)
Theorem binary_vertex_records_layout :
  forall st o bs rest,
    strlen bs = (Z.to_nat (v_count st) * record_width (vertex_props st))%nat ->
    snd (ReadVertexes_bin st (bin_stream o (bs ++ rest))) = bin_stream o rest.
Proof.
  intros st o bs rest H. unfold ReadVertexes_bin.
  apply ReadVertexes_bin_loop_layout. assumption.
Qed.

End VertexLayout.

(** ** Colours only under per-vertex binding *)

Lemma Binding_eqb_neq (a c : Binding) : a <> c -> Binding_eqb a c = false.
Proof. destruct a, c; simpl; congruence. Qed.

Lemma addVertexProperty_no_color (prop : PropertyArray) (st : ReaderPLY) :
  not_per_vertex (_material st) ->
  _material (addVertexProperty prop st) = _material st.
Proof.
  intros H. unfold addVertexProperty. cbn [_material push_point].
  destruct (_material st) as [m|] eqn:E; cbn [not_per_vertex] in H.
  - rewrite (Binding_eqb_neq _ _ H). cbn. exact E.
  - cbn. exact E.
Qed.

Lemma VerifyColorProperty_no_triple (st : ReaderPLY) :
  color_total (vertex_props st) <> 3 ->
  snd (VerifyColorProperty st) = st.
Proof.
  intros H. unfold VerifyColorProperty. rewrite color_total_count.
  apply Z.eqb_neq in H. rewrite H.
  destruct (negb _ && negb false); reflexivity.
Qed.

Lemma read_face_line_schema st line st' :
  read_face_line st line = Return st' -> vertex_props st' = vertex_props st.
Proof.
  unfold read_face_line. destruct (regex_search line rx_f) as [w|].
  - destruct (lexical_cast_int (what w 1)); cbn [bind]; [|discriminate].
    destruct (lexical_cast_int (what w 2)); cbn [bind]; [|discriminate].
    destruct (lexical_cast_int (what w 3)); cbn [bind]; [|discriminate].
    intros H. injection H as <-. reflexivity.
  - intros H. injection H as <-. reflexivity.
Qed.

Lemma ReadFaces_ascii_loop_schema (k : nat) :
  forall st line input ok st' input',
    ReadFaces_ascii_loop k st line input = Return (ok, st', input') ->
    vertex_props st' = vertex_props st.
Proof.
  induction k as [|k IH]; intros st line input ok st' input' H;
    cbn [ReadFaces_ascii_loop] in H.
  - injection H as _ <- _. reflexivity.
  - destruct (getline input line) as [line1 input1].
    destruct (fail input1); [injection H as _ <- _; reflexivity|].
    destruct (read_face_line st line1) as [st1|e] eqn:E; cbn [bind] in H;
      [|discriminate].
    rewrite (IH _ _ _ _ _ _ H). apply (read_face_line_schema _ _ _ E).
Qed.

Section NoColors.

Context {LC : LexicalCast} {IS : InputStreamOps}.

Lemma ReadVertexes_bin_loop_no_color (k : nat) :
  forall st is_,
    not_per_vertex (_material st) ->
    _material (snd (fst (ReadVertexes_bin_loop k st is_))) = _material st.
Proof.
  induction k as [|k IH]; intros st is_ H; cbn [ReadVertexes_bin_loop];
    [reflexivity|].
  destruct (read_vertex_props_bin (vertex_props st) is_ prop_values_init)
    as [is1 prop].
  pose proof (addVertexProperty_no_color prop st H) as E.
  rewrite IH; [assumption|]. rewrite E. assumption.
Qed.

Lemma ReadVertexes_ascii_loop_no_color (k : nat) :
  forall st line input ok st' input',
    not_per_vertex (_material st) ->
    ReadVertexes_ascii_loop k st line input = Return (ok, st', input') ->
    _material st' = _material st /\ vertex_props st' = vertex_props st.
Proof.
  induction k as [|k IH]; intros st line input ok st' input' Hm H;
    cbn [ReadVertexes_ascii_loop] in H.
  - injection H as _ <- _. auto.
  - destruct (getline input line) as [line1 input1].
    destruct (fail input1); [injection H as _ <- _; auto|].
    destruct (read_vertex_props (vertex_props st) line1 prop_values_init)
      as [[[line2 prop]|]|e]; cbn [bind] in H; [| |discriminate].
    + pose proof (addVertexProperty_no_color prop st Hm) as E.
      destruct (addVertexProperty_keeps prop st) as (Av & _).
      destruct (IH _ _ _ _ _ _ ltac:(rewrite E; exact Hm) H) as [M V].
      rewrite M, V, E, Av. auto.
    + injection H as _ <- _. auto.
Qed.

Lemma ReadVertexes_ascii_loop_schema (k : nat) :
  forall st line input ok st' input',
    ReadVertexes_ascii_loop k st line input = Return (ok, st', input') ->
    vertex_props st' = vertex_props st.
Proof.
  induction k as [|k IH]; intros st line input ok st' input' H;
    cbn [ReadVertexes_ascii_loop] in H.
  - injection H as _ <- _. reflexivity.
  - destruct (getline input line) as [line1 input1].
    destruct (fail input1); [injection H as _ <- _; reflexivity|].
    destruct (read_vertex_props (vertex_props st) line1 prop_values_init)
      as [[[line2 prop]|]|e]; cbn [bind] in H; [| |discriminate].
    + rewrite (IH _ _ _ _ _ _ H). apply addVertexProperty_keeps.
    + injection H as _ <- _. reflexivity.
Qed.

Lemma ReadFaces_bin_loop_schema (k : nat) :
  forall st is_ vars,
    vertex_props (snd (fst (ReadFaces_bin_loop k st is_ vars))) = vertex_props st.
Proof.
  induction k as [|k IH]; intros st is_ vars; cbn [ReadFaces_bin_loop];
    [reflexivity|].
  assert (vertex_props (fst (fst (read_face_record st is_ vars))) = vertex_props st)
    as E.
  { unfold read_face_record.
    destruct (get_uint8 is_ (n vars)) as [nv is1].
    destruct (nv =? 3); [|reflexivity].
    destruct (get_uint32 is1 (f1 vars)) as [a1 is2].
    destruct (get_uint32 is2 (f2 vars)) as [a2 is3].
    destruct (get_uint32 is3 (f3 vars)) as [a3 is4].
    destruct ((a1 <? v_count st) && (a2 <? v_count st) && (a3 <? v_count st));
      cbn [push_facet face_props];
      destruct (skip_face_props (face_props st) is4 nv); reflexivity. }
  destruct (read_face_record st is_ vars) as [[st1 is1] vars1].
  cbn [fst] in E. rewrite IH. exact E.
Qed.

Lemma LoadAscii_schema_material st input ok st' input' :
  LoadAscii st input = Return (ok, st', input') ->
  exists st1,
    st' = (if ok then CleanupMesh st1 else st1) /\
    vertex_props st1 = vertex_props st /\
    (not_per_vertex (_material st) -> _material st1 = _material st).
Proof.
  unfold LoadAscii.
  destruct (ReadVertexes_ascii st input) as [[[ok1 st1] input1]|e] eqn:Ev;
    cbn [bind]; [|discriminate].
  unfold ReadVertexes_ascii in Ev.
  pose proof (ReadVertexes_ascii_loop_schema _ _ _ _ _ _ _ Ev) as V1.
  assert (not_per_vertex (_material st) -> _material st1 = _material st) as M1.
  { intros Hm. apply (ReadVertexes_ascii_loop_no_color _ _ _ _ _ _ _ Hm Ev). }
  destruct ok1; cbn [negb].
  - destruct (ReadFaces_ascii st1 input1) as [[[ok2 st2] input2]|e] eqn:Ef;
      cbn [bind]; [|discriminate].
    unfold ReadFaces_ascii in Ef.
    destruct (ReadFaces_ascii_loop_result _ _ _ _ _ _ _ Ef) as (-> & _ & _ & M2 & _).
    pose proof (ReadFaces_ascii_loop_schema _ _ _ _ _ _ _ Ef) as V2.
    cbn [negb]. intros H. injection H as <- <- _.
    exists st2. split; [reflexivity|]. split; [congruence|].
    intros Hm. rewrite M2. auto.
  - intros H. injection H as <- <- _. exists st1. auto.
Qed.

Lemma LoadBinary_schema_material st input :
  exists st1 input',
    LoadBinary st input = (true, CleanupMesh st1, input') /\
    vertex_props st1 = vertex_props st /\
    (not_per_vertex (_material st) -> _material st1 = _material st).
Proof.
  unfold LoadBinary.
  set (is0 := if Format.eqb (format st) Format.binary_little_endian
              then setByteOrder LittleEndian (new_InputStream input)
              else setByteOrder BigEndian (new_InputStream input)).
  unfold ReadVertexes_bin.
  pose proof (ReadVertexes_bin_loop_no_color (Z.to_nat (v_count st)) st is0) as M1.
  destruct (ReadVertexes_bin_loop_total (Z.to_nat (v_count st)) st is0)
    as (st1 & is1 & E1 & _ & _ & _ & V1 & _).
  rewrite E1 in M1 |- *. cbn [fst snd negb] in *. unfold ReadFaces_bin.
  pose proof (ReadFaces_bin_loop_schema (Z.to_nat (f_count st1)) st1 is1
                face_vars_init) as V2.
  destruct (ReadFaces_bin_loop_total (Z.to_nat (f_count st1)) st1 is1 face_vars_init)
    as (st2 & is2 & new & E2 & _ & _ & _ & _ & _ & M2).
  rewrite E2 in V2 |- *. cbn [fst snd negb] in *.
  exists st2. eexists. split; [reflexivity|]. split; [congruence|].
  intros Hm. rewrite M2. auto.
Qed.

(** X15. Colours are appended under per-vertex binding only. When the
    caller's material is absent, or its binding is not per-vertex, and the
    vertex schema that [Load] ends with does not have three colour
    entries, then no stage of the reader changes the material: when
    [Load] returns false the material is as it was, and when [Load]
    returns true the material was as it was when [CleanupMesh] took it,
    so what [MeshCleanup] is given is the material of the caller. *)
Theorem Load_keeps_material_without_colors :
  forall st0 input ok st' input',
    not_per_vertex (_material st0) ->
    Load st0 input = Return (ok, st', input') ->
    color_total (vertex_props st') <> 3 ->
    if ok
    then exists st1, st' = CleanupMesh st1 /\ _material st1 = _material st0
    else _material st' = _material st0.
Proof.
  intros st0 input ok st' input' Hm H Hc. unfold Load in H.
  destruct (CheckHeader input) as [ok1 input1].
  destruct ok1; cbn [negb] in H; [|injection H as <- <- _; reflexivity].
  destruct (ReadHeader st0 input1) as [[[ok2 st2] input2]|e] eqn:Eh;
    cbn [bind] in H; [|discriminate].
  destruct (ReadHeader_loop_frame _ _ _ _ _ _ _ _ Eh) as (_ & _ & Mh & _).
  destruct ok2; cbn [negb] in H; [|injection H as <- <- _; assumption].
  destruct (VerifyVertexProperty st2); cbn [negb] in H;
    [|injection H as <- <- _; assumption].
  destruct (VerifyColorProperty st2) as [ok3 st3] eqn:Ec.
  destruct (VerifyColorProperty_keeps _ _ _ Ec) as (Vc & _).
  assert (vertex_props st' = vertex_props st3 -> st3 = st2) as Hsame.
  { intros E. rewrite E, Vc in Hc.
    pose proof (VerifyColorProperty_no_triple st2 Hc) as E3.
    rewrite Ec in E3. exact E3. }
  destruct ok3; cbn [negb] in H.
  2:{ injection H as <- <- _. rewrite Hsame; [assumption|reflexivity]. }
  destruct (Format.eqb (format st3) Format.ascii).
  - destruct (LoadAscii_schema_material _ _ _ _ _ H) as (st1 & E & V & M).
    assert (vertex_props st' = vertex_props st3) as Hv.
    { rewrite E. destruct ok; [rewrite CleanupMesh_vertex_props|]; assumption. }
    specialize (Hsame Hv). subst st3.
    assert (_material st1 = _material st0) as M1.
    { rewrite M; [assumption|]. rewrite Mh. assumption. }
    destruct ok; [exists st1; split; assumption|].
    rewrite E. assumption.
  - destruct (LoadBinary_schema_material st3 input2) as (st1 & input4 & E4 & V & M).
    rewrite E4 in H. injection H as <- <- _.
    assert (vertex_props (CleanupMesh st1) = vertex_props st3) as Hv.
    { rewrite CleanupMesh_vertex_props. assumption. }
    specialize (Hsame Hv). subst st3.
    exists st1. split; [reflexivity|].
    rewrite M; [assumption|]. rewrite Mh. assumption.
Qed.

End NoColors.

(** ** Searching for a number *)

Lemma isspace_nonword (c : ascii) : isspace c = true -> isword c = false.
Proof.
  unfold isspace, isword, isalpha, isdigit.
  rewrite orb_true_iff, andb_true_iff, !Z.leb_le, Z.eqb_eq. intros H.
  repeat (apply orb_false_iff; split);
    try (apply andb_false_iff);
    try (apply Z.eqb_neq; lia).
  - destruct (Z.leb_spec 65 (code c)); [right; apply Z.leb_gt; lia|left; reflexivity].
  - destruct (Z.leb_spec 97 (code c)); [right; apply Z.leb_gt; lia|left; reflexivity].
  - destruct (Z.leb_spec 48 (code c)); [right; apply Z.leb_gt; lia|left; reflexivity].
Qed.

Lemma isdigit_word (c : ascii) : isdigit c = true -> isword c = true.
Proof. intros H. unfold isword. rewrite H, orb_true_r. reflexivity. Qed.

Lemma search_from_found (re : regex) (m : mstate) (s : string) (w : smatch) :
  match_here re m = Some w -> search_from re m s = Some w.
Proof. intros H. destruct s; cbn [search_from]; rewrite H; reflexivity. Qed.

Lemma last_char_class (q : ascii -> bool) (a : string) (before : option ascii) :
  (forall c, q c = true -> isword c = false) ->
  all_chars q a = true -> isword_at before = false ->
  isword_at (last_char a before) = false.
Proof.
  intros Hq. revert before. induction a as [|c a IH]; intros before Ha Hb; cbn in *.
  - assumption.
  - apply andb_true_iff in Ha. destruct Ha as [Hc Ha]. apply IH; [assumption|].
    cbn. apply Hq. assumption.
Qed.

(** The search walks over characters at which the pattern cannot start. *)
Lemma search_from_skip (q : ascii -> bool) (re : regex) (junk s : string) :
  (forall c, q c = true -> isword c = false) ->
  (forall m c r,
     rest m = String c r -> q c = true -> isword_at (prev m) = false ->
     match_here re m = None) ->
  all_chars q junk = true ->
  forall m,
    rest m = junk ++ s -> isword_at (prev m) = false ->
    search_from re m (junk ++ s) = search_from re (feed m junk s) s.
Proof.
  intros Hq Hfail. induction junk as [|c junk IH]; intros Hj m Hm Hp.
  - cbn [append] in *. rewrite <- Hm, feed_empty. reflexivity.
  - cbn [all_chars] in Hj. apply andb_true_iff in Hj. destruct Hj as [Hc Hj].
    cbn [append search_from] in *. rewrite (Hfail m c _ Hm Hc Hp).
    rewrite (IH Hj (step m c (junk ++ s))); [|reflexivity|].
    + rewrite feed_step. reflexivity.
    + cbn. apply Hq. assumption.
Qed.

Lemma nonword_not_word (c : ascii) : nonword c = true -> isword c = false.
Proof. unfold nonword. apply negb_true_iff. Qed.

Lemma takes_boundary (m : mstate) :
  xorb (isword_at (prev m)) (isword_at (next_char (rest m))) = true ->
  takes WordBoundary m m.
Proof. intros H k res Hk. cbn [rmatch]. rewrite H. assumption. Qed.

Lemma takes_opt_skip (re : regex) (m : mstate) :
  (forall k, rmatch re m k = None) -> takes (Opt re) m m.
Proof. intros H k res Hk. cbn [rmatch]. rewrite H. assumption. Qed.

Lemma takes_opt (re : regex) (m m' : mstate) :
  takes re m m' -> takes (Opt re) m m'.
Proof. intros H k res Hk. cbn [rmatch]. rewrite (H k res Hk). reflexivity. Qed.

Lemma takes_set (p : ascii -> bool) (m : mstate) (c : ascii) (r : string) :
  rest m = String c r -> p c = true -> takes (Set_ p) m (step m c r).
Proof. intros Hm Hc k res Hk. cbn [rmatch]. rewrite Hm, Hc. assumption. Qed.

Lemma rmatch_set_stops (p : ascii -> bool) (m : mstate) k :
  stops p (rest m) -> rmatch (Set_ p) m k = None.
Proof.
  intros H. cbn [rmatch]. destruct (rest m) as [|c r]; [reflexivity|].
  cbn in H. rewrite H. reflexivity.
Qed.

(** What a successful match at [m] reports. *)
Lemma match_here_takes (re : regex) (m m' : mstate) :
  takes re m m' ->
  match_here re m
  = Some {| what_0 := prefix_of (pos m' - pos m) (rest m); what_subs := subs m' |}.
Proof. intros H. unfold match_here. rewrite (H Some m' eq_refl). reflexivity. Qed.

Lemma rx_u_cannot_start (m : mstate) (c : ascii) (r : string) :
  rest m = String c r -> nonword c = true -> isword_at (prev m) = false ->
  match_here rx_u m = None.
Proof.
  intros Hm Hc Hp. unfold match_here, rx_u. cbn [seq rmatch].
  rewrite Hm, Hp. cbn [next_char isword_at].
  unfold nonword in Hc. apply negb_true_iff in Hc. rewrite Hc. reflexivity.
Qed.

Lemma rx_s_cannot_start (m : mstate) (c : ascii) (r : string) :
  rest m = String c r -> nonword c = true -> isword_at (prev m) = false ->
  match_here rx_s m = None.
Proof.
  intros Hm Hc Hp. unfold match_here, rx_s. cbn [seq rmatch].
  rewrite Hm, Hp. cbn [next_char isword_at].
  unfold nonword in Hc. apply negb_true_iff in Hc. rewrite Hc. reflexivity.
Qed.

Lemma digits_boundary (m : mstate) (d r : string) :
  rest m = d ++ r -> digits d -> isword_at (prev m) = false ->
  xorb (isword_at (prev m)) (isword_at (next_char (rest m))) = true.
Proof.
  intros Hm [Hne Hd] Hp. rewrite Hm, Hp.
  destruct d as [|c d]; [contradiction|]. cbn in *.
  apply andb_true_iff in Hd. apply isdigit_word. tauto.
Qed.

Lemma digits_no_sign_ahead (d r : string) : digits d -> stops sign_class (d ++ r).
Proof.
  intros [Hne Hd]. destruct d as [|c d]; [contradiction|]. cbn in *.
  apply andb_true_iff in Hd. apply isdigit_no_sign. tauto.
Qed.

(** From a state in front of digits, [rx_u] matches the digits and the
    whitespace behind them. *)
Lemma rx_u_takes (m : mstate) (d sep tail : string) :
  rest m = d ++ sep ++ tail -> isword_at (prev m) = false ->
  digits d -> blank sep -> stops isdigit (sep ++ tail) -> stops isspace tail ->
  exists m',
    takes rx_u m m' /\ pos m' = (pos m + strlen d + strlen sep)%nat /\
    subs m' = (1%nat, d) :: subs m.
Proof.
  intros Hm Hp Hd Hs Hsd Ht.
  eexists. split; [|split].
  - unfold rx_u. cbn [seq].
    apply (takes_seq _ _ m m); [apply takes_boundary; apply (digits_boundary m d _ Hm Hd Hp)|].
    eapply takes_seq.
    + apply (takes_digits_group 1 m d (sep ++ tail) Hm Hd Hsd).
    + apply takes_star; [reflexivity|exact Hs|exact Ht].
  - reflexivity.
  - reflexivity.
Qed.

(** The same for [rx_s], whose optional sign finds none. *)
Lemma rx_s_takes (m : mstate) (d sep tail : string) :
  rest m = d ++ sep ++ tail -> isword_at (prev m) = false ->
  digits d -> blank sep -> stops isdigit (sep ++ tail) -> stops isspace tail ->
  exists m',
    takes rx_s m m' /\ pos m' = (pos m + strlen d + strlen sep)%nat /\
    subs m' = (1%nat, d) :: subs m.
Proof.
  intros Hm Hp Hd Hs Hsd Ht.
  pose proof Hd as [Hne Hall].
  set (m1 := feed m d (sep ++ tail)).
  exists (feed (close_group 1 m m1) sep tail). split; [|split].
  - unfold rx_s. cbn [seq].
    apply (takes_seq _ _ m m); [apply takes_boundary; apply (digits_boundary m d _ Hm Hd Hp)|].
    apply (takes_seq _ _ m (close_group 1 m m1)).
    + apply takes_group. apply (takes_seq _ _ m m).
      * apply takes_opt_skip. intros k. apply rmatch_set_stops.
        rewrite Hm. apply digits_no_sign_ahead. assumption.
      * apply takes_plus; assumption.
    + apply takes_star; [reflexivity|exact Hs|exact Ht].
  - cbn. lia.
  - cbn. rewrite Hm. replace (pos m + strlen d - pos m)%nat with (strlen d) by lia.
    rewrite prefix_of_append. reflexivity.
Qed.

(** Both integer patterns find the first run of digits that only
    characters outside words precede, and match it with the whitespace
    behind it; what precedes the digits, whitespace or a sign, is not part
    of the match. *)
Lemma integer_pattern_search (re : regex) (junk d sep tail : string) :
  re = rx_u \/ re = rx_s ->
  all_chars nonword junk = true -> digits d -> blank sep ->
  stops isdigit (sep ++ tail) -> stops isspace tail ->
  exists w,
    regex_search (junk ++ d ++ sep ++ tail) re = Some w /\
    what w 1 = d /\ what w 0 = d ++ sep.
Proof.
  intros Hre Hj Hd Hs Hsd Ht. unfold regex_search.
  set (m0 := {| pos := 0; prev := None; rest := junk ++ d ++ sep ++ tail; subs := [] |}).
  assert (forall m c r, rest m = String c r -> nonword c = true ->
                        isword_at (prev m) = false -> match_here re m = None) as Hfail.
  { destruct Hre as [-> | ->]; [apply rx_u_cannot_start|apply rx_s_cannot_start]. }
  rewrite (search_from_skip nonword re junk _ nonword_not_word Hfail Hj m0 eq_refl eq_refl).
  set (m1 := feed m0 junk (d ++ sep ++ tail)).
  assert (isword_at (prev m1) = false) as Hp1.
  { apply (last_char_class nonword); [apply nonword_not_word|assumption|reflexivity]. }
  assert (exists m', takes re m1 m' /\ pos m' = (pos m1 + strlen d + strlen sep)%nat /\
                     subs m' = (1%nat, d) :: subs m1) as (m' & Htk & Hpos & Hsub).
  { destruct Hre as [-> | ->];
      [apply (rx_u_takes m1 d sep tail)|apply (rx_s_takes m1 d sep tail)];
      auto. }
  exists {| what_0 := prefix_of (pos m' - pos m1) (rest m1); what_subs := subs m' |}.
  split; [apply search_from_found; apply match_here_takes; assumption|].
  cbn [what what_0 what_subs]. rewrite Hsub, Hpos. split; [reflexivity|].
  replace (pos m1 + strlen d + strlen sep - pos m1)%nat with (strlen (d ++ sep))
    by (rewrite strlen_append; lia).
  cbn [rest m1 feed]. rewrite <- append_assoc. apply prefix_of_append.
Qed.

(** ** Decimal tokens *)

Lemma rx_d_parts : rx_d = Seq (Group 1 rx_number) (Star isspace).
Proof. reflexivity. Qed.

Lemma isspace_no_exp (c : ascii) : isspace c = true -> exp_class c = false.
Proof.
  unfold isspace, exp_class.
  rewrite orb_true_iff, andb_true_iff, !Z.leb_le, Z.eqb_eq. intros H.
  apply orb_false_iff. split; apply Z.eqb_neq; lia.
Qed.

Lemma isspace_no_sign (c : ascii) : isspace c = true -> sign_class c = false.
Proof.
  unfold isspace, sign_class.
  rewrite orb_true_iff, andb_true_iff, !Z.leb_le, Z.eqb_eq. intros H.
  apply orb_false_iff. split; apply Z.eqb_neq; lia.
Qed.

Lemma isspace_no_point (c : ascii) : isspace c = true -> Ascii.eqb c "." = false.
Proof.
  intros H. apply Ascii.eqb_neq. intros ->. vm_compute in H. discriminate.
Qed.

Lemma exp_no_digit (c : ascii) : exp_class c = true -> isdigit c = false.
Proof.
  unfold exp_class, isdigit. rewrite orb_true_iff, !Z.eqb_eq. intros H.
  apply andb_false_iff. destruct H as [H | H]; rewrite H; right; reflexivity.
Qed.

Lemma exp_no_point (c : ascii) : exp_class c = true -> Ascii.eqb c "." = false.
Proof.
  intros H. apply Ascii.eqb_neq. intros ->. vm_compute in H. discriminate.
Qed.

Lemma point_no_sign : sign_class "." = false.
Proof. reflexivity. Qed.

Lemma after_token_stops (p : ascii -> bool) (r : string) :
  (forall c, isspace c = true -> p c = false) -> after_token r -> stops p r.
Proof. intros Hp Hr. destruct r as [|c r]; cbn in *; [trivial|apply Hp; assumption]. Qed.

Lemma strlen_cons (c : ascii) (s : string) : strlen (String c s) = S (strlen s).
Proof. reflexivity. Qed.

Lemma step_feed (m : mstate) (c : ascii) (r : string) :
  step m c r = feed m (String c "") r.
Proof.
  rewrite <- (feed_step m c "" r r).
  symmetry. apply (feed_empty (step m c r)).
Qed.

Lemma takes_sign (m : mstate) (sg r : string) :
  rest m = sg ++ r -> sign_text sg -> (sg = "" -> stops sign_class r) ->
  takes (Opt (Set_ sign_class)) m (feed m sg r).
Proof.
  intros Hm [-> | (c & -> & Hc)] Hr.
  - cbn [append] in Hm. rewrite <- Hm, feed_empty.
    apply takes_opt_skip. intros k. apply rmatch_set_stops.
    rewrite Hm. apply Hr. reflexivity.
  - rewrite <- step_feed. apply takes_opt. apply takes_set; assumption.
Qed.

(** The star gives back its last character when the rest of the pattern
    needs it. *)
Lemma match_star_back_one (p : ascii -> bool) (a : string) (c : ascii) (r : string) :
  all_chars p a = true -> p c = true -> stops p r ->
  forall m k res,
    rest m = a ++ String c r ->
    k (feed m (a ++ String c "") r) = None ->
    k (feed m a (String c r)) = Some res ->
    match_star p m (a ++ String c r) k = Some res.
Proof.
  intros Ha Hc Hr. induction a as [|x a IH]; intros m k res Hm Hfull Hk.
  - cbn [append] in *. cbn [match_star]. rewrite Hc.
    assert (match_star p (step m c r) r k = None) as ->.
    { rewrite step_feed.
      destruct r as [|y r]; cbn [match_star]; [assumption|].
      cbn [stops] in Hr. rewrite Hr. assumption. }
    rewrite <- Hm, feed_empty in Hk. assumption.
  - cbn [all_chars] in Ha. apply andb_true_iff in Ha. destruct Ha as [Hx Ha].
    cbn [append match_star]. rewrite Hx.
    rewrite (IH Ha (step m x (a ++ String c r)) k res); [reflexivity|reflexivity| |].
    + rewrite feed_step. assumption.
    + rewrite feed_step. assumption.
Qed.

Lemma digits_snoc (d : string) :
  digits d ->
  exists a c, d = a ++ String c "" /\ all_chars isdigit a = true /\ isdigit c = true.
Proof.
  intros [Hne Hd]. induction d as [|x d IH]; [contradiction|].
  cbn [all_chars] in Hd. apply andb_true_iff in Hd. destruct Hd as [Hx Hd].
  destruct d as [|y d].
  - exists "", x. repeat split. assumption.
  - destruct (IH ltac:(discriminate) Hd) as (a & c & E & Ha & Hc).
    exists (String x a), c. rewrite E. cbn [append all_chars]. rewrite Hx, Ha.
    repeat split. assumption.
Qed.

Lemma exponent_ahead (p : ascii -> bool) (ex r : string) :
  (forall c, exp_class c = true -> p c = false) ->
  exponent_text ex -> stops p r -> stops p (ex ++ r).
Proof.
  intros Hp [-> | (e & sg & ed & -> & He & _)] Hr; [assumption|].
  cbn. apply Hp. assumption.
Qed.

(** The optional exponent takes an exponent, or nothing before
    whitespace and at the end. *)
Lemma takes_exponent (m : mstate) (ex r : string) :
  rest m = ex ++ r -> exponent_text ex -> after_token r ->
  exists m',
    takes (Opt rx_exponent) m m' /\ pos m' = (pos m + strlen ex)%nat /\ rest m' = r.
Proof.
  intros Hm [-> | (e & sg & ed & -> & He & Hsg & Hed)] Hr.
  - exists m. split; [|split].
    + apply takes_opt_skip. intros k. unfold rx_exponent. cbn [seq rmatch].
      cbn [append] in Hm. rewrite Hm.
      destruct r as [|c r]; [reflexivity|].
      cbn in Hr. rewrite (isspace_no_exp c Hr). reflexivity.
    + unfold strlen. cbn. lia.
    + assumption.
  - pose proof Hed as [Hne Hall].
    set (m1 := step m e (sg ++ ed ++ r)).
    set (m2 := feed m1 sg (ed ++ r)).
    set (m3 := feed m2 ed r).
    exists (close_group 4 m m3). split; [|split].
    + apply takes_opt. unfold rx_exponent. cbn [seq]. apply takes_group.
      apply (takes_seq _ _ m m1).
      { apply takes_set; [|assumption].
        rewrite Hm. cbn [append]. rewrite <- append_assoc. reflexivity. }
      apply (takes_seq _ _ m1 m2).
      { apply takes_sign; [reflexivity|assumption|].
        intros _. apply digits_no_sign_ahead. assumption. }
      apply takes_plus; [reflexivity|assumption|assumption|].
      apply after_token_stops; [apply isspace_not_digit|assumption].
    + cbn [close_group pos]. subst m3 m2 m1. cbn [feed step pos].
      rewrite strlen_cons, strlen_append. lia.
    + reflexivity.
Qed.

Lemma takes_fraction (m : mstate) (fp ex r : string) :
  rest m = fp ++ ex ++ r -> digits fp -> exponent_text ex -> after_token r ->
  exists m',
    takes rx_fraction m m' /\
    pos m' = (pos m + strlen fp + strlen ex)%nat /\ rest m' = r.
Proof.
  intros Hm Hfp Hex Hr. pose proof Hfp as [Hne Hall].
  set (m1 := feed m fp (ex ++ r)).
  destruct (takes_exponent m1 ex r eq_refl Hex Hr) as (m2 & Htk & Hpos & Hrest).
  exists (close_group 3 m m2). split; [|split].
  - unfold rx_fraction. apply takes_group. apply (takes_seq _ _ m m1); [|assumption].
    apply takes_plus; [assumption|assumption|assumption|].
    apply exponent_ahead; [apply exp_no_digit|assumption|].
    apply after_token_stops; [apply isspace_not_digit|assumption].
  - cbn. rewrite Hpos. reflexivity.
  - cbn. assumption.
Qed.

(** A number with a point: the digits before the point go to group 2. *)
Lemma takes_number_point (m : mstate) (sg ip fp ex r : string) :
  rest m = sg ++ ip ++ "." ++ fp ++ ex ++ r ->
  sign_text sg -> all_chars isdigit ip = true -> digits fp -> exponent_text ex ->
  after_token r ->
  exists m',
    takes rx_number m m' /\
    pos m' = (pos m + strlen (sg ++ ip ++ "." ++ fp ++ ex))%nat /\ rest m' = r.
Proof.
  intros Hm Hsg Hip Hfp Hex Hr.
  set (m1 := feed m sg (ip ++ "." ++ fp ++ ex ++ r)).
  set (m2 := feed m1 ip ("." ++ fp ++ ex ++ r)).
  set (m3 := step (close_group 2 m m2) "." (fp ++ ex ++ r)).
  destruct (takes_fraction m3 fp ex r eq_refl Hfp Hex Hr) as (m4 & Htk & Hpos & Hrest).
  exists m4. split; [|split].
  - unfold rx_number, rx_integral. cbn [seq].
    apply (takes_seq _ _ m (close_group 2 m m2)).
    { apply takes_group. apply (takes_seq _ _ m m1).
      - apply takes_sign; [assumption|assumption|].
        intros _. destruct ip as [|c ip]; cbn; [reflexivity|].
        cbn in Hip. apply andb_true_iff in Hip. apply isdigit_no_sign. tauto.
      - apply takes_star; [reflexivity|assumption|reflexivity]. }
    apply (takes_seq _ _ _ m3); [|assumption].
    apply takes_opt. apply takes_chr. reflexivity.
  - rewrite Hpos. subst m3 m2 m1. cbn [close_group feed step pos].
    rewrite !strlen_append. unfold strlen. cbn [String.length]. lia.
  - assumption.
Qed.

(** A number without a point: the last digit goes to group 3, the digits
    before it to group 2. *)
Lemma takes_number_whole (m : mstate) (sg ip ex r : string) :
  rest m = sg ++ ip ++ ex ++ r ->
  sign_text sg -> digits ip -> exponent_text ex -> after_token r ->
  exists m',
    takes rx_number m m' /\
    pos m' = (pos m + strlen (sg ++ ip ++ ex))%nat /\ rest m' = r.
Proof.
  intros Hm Hsg Hip Hex Hr.
  destruct (digits_snoc ip Hip) as (a & c & -> & Ha & Hc).
  rewrite (append_assoc a) in Hm. cbn [append] in Hm.
  set (m1 := feed m sg (a ++ String c (ex ++ r))).
  set (m2 := close_group 2 m (feed m1 a (String c (ex ++ r)))).
  assert (rest m2 = String c "" ++ ex ++ r) as Hm2 by reflexivity.
  destruct (takes_fraction m2 (String c "") ex r Hm2) as (m3 & Htk & Hpos & Hrest);
    [split; [discriminate|cbn; rewrite Hc; reflexivity]|assumption|assumption|].
  exists m3. split; [|split].
  - intros k res Hk.
    set (k2 := fun m' => rmatch (Seq (Opt (Chr ".")) rx_fraction) (close_group 2 m m') k).
    change (rmatch (Opt (Set_ sign_class)) m
              (fun m' => rmatch (Star isdigit) m' k2) = Some res).
    apply (takes_sign m sg (a ++ String c (ex ++ r)) Hm Hsg).
    { intros _. destruct a as [|x a]; cbn in *; [apply isdigit_no_sign; assumption|].
      apply andb_true_iff in Ha. apply isdigit_no_sign. tauto. }
    fold m1. change (match_star isdigit m1 (a ++ String c (ex ++ r)) k2 = Some res).
    assert (stops isdigit (ex ++ r)) as Hstop.
    { apply exponent_ahead; [apply exp_no_digit|assumption|].
      apply after_token_stops; [apply isspace_not_digit|assumption]. }
    assert (stops (fun x => Ascii.eqb x ".") (ex ++ r)) as Hpoint.
    { apply exponent_ahead; [apply exp_no_point|assumption|].
      apply after_token_stops; [apply isspace_no_point|assumption]. }
    apply (match_star_back_one isdigit a c (ex ++ r) Ha Hc Hstop); [reflexivity| |].
    + unfold k2, rx_fraction. cbn [close_group feed rest pos prev subs rmatch].
      destruct (ex ++ r) as [|y s]; [reflexivity|].
      cbn in Hstop, Hpoint. rewrite Hpoint, Hstop. reflexivity.
    + unfold k2. fold m2. apply (takes_seq _ _ m2 m2 m3); [|assumption|assumption].
      apply takes_opt_skip. intros k'. cbn [rmatch]. rewrite Hm2. cbn [append].
      replace (Ascii.eqb c ".") with false; [reflexivity|].
      symmetry. apply Ascii.eqb_neq. intros ->. vm_compute in Hc. discriminate.
  - rewrite Hpos. subst m2 m1. cbn [close_group feed step pos].
    rewrite !strlen_append. unfold strlen. cbn [String.length]. lia.
  - assumption.
Qed.

Lemma takes_number (m : mstate) (t r : string) :
  rest m = t ++ r -> decimal_token t -> after_token r ->
  exists m',
    takes rx_number m m' /\ pos m' = (pos m + strlen t)%nat /\ rest m' = r.
Proof.
  intros Hm [(sg & ip & ex & -> & Hsg & Hip & Hex)
            | (sg & ip & fp & ex & -> & Hsg & Hip & Hfp & Hex)] Hr.
  - apply takes_number_whole; try assumption.
    rewrite Hm, !append_assoc. reflexivity.
  - apply takes_number_point; try assumption.
    rewrite Hm, !append_assoc. reflexivity.
Qed.

(** From a state in front of a decimal token, [rx_d] matches the token
    and the whitespace behind it. *)
Lemma rx_d_takes (m : mstate) (t sep tail : string) :
  rest m = t ++ sep ++ tail ->
  decimal_token t -> blank sep -> after_token (sep ++ tail) -> stops isspace tail ->
  exists m',
    takes rx_d m m' /\ pos m' = (pos m + strlen t + strlen sep)%nat /\
    lookup_sub 1 (subs m') = t.
Proof.
  intros Hm Ht Hs Hr Htail.
  destruct (takes_number m t (sep ++ tail) Hm Ht Hr) as (m1 & Htk & Hpos & Hrest).
  exists (feed (close_group 1 m m1) sep tail). split; [|split].
  - rewrite rx_d_parts. apply (takes_seq _ _ m (close_group 1 m m1)).
    + apply takes_group. assumption.
    + apply takes_star; [assumption|assumption|assumption].
  - cbn. rewrite Hpos. reflexivity.
  - cbn. rewrite Hpos, Hm.
    replace (pos m + strlen t - pos m)%nat with (strlen t) by lia.
    apply prefix_of_append.
Qed.

Lemma rx_d_cannot_start (m : mstate) (c : ascii) (r : string) :
  rest m = String c r -> isspace c = true -> isword_at (prev m) = false ->
  match_here rx_d m = None.
Proof.
  intros Hm Hc _. unfold match_here, rx_d. cbn [seq rmatch].
  rewrite Hm. rewrite (isspace_no_sign c Hc). cbn [match_star].
  rewrite (isspace_not_digit c Hc). cbn [close_group rest].
  rewrite Hm, (isspace_no_point c Hc), (isspace_not_digit c Hc). reflexivity.
Qed.

(** [rx_d] finds a decimal token behind leading whitespace, and matches it
    with the whitespace behind it. *)
Lemma decimal_pattern_search (lead t sep tail : string) :
  blank lead -> decimal_token t -> blank sep ->
  after_token (sep ++ tail) -> stops isspace tail ->
  exists w,
    regex_search (lead ++ t ++ sep ++ tail) rx_d = Some w /\
    what w 1 = t /\ what w 0 = t ++ sep.
Proof.
  intros Hl Ht Hs Hr Htail. unfold regex_search.
  set (m0 := {| pos := 0; prev := None; rest := lead ++ t ++ sep ++ tail; subs := [] |}).
  rewrite (search_from_skip isspace rx_d lead _ isspace_nonword rx_d_cannot_start
             Hl m0 eq_refl eq_refl).
  set (m1 := feed m0 lead (t ++ sep ++ tail)).
  destruct (rx_d_takes m1 t sep tail eq_refl Ht Hs Hr Htail) as (m' & Htk & Hpos & Hsub).
  exists {| what_0 := prefix_of (pos m' - pos m1) (rest m1); what_subs := subs m' |}.
  split; [apply search_from_found; apply match_here_takes; assumption|].
  cbn [what what_0 what_subs]. rewrite Hsub, Hpos. split; [reflexivity|].
  replace (pos m1 + strlen t + strlen sep - pos m1)%nat with (strlen (t ++ sep))
    by (rewrite strlen_append; lia).
  cbn [rest m1 feed]. rewrite <- append_assoc. apply prefix_of_append.
Qed.

(** ** ASCII vertex lines *)

Lemma all_chars_weaken (p q : ascii -> bool) (s : string) :
  (forall c, p c = true -> q c = true) ->
  all_chars p s = true -> all_chars q s = true.
Proof.
  intros Hpq. induction s as [|c s IH]; cbn [all_chars]; [reflexivity|].
  intros H. apply andb_true_iff in H. destruct H as [Hc Hs].
  rewrite (Hpq c Hc), (IH Hs). reflexivity.
Qed.

Lemma blank_nonword (s : string) : blank s -> all_chars nonword s = true.
Proof.
  apply all_chars_weaken. intros c Hc. unfold nonword.
  rewrite (isspace_nonword c Hc). reflexivity.
Qed.

Section AsciiTokens.

Context {LC : LexicalCast} {IS : InputStreamOps}.

(** An integer property takes the first run of digits that only characters
    outside words precede. *)
Lemma read_vertex_prop_integer (role : Property) (k : Number)
  (junk d sep tail : string) (pv : PropertyArray) :
  integer_kind k = true ->
  all_chars nonword junk = true -> digits d -> blank sep ->
  after_digits (sep ++ tail) -> stops isspace tail ->
  decimal_value d <= INT_MAX ->
  read_vertex_prop (role, k) (junk ++ d ++ sep ++ tail) pv
  = Return (Some (substr (strlen d + strlen sep) (junk ++ d ++ sep ++ tail),
                  prop_set pv role (float_of_int (decimal_value d)))).
Proof.
  intros Hk Hj Hd Hs Hsd Ht Hmax.
  assert (forall re, re = rx_u \/ re = rx_s ->
            match regex_search (junk ++ d ++ sep ++ tail) re with
            | Some w =>
                v <- lexical_cast_int (what w 1) ;;
                Return (Some (substr (strlen (what w 0)) (junk ++ d ++ sep ++ tail),
                              prop_set pv role (float_of_int v)))
            | None => Return None
            end
            = Return (Some (substr (strlen d + strlen sep) (junk ++ d ++ sep ++ tail),
                            prop_set pv role (float_of_int (decimal_value d))))) as H.
  { intros re Hre.
    destruct (integer_pattern_search re junk d sep tail Hre Hj Hd Hs Hsd Ht)
      as (w & -> & -> & ->).
    rewrite (lexical_cast_int_digits d Hd Hmax). cbn [bind].
    rewrite strlen_append. reflexivity. }
  unfold read_vertex_prop. cbn [fst snd].
  destruct k; try discriminate Hk; apply H; auto.
Qed.

(** A property takes the token behind leading whitespace, and cuts the
    line by the length of the match. *)
Lemma read_vertex_prop_token (role : Property) (k : Number)
  (lead t sep tail : string) (v : cfloat) (pv : PropertyArray) :
  decodes k t v -> blank lead -> blank sep ->
  after_token (sep ++ tail) -> stops isspace tail ->
  read_vertex_prop (role, k) (lead ++ t ++ sep ++ tail) pv
  = Return (Some (substr (strlen t + strlen sep) (lead ++ t ++ sep ++ tail),
                  prop_set pv role v)).
Proof.
  intros Hdec Hl Hs Hr Ht. unfold decodes in Hdec.
  destruct (integer_kind k) eqn:Hk.
  - destruct Hdec as (Hd & Hmax & ->).
    apply read_vertex_prop_integer; try assumption.
    + apply blank_nonword. assumption.
    + apply after_token_stops; [apply isspace_not_digit|assumption].
  - destruct Hdec as (Htok & dv & Hcast & ->).
    destruct (decimal_pattern_search lead t sep tail Hl Htok Hs Hr Ht)
      as (w & Hw & H1 & H0).
    unfold read_vertex_prop. cbn [fst snd].
    destruct k; try discriminate Hk;
      rewrite Hw, H1, H0, Hcast; cbn [bind]; rewrite strlen_append; reflexivity.
Qed.

(** One more entry in front of a line that is decoded. *)
Lemma vertex_line_step (role : Property) (k : Number)
  (props : list (Property * Number)) (t sep line rest : string) (v : cfloat)
  (pv pv' : PropertyArray) :
  decodes k t v -> blank sep -> after_token (sep ++ line) -> stops isspace line ->
  read_vertex_props props line (prop_set pv role v) = Return (Some (rest, pv')) ->
  read_vertex_props ((role, k) :: props) (t ++ sep ++ line) pv
  = Return (Some (rest, pv')).
Proof.
  intros Hdec Hs Hr Ht Hrest. cbn [read_vertex_props].
  pose proof (read_vertex_prop_token role k "" t sep line v pv Hdec eq_refl Hs Hr Ht)
    as Hstep.
  cbn [append] in Hstep. rewrite Hstep. cbn [bind].
  rewrite <- strlen_append, <- append_assoc, substr_append. assumption.
Qed.

Lemma add_vertexes_points (pvs : list PropertyArray) :
  forall st,
    meshPoints (fold_left (fun s pv => addVertexProperty pv s) pvs st)
    = (meshPoints st ++ map point_of pvs)%list.
Proof.
  induction pvs as [|pv pvs IH]; intros st; cbn [fold_left map].
  - rewrite app_nil_r. reflexivity.
  - destruct (addVertexProperty_keeps pv st) as (_ & _ & _ & Hp).
    rewrite IH, Hp, <- app_assoc. reflexivity.
Qed.

Lemma vertex_fold_lines (props : list (Property * Number))
  (ls : list string) (pvs : list PropertyArray) :
  Forall2 (fun l pv => exists rest, vertex_line props l rest prop_values_init pv)
          ls pvs ->
  forall st,
    vertex_props st = props ->
    vertex_fold st ls
    = Return (Some (fold_left (fun s pv => addVertexProperty pv s) pvs st)).
Proof.
  induction 1 as [|l pv ls pvs (rest & Hl) _ IH]; intros st Hst.
  - reflexivity.
  - cbn [vertex_fold fold_left]. rewrite Hst.
    assert (read_vertex_props props l prop_values_init = Return (Some (rest, pv)))
      as ->.
    { clear - Hl. induction Hl; [reflexivity|].
      eapply vertex_line_step; eassumption. }
    cbn [bind]. apply IH. destruct (addVertexProperty_keeps pv st) as (Hv & _).
    rewrite Hv. assumption.
Qed.

End AsciiTokens.

Lemma lexical_cast_int_beyond (d : string) :
  digits d -> INT_MAX < decimal_value d ->
  lexical_cast_int d = Throw bad_lexical_cast.
Proof.
  intros [Hne Hd] Hmax. unfold lexical_cast_int.
  destruct d as [|c d]; [contradiction|].
  assert (isdigit c = true) as Hc.
  { cbn in Hd. apply andb_true_iff in Hd. tauto. }
  rewrite (digit_no_sign c d Hc), (take_digits_all _ 0 0%nat Hd).
  cbn [Nat.add strlen String.length].
  fold (decimal_value (String c d)) in *.
  replace (decimal_value (String c d) <=? INT_MAX) with false
    by (symmetry; apply Z.leb_gt; assumption).
  rewrite andb_false_r. reflexivity.
Qed.

Lemma strlen_substr (n : nat) :
  forall s, strlen (substr n s) = (strlen s - n)%nat.
Proof.
  unfold strlen. induction n as [|n IH]; intros s; cbn [substr].
  - lia.
  - destruct s as [|c s]; cbn [String.length]; [reflexivity|apply IH].
Qed.

Section AsciiVertexes.

Context {LC : LexicalCast} {IS : InputStreamOps}.

(** X16. A vertex line that holds one token for each schema entry, each
    followed by whitespace or the end of the line, is decoded entry by
    entry: the loop over the schema succeeds, stores the value of each
    token under the role of its entry, and leaves what follows the last
    token. *)
Theorem ascii_vertex_line_decoded (props : list (Property * Number))
  (line rest : string) (pv pv' : PropertyArray) :
  vertex_line props line rest pv pv' ->
  read_vertex_props props line pv = Return (Some (rest, pv')).
Proof.
  induction 1 as [rest pv|role k props t sep line rest v pv pv' Hdec Hs Hr Ht _ IH].
  - reflexivity.
  - apply (vertex_line_step role k props t sep line rest v pv pv'); assumption.
Qed.

(** X17. An integer property whose token carries a sign stores the
    magnitude: the word boundary of the pattern cannot stand in front of
    the sign, so the match starts at the first digit and the sign is not
    part of the text that is converted. The line is cut by the length of
    the match, counted from the start of the line. *)
Theorem ascii_integer_sign_dropped (role : Property) (k : Number) (c : ascii)
  (d sep tail : string) (pv : PropertyArray) :
  integer_kind k = true -> sign_class c = true ->
  digits d -> blank sep -> after_digits (sep ++ tail) -> stops isspace tail ->
  decimal_value d <= INT_MAX ->
  read_vertex_prop (role, k) (String c (d ++ sep ++ tail)) pv
  = Return (Some (substr (strlen d + strlen sep) (String c (d ++ sep ++ tail)),
                  prop_set pv role (float_of_int (decimal_value d)))).
Proof.
  intros Hk Hc Hd Hs Hsd Ht Hmax.
  apply (read_vertex_prop_integer role k (String c "") d sep tail pv); try assumption.
  cbn [all_chars]. unfold nonword, isword, isalpha, isdigit.
  unfold sign_class in Hc. apply orb_true_iff in Hc.
  rewrite !Z.eqb_eq in Hc.
  destruct Hc as [-> | ->]; reflexivity.
Qed.

(** X18. Behind leading whitespace the token is found and its value
    stored, but the line is cut by the length of the match counted from
    the start of the line, not from the start of the match: the line left
    is longer than what follows the token by the length of the leading
    whitespace. *)
Theorem ascii_leading_whitespace_cut (role : Property) (k : Number)
  (lead t sep tail : string) (v : cfloat) (pv : PropertyArray) :
  decodes k t v -> blank lead -> blank sep ->
  after_token (sep ++ tail) -> stops isspace tail ->
  read_vertex_prop (role, k) (lead ++ t ++ sep ++ tail) pv
  = Return (Some (substr (strlen t + strlen sep) (lead ++ t ++ sep ++ tail),
                  prop_set pv role v)) /\
  strlen (substr (strlen t + strlen sep) (lead ++ t ++ sep ++ tail))
  = (strlen lead + strlen tail)%nat.
Proof.
  intros Hdec Hl Hs Hr Ht. split.
  - apply read_vertex_prop_token; assumption.
  - rewrite strlen_substr, !strlen_append. lia.
Qed.

(** X19. When the stream holds as many lines as the header declared
    vertices and each is a line of tokens for the schema, the ASCII
    [ReadVertexes] returns true behind the last of them, having handed
    each record to [addVertexProperty] in turn: the points are extended by
    the point of each line, in order. *)
Theorem ascii_vertex_body_decoded (input input' : istream) (ls : list string)
  (pvs : list PropertyArray) (st : ReaderPLY) :
  reads_lines input ls input' ->
  List.length ls = Z.to_nat (v_count st) ->
  Forall2 (fun l pv => exists rest,
             vertex_line (vertex_props st) l rest prop_values_init pv) ls pvs ->
  ReadVertexes_ascii st input = Return (true, add_vertexes pvs st, input') /\
  meshPoints (add_vertexes pvs st) = (meshPoints st ++ map point_of pvs)%list.
Proof.
  intros Hreads Hlen Hlines. split.
  - unfold ReadVertexes_ascii. rewrite <- Hlen.
    replace (List.length ls) with (List.length ls + 0)%nat by lia.
    rewrite (ReadVertexes_ascii_loop_lines input ls input' Hreads st
               (add_vertexes pvs st) 0%nat); [reflexivity|].
    apply (vertex_fold_lines (vertex_props st)); [assumption|reflexivity].
  - apply add_vertexes_points.
Qed.

(** X20. An integer property whose digits denote a number above the
    largest [int] makes [lexical_cast] throw, also for the kind uint32
    whose values reach beyond: the exception leaves the loop over the
    schema, [ReadVertexes] and [LoadAscii]. *)
Theorem ascii_integer_beyond_int_throws (role : Property) (k : Number)
  (props : list (Property * Number)) (d sep tail : string)
  (st : ReaderPLY) (input input' : istream) :
  integer_kind k = true ->
  digits d -> blank sep -> after_digits (sep ++ tail) -> stops isspace tail ->
  INT_MAX < decimal_value d ->
  vertex_props st = (role, k) :: props -> 0 < v_count st ->
  getline input "" = (d ++ sep ++ tail, input') -> fail input' = false ->
  read_vertex_props (vertex_props st) (d ++ sep ++ tail) prop_values_init
  = Throw bad_lexical_cast /\
  ReadVertexes_ascii st input = Throw bad_lexical_cast /\
  LoadAscii st input = Throw bad_lexical_cast.
Proof.
  intros Hk Hd Hs Hsd Ht Hmax Hprops Hv Hg Hf.
  assert (read_vertex_props (vertex_props st) (d ++ sep ++ tail) prop_values_init
          = Throw bad_lexical_cast) as Hline.
  { rewrite Hprops. cbn [read_vertex_props].
    assert (read_vertex_prop (role, k) (d ++ sep ++ tail) prop_values_init
            = Throw bad_lexical_cast) as ->; [|reflexivity].
    assert (forall re, re = rx_u \/ re = rx_s ->
              match regex_search (d ++ sep ++ tail) re with
              | Some w =>
                  v <- lexical_cast_int (what w 1) ;;
                  Return (Some (substr (strlen (what w 0)) (d ++ sep ++ tail),
                                prop_set prop_values_init role (float_of_int v)))
              | None => Return None
              end = Throw bad_lexical_cast) as H.
    { intros re Hre.
      destruct (integer_pattern_search re "" d sep tail Hre eq_refl Hd Hs Hsd Ht)
        as (w & Hw & H1 & _).
      cbn [append] in Hw. rewrite Hw, H1, (lexical_cast_int_beyond d Hd Hmax).
      reflexivity. }
    unfold read_vertex_prop. cbn [fst snd].
    destruct k; try discriminate Hk; apply H; auto. }
  assert (ReadVertexes_ascii st input = Throw bad_lexical_cast) as Hread.
  { unfold ReadVertexes_ascii.
    destruct (Z.to_nat (v_count st)) as [|n'] eqn:En; [lia|].
    cbn [ReadVertexes_ascii_loop]. rewrite Hg, Hf, Hline. reflexivity. }
  split; [assumption|]. split; [assumption|].
  unfold LoadAscii. rewrite Hread. reflexivity.
Qed.

End AsciiVertexes.

(** ** Colours per vertex *)

Lemma add_vertexes_colors (pvs : list PropertyArray) :
  forall st colors,
    _material st = per_vertex colors ->
    _material (add_vertexes pvs st) = per_vertex (colors ++ map color_of pvs)%list.
Proof.
  unfold add_vertexes.
  induction pvs as [|pv pvs IH]; intros st colors Hm; cbn [fold_left map].
  - rewrite app_nil_r. assumption.
  - destruct (addVertexProperty_per_vertex pv st colors Hm) as [_ Hc].
    rewrite (IH _ _ Hc), <- app_assoc. reflexivity.
Qed.

Section ColorTriple.

Context {LC : LexicalCast} {IS : InputStreamOps}.

Lemma binary_records_length (n : nat) :
  forall props is_, List.length (binary_records n props is_) = n.
Proof.
  induction n as [|n IH]; intros props is_; cbn [binary_records]; [reflexivity|].
  destruct (read_vertex_props_bin props is_ prop_values_init) as [is1 pv].
  cbn [List.length]. rewrite IH. reflexivity.
Qed.

Lemma ReadVertexes_bin_loop_records (n : nat) :
  forall st is_ colors,
    _material st = per_vertex colors ->
    exists st' is',
      ReadVertexes_bin_loop n st is_ = (true, st', is') /\
      meshPoints st'
      = (meshPoints st ++ map point_of (binary_records n (vertex_props st) is_))%list /\
      _material st'
      = per_vertex (colors ++ map color_of (binary_records n (vertex_props st) is_))%list.
Proof.
  induction n as [|n IH]; intros st is_ colors Hm;
    cbn [ReadVertexes_bin_loop binary_records].
  - exists st, is_. cbn [map]. rewrite !app_nil_r. auto.
  - destruct (read_vertex_props_bin (vertex_props st) is_ prop_values_init)
      as [is1 pv].
    destruct (addVertexProperty_per_vertex pv st colors Hm) as [Hp Hc].
    destruct (addVertexProperty_keeps pv st) as (Hv & _).
    destruct (IH (addVertexProperty pv st) is1 _ Hc) as (st' & is' & Hrun & Hpts & Hcol).
    exists st', is'. cbn [map].
    rewrite Hrun, Hpts, Hcol, Hp, Hv, <- !app_assoc. auto.
Qed.

(** C6. With exactly three colour entries in the schema and a material
    present, validation sets the binding of the material to per-vertex
    and changes nothing else. From then on [addVertexProperty] appends,
    for every record, the point of the buffered coordinates and one
    colour whose red, green and blue channels are the buffered red, green
    and blue values, each divided by 255 in binary32 arithmetic. So the
    binary decoder appends, for the [v_count] records it decodes from the
    stream, their points and their colours in the same order; the ASCII
    decoder does so for the records of the vertex lines, the values of
    their tokens; and after every run of the ASCII decoder, complete or
    not, the colours appended are those of the points appended, in their
    order. *)
Theorem color_triple_binds_per_vertex :
  forall st m,
    color_total (vertex_props st) = 3 ->
    _material st = Some m ->
    let st1 := snd (VerifyColorProperty st) in
    fst (VerifyColorProperty st) = true /\
    st1 = set_material (per_vertex (diffuseColor m)) st /\
    (forall buf st2 colors,
       _material st2 = per_vertex colors ->
       meshPoints (addVertexProperty buf st2)
       = (meshPoints st2 ++ [point_of buf])%list /\
       _material (addVertexProperty buf st2)
       = per_vertex (colors ++ [color_of buf])%list) /\
    (forall is_,
       let bufs := binary_records (Z.to_nat (v_count st)) (vertex_props st) is_ in
       List.length bufs = Z.to_nat (v_count st) /\
       exists st2 is',
         ReadVertexes_bin st1 is_ = (true, st2, is') /\
         meshPoints st2 = (meshPoints st ++ map point_of bufs)%list /\
         _material st2 = per_vertex (diffuseColor m ++ map color_of bufs)%list) /\
    (forall input ls input' bufs,
       reads_lines input ls input' ->
       List.length ls = Z.to_nat (v_count st) ->
       Forall2 (fun l buf => exists rest,
                  vertex_line (vertex_props st) l rest prop_values_init buf)
               ls bufs ->
       exists st2,
         ReadVertexes_ascii st1 input = Return (true, st2, input') /\
         meshPoints st2 = (meshPoints st ++ map point_of bufs)%list /\
         _material st2 = per_vertex (diffuseColor m ++ map color_of bufs)%list) /\
    (forall input ok st2 input',
       ReadVertexes_ascii st1 input = Return (ok, st2, input') ->
       exists bufs,
         (List.length bufs <= Z.to_nat (v_count st))%nat /\
         meshPoints st2 = (meshPoints st ++ map point_of bufs)%list /\
         _material st2 = per_vertex (diffuseColor m ++ map color_of bufs)%list).
Proof.
  intros st m H3 Hm st1. subst st1.
  rewrite (VerifyColorProperty_activates st m H3 Hm). cbn [fst snd].
  set (st1 := set_material (per_vertex (diffuseColor m)) st).
  assert (_material st1 = per_vertex (diffuseColor m)) as Hm1 by reflexivity.
  split; [reflexivity|]. split; [reflexivity|]. split; [|split; [|split]].
  - intros buf st2 colors Hc. apply addVertexProperty_per_vertex. assumption.
  - intros is_. split; [apply binary_records_length|].
    unfold ReadVertexes_bin.
    apply (ReadVertexes_bin_loop_records _ st1 is_ _ Hm1).
  - intros input ls input' bufs Hr Hlen Hlines.
    exists (add_vertexes bufs st1). split; [|split].
    + unfold ReadVertexes_ascii.
      change (v_count st1) with (v_count st). rewrite <- Hlen.
      replace (List.length ls) with (List.length ls + 0)%nat by lia.
      rewrite (ReadVertexes_ascii_loop_lines input ls input' Hr st1
                 (add_vertexes bufs st1) 0%nat); [reflexivity|].
      apply (vertex_fold_lines (vertex_props st)); [assumption|reflexivity].
    + apply (add_vertexes_points bufs st1).
    + apply (add_vertexes_colors bufs st1 _ Hm1).
  - intros input ok st2 input' Hrun. unfold ReadVertexes_ascii in Hrun.
    apply (ReadVertexes_ascii_loop_per_vertex _ st1 _ _ _ _ _ _ Hm1 Hrun).
Qed.

End ColorTriple.

End Further.

(** ** The properties at work *)

Ltac shape_goal :=
  match goal with
  | |- blank _ => reflexivity
  | |- separator _ => split; [discriminate|reflexivity]
  | |- token _ => split; [discriminate|reflexivity]
  | |- digits _ => split; [discriminate|reflexivity]
  | |- after_token _ => first [exact I|reflexivity]
  | |- after_digits _ => first [exact I|reflexivity]
  | |- stops _ _ => first [exact I|reflexivity]
  | |- no_number _ => first [exact I|repeat split]
  end.

Lemma CheckHeader_magic_run :
  fst (CheckHeader (stream_of "ply 1")) = true /\
  @Load DecimalCast ByteStreamOps SampleLimits PlainMesh
      (new_ReaderPLY None) (stream_of "plx")
  = Return (false, new_ReaderPLY None, snd (CheckHeader (stream_of "plx"))).
Proof.
  destruct (@CheckHeader_magic SampleLimits PlainMesh DecimalCast ByteStreamOps) as (H1 & _ & _ & _ & H5).
  split.
  - apply (proj2 (H1 "ply 1")). exists " 1". reflexivity.
  - apply (H5 (new_ReaderPLY None) (stream_of "plx")). reflexivity.
Defined.

Lemma header_skips_other_lines_run :
  @header_line SampleLimits reader_faces "vertex" "comment made by hand"
  = go_on reader_faces "vertex".
Proof.
  apply (proj2 header_skips_other_lines reader_faces "vertex" "" "comment" " made by hand");
    try shape_goal. reflexivity.
Defined.

Lemma header_stops_at_end_header_run :
  exists st,
    @ReadHeader SampleLimits (new_ReaderPLY None)
      (advance (unlines (header_xyz ++ ["end_header"])%list ++ "0 0 0"))
    = Return (true, st, advance "0 0 0") /\
    v_count st = 3.
Proof.
  eexists. split.
  - apply (header_stops_at_end_header (new_ReaderPLY None) _ header_xyz "" ""
             (advance "0 0 0") _ "face").
    + reflexivity.
    + exact I.
    + apply (reads_unlines (header_xyz ++ ["end_header"])%list "0 0 0").
      apply no_newline_lines. reflexivity.
    + vm_compute. reflexivity.
  - reflexivity.
Defined.


Lemma element_line_without_count_run :
  @header_line SampleLimits reader_faces "" "element vertex "
  = go_on (set_v_count 0 reader_faces) "vertex".
Proof.
  apply (proj1 element_line_without_count reader_faces "" "" " " "vertex" " " "");
    shape_goal.
Defined.

Lemma vertex_property_line_run :
  @header_line SampleLimits reader_faces "vertex" "property uchar red"
  = go_on (push_vertex_prop (color_r, uint8) reader_faces) "vertex".
Proof.
  apply (proj1 vertex_property_line reader_faces "" " " "uchar" " " "red" "");
    shape_goal.
Defined.

Lemma face_property_line_run :
  @header_line SampleLimits reader_faces "face" "property list uchar int vertex_indices"
  = go_on reader_faces "face".
Proof.
  apply (proj1 face_property_line reader_faces "" " " " " "uchar" " " "int" " "
           "vertex_indices" "");
    shape_goal.
Defined.

Lemma property_line_without_context_run :
  @header_line SampleLimits reader_faces "" "property float x" = go_on reader_faces "".
Proof.
  apply (property_line_without_context reader_faces "" "" " float x");
    try shape_goal; discriminate.
Defined.

Lemma ReadHeader_keeps_run :
  exists st input',
    @ReadHeader SampleLimits reader_colored
      (advance (unlines ["element vertex 2"; "property float nx"; "end_header"]))
    = Return (true, st, input') /\
    header_frame reader_colored st.
Proof.
  eassert (@ReadHeader SampleLimits reader_colored
             (advance (unlines ["element vertex 2"; "property float nx"; "end_header"]))
           = Return (true, _, _)) as E by (vm_compute; reflexivity).
  eexists. eexists. split; [exact E|].
  apply (ReadHeader_keeps _ _ _ _ _ E).
Defined.

Lemma ascii_faces_never_false_run :
  exists st' input',
    ReadFaces_ascii reader_two_vertices (advance (unlines ["3 0 1 0"; "4 0 1 0 1"]))
    = Return (true, st', input') /\
    meshPoints st' = meshPoints reader_two_vertices /\
    _material st' = _material reader_two_vertices.
Proof.
  eassert (ReadFaces_ascii reader_two_vertices
             (advance (unlines ["3 0 1 0"; "4 0 1 0 1"]))
           = Return (true, _, _)) as E by (vm_compute; reflexivity).
  eexists. eexists. split; [exact E|].
  destruct (ascii_faces_never_false _ _ _ _ _ E) as (_ & P & M & _).
  split; assumption.
Defined.

Lemma Load_hands_over_once_run :
  exists st' input' st1,
    @Load DecimalCast ByteStreamOps SampleLimits PlainMesh
      (new_ReaderPLY None) (stream_of file_triangle)
    = Return (true, st', input') /\
    st' = @CleanupMesh PlainMesh st1 /\
    _kernel st' = [@handed_over PlainMesh st1].
Proof.
  eassert (@Load DecimalCast ByteStreamOps SampleLimits PlainMesh
             (new_ReaderPLY None) (stream_of file_triangle)
           = Return (true, _, _)) as E by (vm_compute; reflexivity).
  destruct (Load_hands_over_once _ _ _ _ _ E) as (st1 & E1 & K).
  eexists. eexists. exists st1. split; [exact E|]. split; [exact E1|exact K].
Defined.

Lemma binary_vertex_records_layout_run :
  snd (@ReadVertexes_bin ByteStreamOps reader_faces
         (bin_stream LittleEndian (three_vertex_records ++ two_records)))
  = bin_stream LittleEndian two_records.
Proof.
  apply (@binary_vertex_records_layout ByteStreamOps ByteStreamLaws reader_faces
           LittleEndian three_vertex_records two_records).
  reflexivity.
Defined.

Lemma Load_keeps_material_without_colors_run :
  exists st' input' st1,
    @Load DecimalCast ByteStreamOps SampleLimits PlainMesh
      (new_ReaderPLY (Some sample_material)) (stream_of file_triangle)
    = Return (true, st', input') /\
    st' = @CleanupMesh PlainMesh st1 /\
    _material st1 = Some sample_material.
Proof.
  eassert (@Load DecimalCast ByteStreamOps SampleLimits PlainMesh
             (new_ReaderPLY (Some sample_material)) (stream_of file_triangle)
           = Return (true, _, _)) as E by (vm_compute; reflexivity).
  destruct (fun Hm Hc => Load_keeps_material_without_colors _ _ _ _ _ Hm E Hc)
    as (st1 & E1 & M).
  - cbn. discriminate.
  - vm_compute. discriminate.
  - eexists. eexists. exists st1. split; [exact E|]. split; [exact E1|exact M].
Defined.

Lemma sample_float_decodes (k : Number) (t : string) :
  integer_kind k = false -> decimal_token t ->
  (exists d, decimal_to_double t = Return d) ->
  @decodes DecimalCast k t (sample_float t).
Proof.
  intros Hk Ht [d Hd]. unfold decodes. rewrite Hk. split; [assumption|].
  exists d. split; [assumption|]. unfold sample_float. rewrite Hd. reflexivity.
Qed.

Lemma ascii_vertex_line_decoded_run :
  @read_vertex_props DecimalCast mixed_schema "1.5 -2e1 7" prop_values_init
  = Return (Some ("",
      prop_set (prop_set (prop_set prop_values_init coord_x (sample_float "1.5"))
                         coord_y (sample_float "-2e1"))
               coord_z (float_of_int 7))).
Proof.
  apply ascii_vertex_line_decoded.
  apply (vertex_line_cons coord_x float32 _ "1.5" " " "-2e1 7" "" (sample_float "1.5"));
    try shape_goal.
  { apply sample_float_decodes; [reflexivity| |eexists; vm_compute; reflexivity].
    right. exists "", "1", "5", "". repeat split; try discriminate. left. reflexivity.
    left. reflexivity. }
  apply (vertex_line_cons coord_y float64 _ "-2e1" " " "7" "" (sample_float "-2e1"));
    try shape_goal.
  { apply sample_float_decodes; [reflexivity| |eexists; vm_compute; reflexivity].
    left. exists "-", "2", "e1". repeat split; try discriminate.
    - right. exists "-"%char. split; reflexivity.
    - right. exists "e"%char, "", "1". repeat split; try discriminate. left. reflexivity. }
  apply (vertex_line_cons coord_z uint8 _ "7" "" "" "" (float_of_int 7));
    try shape_goal.
  { unfold decodes. cbn [integer_kind]. repeat split; [discriminate|].
    vm_compute. discriminate. }
  apply vertex_line_nil.
Defined.

Lemma ascii_integer_sign_dropped_run :
  @read_vertex_prop DecimalCast (coord_x, int32) "-5 3" prop_values_init
  = Return (Some (" 3", prop_set prop_values_init coord_x (float_of_int 5))).
Proof.
  apply (@ascii_integer_sign_dropped DecimalCast coord_x int32 "-"%char "5" " " "3"
           prop_values_init); try shape_goal; try reflexivity.
  vm_compute. discriminate.
Defined.

Lemma ascii_leading_whitespace_cut_run :
  @read_vertex_prop DecimalCast (coord_x, uint8) "  5 3" prop_values_init
  = Return (Some ("5 3", prop_set prop_values_init coord_x (float_of_int 5))).
Proof.
  apply (proj1 (@ascii_leading_whitespace_cut DecimalCast coord_x uint8 "  " "5" " " "3"
                  (float_of_int 5) prop_values_init
                  ltac:(unfold decodes; cbn [integer_kind];
                        repeat split; [discriminate|vm_compute; discriminate])
                  ltac:(reflexivity) ltac:(reflexivity) ltac:(reflexivity)
                  ltac:(reflexivity))).
Defined.

Lemma zero_line_decoded (tx ty tz : string) :
  tx = "0" \/ tx = "1" -> ty = "0" \/ ty = "1" -> tz = "0" \/ tz = "1" ->
  exists rest,
    @vertex_line DecimalCast (vertex_props reader_three_vertices)
      (tx ++ " " ++ ty ++ " " ++ tz) rest prop_values_init (sample_record tx ty tz).
Proof.
  intros Hx Hy Hz. exists "".
  assert (forall t k, t = "0" \/ t = "1" -> integer_kind k = false ->
                      @decodes DecimalCast k t (sample_float t)) as Hdec.
  { intros t k Ht Hk. apply sample_float_decodes; [assumption| |].
    - left. exists "", t, "". rewrite append_empty_r.
      repeat split; [left; reflexivity|destruct Ht as [-> | ->]; discriminate
                    |destruct Ht as [-> | ->]; reflexivity|left; reflexivity].
    - destruct Ht as [-> | ->]; eexists; vm_compute; reflexivity. }
  assert (forall t r, t = "0" \/ t = "1" -> stops isspace (t ++ r)) as Hstop.
  { intros t r [-> | ->]; reflexivity. }
  unfold sample_record. cbn [vertex_props reader_three_vertices].
  apply (vertex_line_cons coord_x float32 _ tx " " (ty ++ " " ++ tz) "" (sample_float tx));
    [apply Hdec; auto|reflexivity|reflexivity|apply Hstop; auto|].
  apply (vertex_line_cons coord_y float32 _ ty " " tz "" (sample_float ty));
    [apply Hdec; auto|reflexivity|reflexivity| |].
  { rewrite <- (append_empty_r tz). apply Hstop. assumption. }
  rewrite <- (append_empty_r tz) at 1.
  apply (vertex_line_cons coord_z float32 _ tz "" "" "" (sample_float tz));
    [apply Hdec; auto|reflexivity|exact I|exact I|].
  apply vertex_line_nil.
Qed.

Lemma ascii_vertex_body_decoded_run :
  @ReadVertexes_ascii DecimalCast reader_three_vertices
    (advance (unlines ["0 0 0"; "1 0 0"; "0 1 0"] ++ "3 0 1 2"))
  = Return (true,
            add_vertexes [sample_record "0" "0" "0"; sample_record "1" "0" "0";
                          sample_record "0" "1" "0"] reader_three_vertices,
            advance "3 0 1 2").
Proof.
  apply (proj1 (@ascii_vertex_body_decoded DecimalCast
                  (advance (unlines ["0 0 0"; "1 0 0"; "0 1 0"] ++ "3 0 1 2"))
                  (advance "3 0 1 2") ["0 0 0"; "1 0 0"; "0 1 0"]
                  [sample_record "0" "0" "0"; sample_record "1" "0" "0";
                   sample_record "0" "1" "0"] reader_three_vertices
                  ltac:(apply reads_unlines; apply no_newline_lines; reflexivity)
                  ltac:(reflexivity)
                  ltac:(apply Forall2_cons;
                          [apply (zero_line_decoded "0" "0" "0"); auto|];
                        apply Forall2_cons;
                          [apply (zero_line_decoded "1" "0" "0"); auto|];
                        apply Forall2_cons;
                          [apply (zero_line_decoded "0" "1" "0"); auto|];
                        apply Forall2_nil))).
Defined.

Ltac float_entry role t sep line :=
  apply (vertex_line_cons role float32 _ t sep line "" (sample_float t));
  [ apply sample_float_decodes;
    [ reflexivity
    | left; exists "", t, "";
      repeat split; first [left; reflexivity|discriminate]
    | eexists; vm_compute; reflexivity ]
  | reflexivity
  | first [exact I|reflexivity]
  | first [exact I|reflexivity]
  | ].

Ltac channel_entry role t sep line v :=
  apply (vertex_line_cons role uint8 _ t sep line "" (float_of_int v));
  [ unfold decodes; cbn [integer_kind];
    repeat split; [discriminate|vm_compute; discriminate]
  | reflexivity
  | first [exact I|reflexivity]
  | first [exact I|reflexivity]
  | ].

(** C6 on two coloured vertex lines: 255 becomes 1 and 128 becomes the
    binary32 number nearest to 128/255, each colour with its point. *)
Lemma color_triple_binds_per_vertex_run :
  exists st2,
    @ReadVertexes_ascii DecimalCast (snd (VerifyColorProperty reader_colored))
      (advance (unlines ["0 0 0 255 0 0"; "1 0 0 0 128 255"]))
    = Return (true, st2, advance "") /\
    meshPoints st2
    = [{| x := fzero; y := fzero; z := fzero |};
       {| x := float_of_int 1; y := fzero; z := fzero |}] /\
    _material st2
    = per_vertex [{| r := float_of_int 1; g := fzero; b := fzero |};
                  {| r := fzero; g := S754_finite false 8421505 (-24);
                     b := float_of_int 1 |}].
Proof.
  destruct (@color_triple_binds_per_vertex DecimalCast ByteStreamOps
              reader_colored sample_material eq_refl eq_refl)
    as (_ & _ & _ & _ & Hascii & _).
  destruct (Hascii (advance (unlines ["0 0 0 255 0 0"; "1 0 0 0 128 255"]))
              ["0 0 0 255 0 0"; "1 0 0 0 128 255"] (advance "")
              [sample_colored_record "0" "0" "0" 255 0 0;
               sample_colored_record "1" "0" "0" 0 128 255])
    as (st2 & E & P & M).
  - apply (reads_unlines ["0 0 0 255 0 0"; "1 0 0 0 128 255"] "").
    apply no_newline_lines. reflexivity.
  - reflexivity.
  - apply Forall2_cons; [|apply Forall2_cons; [|apply Forall2_nil]]; exists "";
      unfold sample_colored_record, sample_record;
      cbn [vertex_props reader_colored].
    + float_entry coord_x "0" " " "0 0 255 0 0".
      float_entry coord_y "0" " " "0 255 0 0".
      float_entry coord_z "0" " " "255 0 0".
      channel_entry color_r "255" " " "0 0" 255.
      channel_entry color_g "0" " " "0" 0.
      channel_entry color_b "0" "" "" 0.
      apply vertex_line_nil.
    + float_entry coord_x "1" " " "0 0 0 128 255".
      float_entry coord_y "0" " " "0 0 128 255".
      float_entry coord_z "0" " " "0 128 255".
      channel_entry color_r "0" " " "128 255" 0.
      channel_entry color_g "128" " " "255" 128.
      channel_entry color_b "255" "" "" 255.
      apply vertex_line_nil.
  - exists st2. split; [exact E|]. rewrite P, M. split; reflexivity.
Defined.

Lemma ascii_integer_beyond_int_throws_run :
  @LoadAscii DecimalCast PlainMesh reader_unsigned
    (advance (unlines ["3000000000 0 0"]))
  = Throw bad_lexical_cast.
Proof.
  apply (@ascii_integer_beyond_int_throws PlainMesh DecimalCast coord_x uint32
           [(coord_y, uint32); (coord_z, uint32)] "3000000000" " " "0 0"
           reader_unsigned (advance (unlines ["3000000000 0 0"])) (advance "")).
  - reflexivity.
  - split; [discriminate|reflexivity].
  - reflexivity.
  - reflexivity.
  - reflexivity.
  - vm_compute. reflexivity.
  - reflexivity.
  - reflexivity.
  - reflexivity.
  - reflexivity.
Defined.
